(** * Behavioral Insights tracker: a shallow embedding of [public/tracker.js]

    The tracker is one closure over a handful of mutable variables, driven by
    the browser's event loop.  The closure's variables become the record
    [State]; every handler becomes a function on [State].  The clock
    ([Date.now()]), the DOM and the random generator are the environment:
    their readings are arguments of the functions that read them.

    JavaScript numbers that are integers in the program (timestamps,
    coordinates, counters) are [Z]; the accumulated mouse path length is an
    IEEE double, a primitive [float]. *)

From Stdlib Require Import ZArith List String Ascii Bool Lia Sorted.
From Stdlib Require Import Floats.PrimFloat Floats.SpecFloat Floats.FloatOps.
From Stdlib Require HexString.
Import ListNotations.

#[local] Set Warnings "-register-all".
#[local] Open Scope string_scope.
#[local] Open Scope Z_scope.

(** ** JavaScript strings *)

Module JsString.

(** [String.prototype.toLowerCase] on the ASCII letters. *)
Definition lower_ascii (c : ascii) : ascii :=
  let n := nat_of_ascii c in
  if (Nat.leb 65 n && Nat.leb n 90)%bool then ascii_of_nat (n + 32) else c.

Fixpoint toLowerCase (s : string) : string :=
  match s with
  | EmptyString => EmptyString
  | String c r => String (lower_ascii c) (toLowerCase r)
  end.

(** White space as [trim] and the regular expression class [\s] see it,
    for code units below 256: TAB, LF, VT, FF, CR, SP and NBSP. *)
Definition is_space (c : ascii) : bool :=
  let n := nat_of_ascii c in
  (Nat.leb 9 n && Nat.leb n 13 || Nat.eqb n 32 || Nat.eqb n 160)%bool.

Fixpoint trimStart (s : string) : string :=
  match s with
  | EmptyString => EmptyString
  | String c r => if is_space c then trimStart r else s
  end.

(** [trimEnd] keeps a character when something other than white space
    follows it or when it is not white space itself. *)
Fixpoint trimEnd (s : string) : string :=
  match s with
  | EmptyString => EmptyString
  | String c r =>
      match trimEnd r with
      | EmptyString => if is_space c then EmptyString else String c EmptyString
      | r' => String c r'
      end
  end.

Definition trim (s : string) : string := trimEnd (trimStart s).

(** [s.slice(0, n)]. *)
Definition slice0 (n : nat) (s : string) : string := substring 0 n s.

(** [hay.includes(needle)]. *)
Fixpoint includes (needle hay : string) : bool :=
  (prefix needle hay ||
   match hay with
   | EmptyString => false
   | String _ r => includes needle r
   end)%bool.

(** A JavaScript string in a boolean position: only [''] is falsy. *)
Definition truthy (s : string) : bool :=
  match s with EmptyString => false | _ => true end.

(** [a || b] on strings. *)
Definition or_else (a b : string) : string := if truthy a then a else b.

Definition rev_string (s : string) : string :=
  string_of_list_ascii (rev (list_ascii_of_string s)).

(** [s.split(/\s+/)]: [cur] is the token being read, reversed; [in_sep]
    says that the previous character was white space. *)
Fixpoint split_ws_from (s cur : string) (in_sep : bool) : list string :=
  match s with
  | EmptyString => [rev_string cur]
  | String c r =>
      if is_space c
      then if in_sep then split_ws_from r cur true
           else rev_string cur :: split_ws_from r EmptyString true
      else split_ws_from r (String c cur) false
  end.

Definition split_ws (s : string) : list string := split_ws_from s EmptyString false.

(** [parts.join(sep)]. *)
Fixpoint join (sep : string) (parts : list string) : string :=
  match parts with
  | [] => EmptyString
  | [p] => p
  | p :: rest => p ++ sep ++ join sep rest
  end.

(** [list.includes(s)] for an array of strings. *)
Definition mem (s : string) (l : list string) : bool :=
  existsb (String.eqb s) l.

(** The tokens of a [class] attribute, as [classList] holds them: split on
    ASCII white space (TAB, LF, FF, CR, SP), no empty token. *)
Definition is_dom_space (c : ascii) : bool :=
  let n := nat_of_ascii c in
  (Nat.eqb n 9 || Nat.eqb n 10 || Nat.eqb n 12 || Nat.eqb n 13 || Nat.eqb n 32)%bool.

Fixpoint tokens_from (s cur : string) : list string :=
  match s with
  | EmptyString => if truthy cur then [rev_string cur] else []
  | String c r =>
      if is_dom_space c
      then if truthy cur then rev_string cur :: tokens_from r EmptyString
           else tokens_from r EmptyString
      else tokens_from r (String c cur)
  end.

Definition tokens (s : string) : list string := tokens_from s EmptyString.

End JsString.

Import JsString.

(** ** Values sent in an event payload *)

Inductive JsVal : Type :=
| JNull
| JBool (b : bool)
| JNum (n : Z)
| JStr (s : string)
| JStrs (l : list string)
| JObject (fields : list (string * JsVal)).

(** [s || null]. *)
Definition str_or_null (s : string) : JsVal :=
  if truthy s then JStr s else JNull.

(** An object literal: its keys in order. *)
Definition JsObj : Type := list (string * JsVal).

Fixpoint obj_get (k : string) (o : JsObj) : option JsVal :=
  match o with
  | [] => None
  | (k', v) :: r => if String.eqb k k' then Some v else obj_get k r
  end.


(** [{...a, ...b}] for objects with disjoint keys. *)
Definition spread (a b : JsObj) : JsObj := (a ++ b)%list.

(** ** Numbers that are doubles *)

Definition of_Z (z : Z) : float := SF2Prim (binary_normalize 53 1024 z 0 false).

(** [Math.round]: the nearest integer, a tie going up.  [None] is NaN or an
    infinity, which [JSON.stringify] writes as [null]. *)
Definition Math_round (x : float) : option Z :=
  match Prim2SF x with
  | S754_zero _ => Some 0
  | S754_finite sign m e =>
      let sm := if sign then Z.neg m else Z.pos m in
      if 0 <=? e then Some (sm * 2 ^ e)
      else let d := 2 ^ (- e) in Some ((2 * sm + d) / (2 * d))
  | _ => None
  end.

Definition num_or_null (n : option Z) : JsVal :=
  match n with Some z => JNum z | None => JNull end.

(** ** The document, as the tracker reads it *)

(** What [document.querySelector('label[for="<id>"]')] does for a field:
    the document rejects a selector it cannot parse, which is what an id
    holding a double quote makes of this one, and the call throws. *)
Inductive LabelQuery : Type :=
| InvalidSelector                (* the call throws a SyntaxError *)
| NoLabel                        (* null *)
| LabelFound (text : string).    (* a label, with its innerText *)

(** An [input], [select] or [textarea].  [f_node] is the identity of the DOM
    node; the two label fields hold what the DOM queries of [getFieldLabel]
    do. *)
Record Field : Type := mkField {
  f_node : nat;
  f_tagName : string;
  f_name : string;
  f_id : string;
  f_type : string;
  f_value : string;
  f_required : bool;
  f_placeholder : string;
  f_labelFor : LabelQuery;         (* document.querySelector('label[for="<id>"]') *)
  f_closestLabel : option string   (* innerText of field.closest('label') *)
}.

(** A [form] element: [form_inputs] is
    [form.querySelectorAll('input, select, textarea')], in document order. *)
Record Form : Type := mkForm {
  form_node : nat;
  form_id : string;
  form_name : string;
  form_action : string;
  form_inputs : list Field;
  form_offsetParent : bool         (* form.offsetParent is not null *)
}.

(** [element.className]: a string on an HTML element, an
    [SVGAnimatedString] on an SVG element.  Either way it reflects the
    [class] attribute, which is what [classList] and the attribute selectors
    read. *)
Inductive ClassName : Type :=
| ClassString (s : string)
| ClassAnimated (baseVal : string).

(** [element.value]: a string on the form controls and on [option], [data],
    [output] and [param]; a number on [li], [progress] and [meter]; not
    there on the other elements. *)
Inductive Value : Type :=
| NoValue
| StringValue (s : string)
| NumberValue (v : float).

(** [element.href]: a string on an HTML anchor, an [SVGAnimatedString] on an
    SVG one, not there on the other elements a selector of the tracker
    finds. *)
Inductive Href : Type :=
| NoHref
| HrefString (s : string)
| HrefAnimated.

(** Any element a click can land on, HTML or SVG.  [innerText], [el_name]
    and [el_hostname] are [''] where the element has no such property: the
    tracker reads each of them only in a boolean position or after [||],
    where [undefined] and [''] fare alike ([el_hostname] is read on an HTML
    anchor only).  [el_type] is [element.type], a string where there is one:
    the elements whose [type] is an object, the SVG filter primitives, are
    never rendered, so no click lands on them.  [el_asForm] is the element
    itself when it is a form, [el_firstForm] is
    [element.querySelector('form')]. *)
Inductive Element : Type := mkElement {
  tagName : string;
  el_id : string;
  className : ClassName;
  attributes : list (string * string);
  onclick : bool;                  (* element.onclick holds a handler *)
  style_cursor : string;           (* element.style.cursor *)
  computed_cursor : string;        (* getComputedStyle(element).cursor *)
  innerText : string;
  el_value : Value;
  el_type : option string;
  el_name : string;
  el_href : Href;
  el_hostname : string;
  is_body : bool;                  (* element === document.body *)
  el_asForm : option Form;
  el_firstForm : option Form;
  parentElement : option Element
}.

(** The target of an event: an element, or the document itself, which has no
    [tagName], [style] or [classList]. *)
Inductive Node : Type :=
| DocumentNode
| Elem (e : Element).

Fixpoint assoc (k : string) (l : list (string * string)) : option string :=
  match l with
  | [] => None
  | (k', v) :: r => if String.eqb k k' then Some v else assoc k r
  end.

Definition getAttribute (a : string) (e : Element) : option string :=
  assoc a (attributes e).

(** The [class] attribute. *)
Definition class_attr (e : Element) : string :=
  match className e with
  | ClassString s => s
  | ClassAnimated baseVal => baseVal
  end.

Definition classList_contains (c : string) (e : Element) : bool :=
  mem c (tokens (class_attr e)).

(** The selectors the tracker passes to [closest]. *)
Inductive Selector : Type :=
| Tag (t : string)                     (* t *)
| AttrEq (a v : string)                (* [a="v"] *)
| AttrContains (a v : string)          (* [a*="v"] *)
| Class (c : string)                   (* .c *)
| TagAttrEq (t a v : string).          (* t[a="v"] *)

Definition attr_of (a : string) (e : Element) : option string :=
  if String.eqb a "class"
  then (if truthy (class_attr e) then Some (class_attr e) else getAttribute a e)
  else getAttribute a e.

Definition attr_eq (a v : string) (e : Element) : bool :=
  match attr_of a e with
  | Some w => if String.eqb a "type" then String.eqb (toLowerCase w) v else String.eqb w v
  | None => false
  end.

Definition matches1 (sel : Selector) (e : Element) : bool :=
  match sel with
  | Tag t => String.eqb (toLowerCase (tagName e)) t
  | AttrEq a v => attr_eq a v e
  | AttrContains a v =>
      match attr_of a e with Some w => includes v w | None => false end
  | Class c => classList_contains c e
  | TagAttrEq t a v => (String.eqb (toLowerCase (tagName e)) t && attr_eq a v e)%bool
  end.

Definition matches (sels : list Selector) (e : Element) : bool :=
  existsb (fun sel => matches1 sel e) sels.

(** [element.closest(sels)]: the element or its nearest ancestor that
    matches. *)
Fixpoint closest (sels : list Selector) (e : Element) : option Element :=
  if matches sels e then Some e
  else match parentElement e with
       | Some p => closest sels p
       | None => None
       end.

Definition is_some {A : Type} (o : option A) : bool :=
  match o with Some _ => true | None => false end.

(** ** The tracker's state *)

Record ClickSample : Type := mkClick {
  c_time : Z; c_x : Z; c_y : Z; c_element : string
}.

Record MouseSample : Type := mkMove {
  m_time : Z; m_x : Z; m_y : Z
}.

Record LastField : Type := mkLastField {
  lf_name : string; lf_label : JsVal; lf_type : string
}.

Record FormData : Type := mkFormData {
  startTime : Z;
  fieldsInteracted : list string;
  lastField : option LastField;
  submitted : bool
}.

(** What [sendEvent] hands to the transport.  The fields of
    [collectBaseData] are readings of the page and the browser; they play no
    part in detection and are left out. *)
Record Envelope : Type := mkEnvelope {
  eventType : string;
  eventData : JsObj;
  interactionIndex : Z
}.

(** A callback waiting in [setTimeout]. *)
Inductive Timer : Type :=
| CancelCheck (form : nat).

Record State : Type := mkState {
  maxScrollDepth : Z;
  clickCount : Z;
  lastScrollDepthSent : Z;
  interactionCount : Z;
  recentClicks : list ClickSample;
  mouseMovements : list MouseSample;
  lastMousePosition : Z * Z;
  deadClickCount : Z;
  rageClickCount : Z;
  activeForms : list (nat * FormData);   (* a Map, in insertion order *)
  timers : list Timer;
  sent : list Envelope                   (* the transport's log, oldest first *)
}.

Definition initialState : State :=
  {| maxScrollDepth := 0; clickCount := 0; lastScrollDepthSent := 0;
     interactionCount := 0; recentClicks := []; mouseMovements := [];
     lastMousePosition := (0, 0); deadClickCount := 0; rageClickCount := 0;
     activeForms := []; timers := []; sent := [] |}.

Definition set_maxScrollDepth (v : Z) (s : State) : State :=
  mkState v (clickCount s) (lastScrollDepthSent s) (interactionCount s)
    (recentClicks s) (mouseMovements s) (lastMousePosition s) (deadClickCount s)
    (rageClickCount s) (activeForms s) (timers s) (sent s).

Definition set_clickCount (v : Z) (s : State) : State :=
  mkState (maxScrollDepth s) v (lastScrollDepthSent s) (interactionCount s)
    (recentClicks s) (mouseMovements s) (lastMousePosition s) (deadClickCount s)
    (rageClickCount s) (activeForms s) (timers s) (sent s).

Definition set_lastScrollDepthSent (v : Z) (s : State) : State :=
  mkState (maxScrollDepth s) (clickCount s) v (interactionCount s)
    (recentClicks s) (mouseMovements s) (lastMousePosition s) (deadClickCount s)
    (rageClickCount s) (activeForms s) (timers s) (sent s).

Definition set_recentClicks (v : list ClickSample) (s : State) : State :=
  mkState (maxScrollDepth s) (clickCount s) (lastScrollDepthSent s) (interactionCount s)
    v (mouseMovements s) (lastMousePosition s) (deadClickCount s)
    (rageClickCount s) (activeForms s) (timers s) (sent s).

Definition set_mouseMovements (v : list MouseSample) (s : State) : State :=
  mkState (maxScrollDepth s) (clickCount s) (lastScrollDepthSent s) (interactionCount s)
    (recentClicks s) v (lastMousePosition s) (deadClickCount s)
    (rageClickCount s) (activeForms s) (timers s) (sent s).

Definition set_lastMousePosition (v : Z * Z) (s : State) : State :=
  mkState (maxScrollDepth s) (clickCount s) (lastScrollDepthSent s) (interactionCount s)
    (recentClicks s) (mouseMovements s) v (deadClickCount s)
    (rageClickCount s) (activeForms s) (timers s) (sent s).

Definition set_deadClickCount (v : Z) (s : State) : State :=
  mkState (maxScrollDepth s) (clickCount s) (lastScrollDepthSent s) (interactionCount s)
    (recentClicks s) (mouseMovements s) (lastMousePosition s) v
    (rageClickCount s) (activeForms s) (timers s) (sent s).

Definition set_rageClickCount (v : Z) (s : State) : State :=
  mkState (maxScrollDepth s) (clickCount s) (lastScrollDepthSent s) (interactionCount s)
    (recentClicks s) (mouseMovements s) (lastMousePosition s) (deadClickCount s)
    v (activeForms s) (timers s) (sent s).

Definition set_activeForms (v : list (nat * FormData)) (s : State) : State :=
  mkState (maxScrollDepth s) (clickCount s) (lastScrollDepthSent s) (interactionCount s)
    (recentClicks s) (mouseMovements s) (lastMousePosition s) (deadClickCount s)
    (rageClickCount s) v (timers s) (sent s).

Definition set_timers (v : list Timer) (s : State) : State :=
  mkState (maxScrollDepth s) (clickCount s) (lastScrollDepthSent s) (interactionCount s)
    (recentClicks s) (mouseMovements s) (lastMousePosition s) (deadClickCount s)
    (rageClickCount s) (activeForms s) v (sent s).

(** [sendEvent]: the interaction counter goes up and the envelope goes out
    (by beacon or by fetch; neither result is looked at). *)
Definition sendEvent (type : string) (data : JsObj) (s : State) : State :=
  let n := interactionCount s + 1 in
  mkState (maxScrollDepth s) (clickCount s) (lastScrollDepthSent s) n
    (recentClicks s) (mouseMovements s) (lastMousePosition s) (deadClickCount s)
    (rageClickCount s) (activeForms s) (timers s)
    (sent s ++ [mkEnvelope type data n])%list.

(** The envelopes of one type in a log. *)
Definition ofType (type : string) (log : list Envelope) : list Envelope :=
  filter (fun e => String.eqb (eventType e) type) log.

(** What a run added to the log: the log only grows at its end. *)
Definition emitted (before after : State) : list Envelope :=
  skipn (List.length (sent before)) (sent after).

(** ** Identity: the session id *)

Module Session.

(** What [sessionStorage.getItem('bi_session')] can hold.  The tracker only
    ever writes [JSON.stringify({id, lastActivity})]; the page may have
    written anything else under the key. *)
Inductive StoredItem : Type :=
| Unparseable      (* '', or text that JSON.parse rejects: the clock is not read in the try block *)
| JsonNull         (* the text null: reading data.lastActivity throws, after the clock was read *)
| SessionJson (id : string) (lastActivity : option Z).
                   (* any other JSON text: data.id, and the number data.lastActivity
                      stands for in the subtraction, None when that is NaN *)

Definition Storage : Type := option StoredItem.

Definition thirtyMinutes : Z := 30 * 60 * 1000.

(** [getOrCreateSessionId]: [t0] and [t1] are the first and the second
    reading of [Date.now()], [fresh] is what [generateId()] returns.  The
    result is the id and the storage afterwards. *)
Definition getOrCreateSessionId (t0 t1 : Z) (fresh : string) (st : Storage)
  : string * Storage :=
  match st with
  | Some (SessionJson id (Some lastActivity)) =>
      if t0 - lastActivity <? thirtyMinutes
      then (id, Some (SessionJson id (Some t1)))
      else (fresh, Some (SessionJson fresh (Some t1)))
  | Some (SessionJson _ None) => (fresh, Some (SessionJson fresh (Some t1)))
  | Some JsonNull => (fresh, Some (SessionJson fresh (Some t1)))
  | Some Unparseable => (fresh, Some (SessionJson fresh (Some t0)))
  | None => (fresh, Some (SessionJson fresh (Some t0)))
  end.

(** The session record, when the storage holds one: an id with the time of
    last activity. *)
Definition record_of (st : Storage) : option (string * Z) :=
  match st with
  | Some (SessionJson id (Some t)) => Some (id, t)
  | _ => None
  end.

End Session.

(** ** Scroll milestones *)

Definition milestones : list Z := [25; 50; 75; 90; 100].

(** The [for] loop of [trackScroll]: the first milestone that the high-water
    mark has reached and that lies above the last one sent is sent, and the
    loop is left. *)
Fixpoint milestone_loop (ms : list Z) (s : State) : State :=
  match ms with
  | [] => s
  | milestone :: rest =>
      if ((milestone <=? maxScrollDepth s) && (lastScrollDepthSent s <? milestone))%bool
      then sendEvent "scroll_milestone"
             [("depth", JNum milestone); ("maxDepth", JNum (maxScrollDepth s))]
             (set_lastScrollDepthSent milestone s)
      else milestone_loop rest s
  end.

(** [trackScroll]; [depth] is what [getScrollDepth()] returns. *)
Definition trackScroll (depth : Z) (s : State) : State :=
  let s1 := if depth >? maxScrollDepth s then set_maxScrollDepth depth s else s in
  milestone_loop milestones s1.

(** ** Mouse motion *)

Definition direction (dx dy : Z) : string :=
  (if dx >? 0 then "R" else "L") ++ (if dy >? 0 then "D" else "U").

Definition segment (prev curr : MouseSample) : float :=
  let dx := of_Z (m_x curr - m_x prev) in
  let dy := of_Z (m_y curr - m_y prev) in
  PrimFloat.sqrt (PrimFloat.add (PrimFloat.mul dx dx) (PrimFloat.mul dy dy)).

(** The [for] loop of [detectMouseThrashing] from index [i] on: [prev] is
    [mouseMovements[i - 1]], [rest] starts at [mouseMovements[i]]. *)
Fixpoint thrash_loop (prev : MouseSample) (rest : list MouseSample)
  (totalDistance : float) (changes : Z) (lastDirection : option string)
  : float * Z :=
  match rest with
  | [] => (totalDistance, changes)
  | curr :: rest' =>
      let d := direction (m_x curr - m_x prev) (m_y curr - m_y prev) in
      let changes' :=
        match lastDirection with
        | Some l => if String.eqb d l then changes else changes + 1
        | None => changes
        end in
      thrash_loop curr rest' (PrimFloat.add totalDistance (segment prev curr))
        changes' (Some d)
  end.

Definition thrash_measure (buf : list MouseSample) : float * Z :=
  match buf with
  | [] => (of_Z 0, 0)
  | first :: rest => thrash_loop first rest (of_Z 0) 0 None
  end.

Definition len {A : Type} (l : list A) : Z := Z.of_nat (List.length l).

(** [detectMouseThrashing]; [now] is its own reading of the clock. *)
Definition detectMouseThrashing (now : Z) (s : State) : State * bool :=
  let buf := filter (fun m => now - m_time m <? 1000) (mouseMovements s) in
  let s1 := set_mouseMovements buf s in
  if len buf <? 10 then (s1, false)
  else
    let '(totalDistance, changes) := thrash_measure buf in
    if (PrimFloat.ltb (of_Z 500) totalDistance && (4 <=? changes))%bool
    then
      let first_time := match buf with m :: _ => m_time m | [] => 0 end in
      let s2 := sendEvent "mouse_thrash"
                  [("totalDistance", num_or_null (Math_round totalDistance));
                   ("directionChanges", JNum changes);
                   ("duration", JNum (now - first_time));
                   ("movementCount", JNum (len buf))] s1 in
      (set_mouseMovements [] s2, true)
    else (s1, false).

Fixpoint last_sample (l : list MouseSample) : option MouseSample :=
  match l with
  | [] => None
  | [m] => Some m
  | _ :: r => last_sample r
  end.

Record MouseEvent : Type := mkMouseEvent {
  mv_now : Z;        (* Date.now() read by trackMouseMove *)
  mv_now' : Z;       (* Date.now() read next, by detectMouseThrashing *)
  mv_x : Z;
  mv_y : Z
}.

Definition throttled (now : Z) (buf : list MouseSample) : bool :=
  match last_sample buf with
  | Some m => now - m_time m <? 50
  | None => false
  end.

Definition trackMouseMove (ev : MouseEvent) (s : State) : State :=
  if throttled (mv_now ev) (mouseMovements s) then s
  else
    let pushed := (mouseMovements s ++ [mkMove (mv_now ev) (mv_x ev) (mv_y ev)])%list in
    let s1 := set_mouseMovements
                (filter (fun m => mv_now ev - m_time m <? 2000) pushed) s in
    let s2 := fst (detectMouseThrashing (mv_now' ev) s1) in
    set_lastMousePosition (mv_x ev, mv_y ev) s2.

(** ** Handlers that can throw *)

Inductive JsError : Type :=
| TypeError (reading : string)     (* a property read from undefined, or a
                                      method that the value does not have *)
| SyntaxError (selector : string). (* a selector the document cannot parse *)

(** How a run of a handler ends: it returns, or an exception leaves it.
    Either way the state is what the run made of it up to that point. *)
Inductive Outcome (A : Type) : Type :=
| Returned (a : A) (s : State)
| Thrown (e : JsError) (s : State).

Arguments Returned {A} a s.
Arguments Thrown {A} e s.

Definition Js (A : Type) : Type := State -> Outcome A.

Definition ret {A : Type} (a : A) : Js A := fun s => Returned a s.

Definition bind {A B : Type} (m : Js A) (k : A -> Js B) : Js B :=
  fun s => match m s with
           | Returned a s' => k a s'
           | Thrown e s' => Thrown e s'
           end.

Definition throw {A : Type} (e : JsError) : Js A := fun s => Thrown e s.

Definition update (f : State -> State) : Js unit := fun s => Returned tt (f s).

Definition read {A : Type} (f : State -> A) : Js A := fun s => Returned (f s) s.

Declare Scope js_scope.
Delimit Scope js_scope with js.
Notation "x <- m ;; k" := (bind m (fun x => k))
  (at level 100, m at next level, right associativity) : js_scope.
Notation "m ;;; k" := (bind m (fun _ => k))
  (at level 100, right associativity) : js_scope.

Definition final_state {A : Type} (o : Outcome A) : State :=
  match o with Returned _ s => s | Thrown _ s => s end.

(** ** Form tracking *)

Module FormMap.

Definition t : Type := list (nat * FormData).

Fixpoint get (k : nat) (m : t) : option FormData :=
  match m with
  | [] => None
  | (k', d) :: r => if Nat.eqb k k' then Some d else get k r
  end.

Definition has (k : nat) (m : t) : bool := is_some (get k m).

(** [Map.prototype.set]: an entry that is there keeps its place. *)
Fixpoint set (k : nat) (d : FormData) (m : t) : t :=
  match m with
  | [] => [(k, d)]
  | (k', d') :: r => if Nat.eqb k k' then (k, d) :: r else (k', d') :: set k d r
  end.

Definition delete (k : nat) (m : t) : t :=
  filter (fun e => negb (Nat.eqb k (fst e))) m.

End FormMap.

Definition opt_str (o : option string) : JsVal :=
  match o with Some s => JStr s | None => JNull end.

Definition dquote : string := String (ascii_of_nat 34) EmptyString.

(** The selector that [getFieldLabel] builds from the id of a field. *)
Definition labelSelector (field : Field) : string :=
  "label[for=" ++ dquote ++ f_id field ++ dquote ++ "]".

(** [getFieldLabel(field)]: the label that names the field by its id, or
    else the label around the field, or else the placeholder or the name.
    The selector is built from the id as it is and handed to the document,
    which throws when it cannot parse it. *)
Definition getFieldLabel (field : Field) : Js (option string) :=
  (label <- (if truthy (f_id field)
             then match f_labelFor field with
                  | InvalidSelector => throw (SyntaxError (labelSelector field))
                  | NoLabel => ret None
                  | LabelFound text => ret (Some text)
                  end
             else ret None) ;;
   match label with
   | Some text => ret (Some (slice0 50 (trim text)))
   | None =>
       match f_closestLabel field with
       | Some text => ret (Some (slice0 50 (trim text)))
       | None =>
           let s := or_else (f_placeholder field) (f_name field) in
           ret (if truthy s then Some s else None)
       end
   end)%js.

Definition is_filled (f : Field) : bool :=
  (truthy (f_value f) && negb (String.eqb (trim (f_value f)) ""))%bool.

Definition filledFields (form : Form) : Z :=
  len (filter is_filled (form_inputs form)).

Definition completionRate (form : Form) : JsVal :=
  if len (form_inputs form) >? 0
  then num_or_null
         (Math_round (PrimFloat.mul
                        (PrimFloat.div (of_Z (filledFields form))
                                       (of_Z (len (form_inputs form))))
                        (of_Z 100)))
  else JNum 0.

Definition getFormInfo (form : Form) : JsObj :=
  [("formId", str_or_null (form_id form));
   ("formName", str_or_null (form_name form));
   ("formAction", str_or_null (form_action form));
   ("totalFields", JNum (len (form_inputs form)));
   ("filledFields", JNum (filledFields form));
   ("completionRate", completionRate form)].

Definition startTrackingForm (now : Z) (form : Form) (s : State) : State :=
  if FormMap.has (form_node form) (activeForms s) then s
  else
    let s1 := set_activeForms
                (FormMap.set (form_node form) (mkFormData now [] None false)
                   (activeForms s)) s in
    sendEvent "form_start" (getFormInfo form) s1.

(** [inputs.indexOf(field)], counting from [i]: nodes are compared by
    identity; -1 when the field is not there. *)
Fixpoint indexOf (node : nat) (inputs : list Field) (i : Z) : Z :=
  match inputs with
  | [] => -1
  | f :: r => if Nat.eqb (f_node f) node then i else indexOf node r (i + 1)
  end.

Definition fieldName (field : Field) : string :=
  or_else (f_name field) (or_else (f_id field) (f_type field)).

Definition fieldType (field : Field) : string :=
  or_else (f_type field) (toLowerCase (f_tagName field)).

(** The test that guards the [form_field_skip] event. *)
Definition skipped (previousField : Field) : bool :=
  let isSensitive := mem (f_type previousField) ["password"] in
  (negb isSensitive && negb (truthy (f_value previousField))
   && f_required previousField)%bool.

(** The payload of [form_field_skip]; [label] is what
    [getFieldLabel(previousField)] returned. *)
Definition skipData (form : Form) (previousField : Field) (label : option string)
  (movedTo : string) : JsObj :=
  spread (getFormInfo form)
    [("skippedField",
      JStr (or_else (f_name previousField) (or_else (f_id previousField) "unknown")));
     ("skippedFieldLabel", opt_str label);
     ("skippedFieldType", JStr (fieldType previousField));
     ("movedToField", JStr movedTo)].

(** [trackFormFieldInteraction(field)]; [form] is [field.closest('form')].
    The record is an object that the map holds by reference: the push on
    [fieldsInteracted] is in the map at once, before [getFieldLabel] is
    called for [lastField]. *)
Definition trackFormFieldInteraction (now : Z) (field : Field) (form : option Form)
  : Js unit :=
  match form with
  | None => ret tt
  | Some form =>
      let put formData s :=
        set_activeForms (FormMap.set (form_node form) formData (activeForms s)) s in
      (update (fun s => if FormMap.has (form_node form) (activeForms s) then s
                        else startTrackingForm now form s) ;;;
       record <- read (fun s => FormMap.get (form_node form) (activeForms s)) ;;
       match record with
       | None => throw (TypeError "fieldsInteracted")  (* never: the record was made just above *)
       | Some formData =>
           let name := fieldName field in
           let interacted :=
             if mem name (fieldsInteracted formData) then fieldsInteracted formData
             else (fieldsInteracted formData ++ [name])%list in
           update (put (mkFormData (startTime formData) interacted
                          (lastField formData) (submitted formData))) ;;;
           label <- getFieldLabel field ;;
           update (put (mkFormData (startTime formData) interacted
                          (Some (mkLastField name (opt_str label) (fieldType field)))
                          (submitted formData))) ;;;
           let inputs := form_inputs form in
           let currentIndex := indexOf (f_node field) inputs 0 in
           if currentIndex >? 0 then
             match nth_error inputs (Z.to_nat (currentIndex - 1)) with
             | Some previousField =>
                 if skipped previousField
                 then label' <- getFieldLabel previousField ;;
                      update (sendEvent "form_field_skip"
                                (skipData form previousField label' name))
                 else ret tt
             | None => ret tt
             end
           else ret tt
       end)%js
  end.

Definition label_or_null (v : JsVal) : JsVal :=
  match v with JStr s => str_or_null s | _ => JNull end.

(** The payload of [form_abandonment]. *)
Definition abandonmentData (now : Z) (form : Form) (reason : string)
  (formData : FormData) : JsObj :=
  spread (getFormInfo form)
    [("reason", JStr reason);
     ("fieldsInteracted", JStrs (fieldsInteracted formData));
     ("lastFieldInteracted",
      match lastField formData with
      | Some l => str_or_null (lf_name l)
      | None => JNull
      end);
     ("lastFieldLabel",
      match lastField formData with
      | Some l => label_or_null (lf_label l)
      | None => JNull
      end);
     ("timeInForm", JNum (now - startTime formData))].

(** [checkFormAbandonment(form, reason)]. *)
Definition checkFormAbandonment (now : Z) (form : option Form) (reason : string)
  (s : State) : State :=
  match form with
  | None => s
  | Some form =>
      match FormMap.get (form_node form) (activeForms s) with
      | None => s
      | Some formData =>
          let drop st := set_activeForms
                           (FormMap.delete (form_node form) (activeForms st)) st in
          if submitted formData then drop s
          else
            if ((len (fieldsInteracted formData) >? 0) && (filledFields form >? 0))%bool
            then drop (sendEvent "form_abandonment"
                         (abandonmentData now form reason formData) s)
            else drop s
      end
  end.

(** [trackFormSubmit(form)]. *)
Definition trackFormSubmit (now : Z) (form : option Form) (s : State) : State :=
  match form with
  | None => s
  | Some form =>
      match FormMap.get (form_node form) (activeForms s) with
      | Some formData =>
          let formData' := mkFormData (startTime formData) (fieldsInteracted formData)
                             (lastField formData) true in
          let s0 := set_activeForms
                      (FormMap.set (form_node form) formData' (activeForms s)) s in
          let s1 := sendEvent "form_submit"
                      (spread (getFormInfo form)
                         [("fieldsInteracted", JNum (len (fieldsInteracted formData')));
                          ("timeToComplete", JNum (now - startTime formData'))]) s0 in
          set_activeForms (FormMap.delete (form_node form) (activeForms s1)) s1
      | None => sendEvent "form_submit" (getFormInfo form) s
      end
  end.

(** [BehavioralInsights.reportFormAbandonment(formElement, reason)]. *)
Definition reportFormAbandonment (now : Z) (formElement : option Form)
  (reason : option string) (s : State) : State :=
  match formElement with
  | Some _ =>
      checkFormAbandonment now formElement
        (match reason with Some r => or_else r "manual" | None => "manual" end) s
  | None => s
  end.

(** The callback that [detectFormCancelClick] leaves in [setTimeout]. *)
Definition cancelTimer (now : Z) (form : Form) (s : State) : State :=
  if FormMap.has (form_node form) (activeForms s)
  then checkFormAbandonment now (Some form) "cancel_clicked" s else s.

(** The places that call [checkFormAbandonment], each with its own guard. *)
Inductive Trigger : Type :=
| FormRemoved          (* the observer sees the form node removed *)
| ContainerRemoved     (* the observer sees a node around the form removed *)
| CancelClicked        (* the timer set by a click on a cancel control *)
| PageExit             (* beforeunload, pagehide, pushState, popstate *)
| PageNavigation       (* resetPageState *)
| EscapePressed        (* the timer set by the Escape key *)
| Manual (reason : option string).

(** What a trigger does for one form: in the loops over [activeForms] the
    body runs for the forms that have a record. *)
Definition fire (tr : Trigger) (now : Z) (form : Form) (s : State) : State :=
  let live := FormMap.get (form_node form) (activeForms s) in
  match tr with
  | FormRemoved =>
      if FormMap.has (form_node form) (activeForms s)
      then checkFormAbandonment now (Some form) "form_removed" s else s
  | ContainerRemoved =>
      if FormMap.has (form_node form) (activeForms s)
      then checkFormAbandonment now (Some form) "container_removed" s else s
  | CancelClicked => cancelTimer now form s
  | PageExit =>
      match live with
      | Some data => if negb (submitted data)
                     then checkFormAbandonment now (Some form) "page_exit" s else s
      | None => s
      end
  | PageNavigation =>
      match live with
      | Some data => if negb (submitted data)
                     then checkFormAbandonment now (Some form) "page_navigation" s else s
      | None => s
      end
  | EscapePressed =>
      match live with
      | Some data => if (negb (form_offsetParent form) && negb (submitted data))%bool
                     then checkFormAbandonment now (Some form) "escape_pressed" s else s
      | None => s
      end
  | Manual reason => reportFormAbandonment now (Some form) reason s
  end.

(** ** Clicks *)

Record ClickEvent : Type := mkClickEvent {
  target : Node;
  clientX : Z;
  clientY : Z;
  pageX : Z;
  pageY : Z;
  location_hostname : string     (* window.location.hostname when the click arrives *)
}.

(** [getElementSelector] on an element.  The classes are added when
    [className] is a string, which it is not on an SVG element. *)
Definition elementSelector (element : Element) : string :=
  let selector := toLowerCase (tagName element) in
  if truthy (el_id element) then selector ++ "#" ++ el_id element
  else match className element with
       | ClassString className =>
           if truthy className then
             let classes := join "." (firstn 2 (split_ws (trim className))) in
             if truthy classes then selector ++ "." ++ classes else selector
           else selector
       | ClassAnimated _ => selector
       end.

(** [getElementSelector(event.target)]: the document has no [tagName], and
    [undefined.toLowerCase()] throws. *)
Definition getElementSelector (n : Node) : Js string :=
  match n with
  | DocumentNode => throw (TypeError "tagName.toLowerCase")
  | Elem e => ret (elementSelector e)
  end.

(** The [while] loop of [getElementPath]: at most five selectors, the body
    of the document ends the walk. *)
Fixpoint path_loop (fuel : nat) (current : option Element) (path : list string)
  : list string :=
  match fuel, current with
  | S fuel', Some e =>
      if is_body e then path
      else path_loop fuel' (parentElement e) (elementSelector e :: path)
  | _, _ => path
  end.

Definition elementPath (element : Element) : string :=
  join " > " (path_loop 5 (Some element) []).

Definition getElementPath (n : Node) : Js string :=
  match n with
  | DocumentNode => throw (TypeError "tagName.toLowerCase")
  | Elem e => ret (elementPath e)
  end.

(** [(target.innerText || '').slice(0, 100).trim()]. *)
Definition elementText (n : Node) : string :=
  match n with
  | DocumentNode => ""
  | Elem e => trim (slice0 100 (innerText e))
  end.

Definition sameArea (firstClick c : ClickSample) : bool :=
  ((Z.abs (c_x c - c_x firstClick) <? 50) && (Z.abs (c_y c - c_y firstClick) <? 50))%bool.

(** The click buffer after the push and the pruning of [detectRageClick]. *)
Definition pruned (now : Z) (buf : list ClickSample) (c : ClickSample)
  : list ClickSample :=
  filter (fun c => now - c_time c <? 500) (buf ++ [c])%list.

Definition detectRageClick (now : Z) (event : ClickEvent) : Js bool :=
  (element <- getElementSelector (target event) ;;
   update (fun s => set_recentClicks
             (pruned now (recentClicks s)
                (mkClick now (clientX event) (clientY event) element)) s) ;;;
   buf <- read recentClicks ;;
   if 3 <=? len buf then
     match buf with
     | firstClick :: _ =>
         if forallb (sameArea firstClick) buf then
           update (fun s => set_rageClickCount (rageClickCount s + 1) s) ;;;
           element' <- getElementSelector (target event) ;;
           path <- getElementPath (target event) ;;
           total <- read rageClickCount ;;
           update (sendEvent "rage_click"
                     [("clickCount", JNum (len buf));
                      ("timeWindow", JNum (now - c_time firstClick));
                      ("x", JNum (clientX event));
                      ("y", JNum (clientY event));
                      ("element", JStr element');
                      ("elementPath", JStr path);
                      ("elementText", JStr (elementText (target event)));
                      ("totalRageClicks", JNum total)]) ;;;
           update (set_recentClicks []) ;;;
           ret true
         else ret false
     | [] => ret false
     end
   else ret false)%js.

Definition is_pointer (cursor : string) : bool := String.eqb cursor "pointer".

Definition looksClickable (t : Element) : bool :=
  (is_pointer (style_cursor t) || is_pointer (computed_cursor t)
   || String.eqb (toLowerCase (tagName t)) "img"
   || classList_contains "btn" t || classList_contains "button" t
   || classList_contains "link" t || classList_contains "clickable" t)%bool.

Definition opt_truthy (o : option string) : bool :=
  match o with Some v => truthy v | None => false end.

Definition isClickableElement (element : Element) : bool :=
  let tag := toLowerCase (tagName element) in
  let clickableTags := ["a"; "button"; "input"; "select"; "textarea"; "label"] in
  if mem tag clickableTags then true
  else if match getAttribute "role" element with
          | Some r => String.eqb r "button" | None => false end then true
  else if (onclick element || opt_truthy (getAttribute "onclick" element))%bool then true
  else if is_pointer (style_cursor element) then true
  else if is_pointer (computed_cursor element) then true
  else false.

Definition interactiveAncestors : list Selector :=
  [Tag "a"; Tag "button"; Tag "input"; Tag "select"; Tag "textarea";
   AttrEq "role" "button"].

Definition isActuallyClickable (t : Element) : bool :=
  (isClickableElement t || is_some (closest interactiveAncestors t))%bool.

Definition detectDeadClick (event : ClickEvent) : Js bool :=
  match target event with
  | DocumentNode => throw (TypeError "style.cursor")
  | Elem t =>
      (if (looksClickable t && negb (isActuallyClickable t))%bool then
         update (fun s => set_deadClickCount (deadClickCount s + 1) s) ;;;
         total <- read deadClickCount ;;
         update (sendEvent "dead_click"
                   [("element", JStr (elementSelector t));
                    ("elementPath", JStr (elementPath t));
                    ("elementText", JStr (elementText (Elem t)));
                    ("x", JNum (clientX event));
                    ("y", JNum (clientY event));
                    ("totalDeadClicks", JNum total);
                    ("reason", JStr "looks_clickable_but_not_interactive")]) ;;;
         ret true
       else ret false)%js
  end.

(** A JavaScript number in a boolean position: zero and NaN are falsy. *)
Definition number_truthy (v : float) : bool :=
  negb (PrimFloat.is_zero v || PrimFloat.is_nan v).

(** [(e.innerText || e.value || '')], on which the tracker calls a string
    method next ([toLowerCase], [slice]): [None] when it is a number, which
    has neither, so that the call throws. *)
Definition textOrValue (e : Element) : option string :=
  if truthy (innerText e) then Some (innerText e)
  else match el_value e with
       | NoValue => Some ""
       | StringValue v => Some v
       | NumberValue v => if number_truthy v then None else Some ""
       end.

Definition cancelPatterns : list string :=
  ["cancel"; "close"; "dismiss"; "nevermind"; "no thanks"; "not now"; "skip"].

(** The constant [isCancelButton] of [detectFormCancelClick], once
    [buttonText] is there. *)
Definition isCancelButton (buttonText : string) (t : Element) : bool :=
  let buttonType := option_map toLowerCase (el_type t) in
  (existsb (fun pattern => includes pattern buttonText) cancelPatterns
   || match buttonType with Some ty => String.eqb ty "reset" | None => false end
   || classList_contains "close" t
   || classList_contains "cancel" t
   || opt_truthy (getAttribute "data-dismiss" t)
   || match getAttribute "aria-label" t with
      | Some l => includes "close" (toLowerCase l)
      | None => false
      end)%bool.

Definition formContainers : list Selector :=
  [Tag "form"; AttrEq "role" "dialog"; Class "modal"; Class "dialog";
   AttrContains "class" "modal"; AttrContains "class" "dialog"].

(** The form a cancel control belongs to, as [detectFormCancelClick] looks
    for it. *)
Definition cancelledForm (t : Element) : option Form :=
  let form :=
    match closest formContainers t with
    | Some container =>
        if String.eqb (tagName container) "FORM" then el_asForm container
        else el_firstForm container
    | None => None
    end in
  match form with
  | Some f => Some f
  | None =>
      let parents := [closest [Class "modal"] t; closest [Class "dialog"] t;
                      closest [AttrEq "role" "dialog"] t] in
      fold_left (fun found parent =>
                   match found, parent with
                   | Some f, _ => Some f
                   | None, Some p => el_firstForm p
                   | None, None => None
                   end) parents None
  end.

Definition detectFormCancelClick (event : ClickEvent) : Js unit :=
  match target event with
  | DocumentNode => throw (TypeError "classList.contains")
  | Elem t =>
      match textOrValue t with
      | None => throw (TypeError "toLowerCase")
      | Some text =>
          if isCancelButton (toLowerCase text) t then
            match cancelledForm t with
            | Some form =>
                update (fun s =>
                          if FormMap.has (form_node form) (activeForms s)
                          then set_timers (timers s ++ [CancelCheck (form_node form)])%list s
                          else s)
            | None => ret tt
            end
          else ret tt
      end
  end.

Definition clickables : list Selector :=
  [Tag "a"; Tag "button"; AttrEq "role" "button";
   TagAttrEq "input" "type" "submit"; TagAttrEq "input" "type" "button"].

(** What [trackClick] adds to the payload for the clickable ancestor;
    [text] is its inner text or value. *)
Definition clickableFields (host : string) (clickableParent : Element) (text : string)
  : JsObj :=
  ([("clickableType", JStr (toLowerCase (tagName clickableParent)));
    ("clickableText", JStr (trim (slice0 100 text)))]
   ++ match el_href clickableParent with
      | NoHref => []
      | HrefString href =>
          if truthy href
          then [("href", JStr href);
                ("isExternal",
                 JBool (negb (String.eqb (el_hostname clickableParent) host)))]
          else []
      | HrefAnimated =>
          (* an object, which JSON.stringify writes as {}; no hostname there *)
          [("href", JObject []); ("isExternal", JBool true)]
      end
   ++ (if truthy (el_name clickableParent)
       then [("elementName", JStr (el_name clickableParent))] else [])
   ++ (if truthy (el_id clickableParent)
       then [("elementId", JStr (el_id clickableParent))] else []))%list.

(** [trackClick]: no [try] surrounds the detections, so the first exception
    ends the handler. *)
Definition trackClick (now : Z) (event : ClickEvent) : Js unit :=
  (update (fun s => set_clickCount (clickCount s + 1) s) ;;;
   isRageClick <- detectRageClick now event ;;
   isDeadClick <- (if isRageClick then ret false else detectDeadClick event) ;;
   detectFormCancelClick event ;;;
   match target event with
   | DocumentNode => throw (TypeError "closest")
   | Elem t =>
       match textOrValue t with
       | None => throw (TypeError "slice")
       | Some text =>
           let data :=
             [("elementType", JStr (toLowerCase (tagName t)));
              ("elementSelector", JStr (elementSelector t));
              ("elementPath", JStr (elementPath t));
              ("elementText", JStr (trim (slice0 100 text)));
              ("x", JNum (clientX event));
              ("y", JNum (clientY event));
              ("pageX", JNum (pageX event));
              ("pageY", JNum (pageY event));
              ("isRageClick", JBool isRageClick);
              ("isDeadClick", JBool isDeadClick)] in
           match closest clickables t with
           | Some clickableParent =>
               match textOrValue clickableParent with
               | None => throw (TypeError "slice")
               | Some text' =>
                   update (sendEvent "click"
                             (spread data
                                (clickableFields (location_hostname event)
                                   clickableParent text')))
               end
           | None => update (sendEvent "click" data)
           end
       end
   end)%js.

(** ** Identity: minted ids and the visitor id *)

(** [v.toString(16)] for an integer. *)
Definition toString16 (v : Z) : string :=
  match v with
  | Z0 => "0"
  | Zpos p => HexString.Raw.of_pos p ""
  | Zneg p => String "-" (HexString.Raw.of_pos p "")
  end.

Definition idTemplate : string := "xxxxxxxx-xxxx-4xxx-yxxx-xxxxxxxxxxxx".

(** The replacement of [generateId] for one match [c] of [/[xy]/g]; [r] is
    [Math.random() * 16 | 0]. *)
Definition idDigit (c : ascii) (r : Z) : string :=
  let v := if Ascii.eqb c "x" then r else Z.lor (Z.land r 3) 8 in
  toString16 v.

(** [template.replace(/[xy]/g, ...)]: the matches are replaced from left to
    right; [draw i] is the value of [Math.random() * 16 | 0] at the [i]-th
    call, [i] being the number of calls made so far. *)
Fixpoint replace_xy (template : string) (i : nat) (draw : nat -> Z) : string :=
  match template with
  | EmptyString => EmptyString
  | String c rest =>
      if (Ascii.eqb c "x" || Ascii.eqb c "y")%bool
      then idDigit c (draw i) ++ replace_xy rest (S i) draw
      else String c (replace_xy rest i draw)
  end.

Definition generateId (draw : nat -> Z) : string := replace_xy idTemplate 0 draw.

(** [getVisitorId]: [st] is [localStorage.getItem('bi_visitor')]; the result
    is the id and the stored item afterwards. *)
Definition getVisitorId (draw : nat -> Z) (st : option string) : string * option string :=
  match st with
  | Some visitorId =>
      if truthy visitorId then (visitorId, st)
      else let id := generateId draw in (id, Some id)
  | None => let id := generateId draw in (id, Some id)
  end.

(** ** The device type *)

Definition is_line_end (c : ascii) : bool :=
  let n := nat_of_ascii c in (Nat.eqb n 10 || Nat.eqb n 13)%bool.

(** What [.*] can run over from the start of [s]: the rest of its line. *)
Fixpoint rest_of_line (s : string) : string :=
  match s with
  | EmptyString => EmptyString
  | String c r => if is_line_end c then EmptyString else String c (rest_of_line r)
  end.

Fixpoint drop (n : nat) (s : string) : string :=
  match n, s with
  | O, _ => s
  | S n', String _ r => drop n' r
  | S _, EmptyString => EmptyString
  end.

(** [/android(?!.*mobi)/] on a lower-case string: some [android] is not
    followed by [mobi] on its line. *)
Fixpoint android_not_mobi (s : string) : bool :=
  ((prefix "android" s && negb (includes "mobi" (rest_of_line (drop 7 s))))
   || match s with
      | EmptyString => false
      | String _ r => android_not_mobi r
      end)%bool.

(** [/(tablet|ipad|playbook|silk)|(android(?!.*mobi))/i.test(ua)]. *)
Definition tabletPattern (ua : string) : bool :=
  let l := toLowerCase ua in
  (includes "tablet" l || includes "ipad" l || includes "playbook" l
   || includes "silk" l || android_not_mobi l)%bool.

(** [/Mobile|Android|iP(hone|od)|IEMobile|BlackBerry|Kindle|Silk-Accelerated/.test(ua)]. *)
Definition mobilePattern (ua : string) : bool :=
  (includes "Mobile" ua || includes "Android" ua || includes "iPhone" ua
   || includes "iPod" ua || includes "IEMobile" ua || includes "BlackBerry" ua
   || includes "Kindle" ua || includes "Silk-Accelerated" ua)%bool.

Definition getDeviceType (ua : string) : string :=
  if tabletPattern ua then "tablet"
  else if mobilePattern ua then "mobile"
  else "desktop".

(** ** The page around the detectors *)

(** The variables of the closure that [State] leaves out. *)
Record Page : Type := mkPage {
  core : State;
  pageEntryTime : Z;
  isVisible : bool;
  totalVisibleTime : Z;
  lastVisibilityChange : Z
}.

(** The page when the script has run: the clock is read for
    [pageEntryTime] and again for [lastVisibilityChange]. *)
Definition initialPage (t0 t1 : Z) : Page := mkPage initialState t0 true 0 t1.

Definition with_core (f : State -> State) (p : Page) : Page :=
  mkPage (f (core p)) (pageEntryTime p) (isVisible p) (totalVisibleTime p)
    (lastVisibilityChange p).

(** [trackVisibilityChange]; [hidden] is [document.hidden]. *)
Definition trackVisibilityChange (now : Z) (hidden : bool) (p : Page) : Page :=
  let total := if isVisible p then totalVisibleTime p + (now - lastVisibilityChange p)
               else totalVisibleTime p in
  mkPage (sendEvent "visibility"
            [("hidden", JBool hidden);
             ("visibleTime", JNum total);
             ("timeOnPage", JNum (now - pageEntryTime p))] (core p))
    (pageEntryTime p) (negb hidden) total now.

(** [trackMouseLeave]. *)
Definition trackMouseLeave (now : Z) (clientY : Z) (p : Page) : Page :=
  if clientY <=? 5
  then with_core
         (sendEvent "exit_intent"
            [("timeOnPage", JNum (now - pageEntryTime p));
             ("scrollDepth", JNum (maxScrollDepth (core p)));
             ("clickCount", JNum (clickCount (core p)));
             ("rageClickCount", JNum (rageClickCount (core p)));
             ("deadClickCount", JNum (deadClickCount (core p)))]) p
  else p.

(** The form element [k] with what the document holds for it. *)
Definition formAt (dom : nat -> Form) (k : nat) : Form :=
  let f := dom k in
  mkForm k (form_id f) (form_name f) (form_action f) (form_inputs f) (form_offsetParent f).

(** [activeForms.forEach(function(data, form) { if (guard && !data.submitted)
    checkFormAbandonment(form, reason) })] over the keys the map had when the
    loop began: an entry deleted on the way is not visited.  [clock k] is the
    reading of [Date.now()] in the check of form [k]. *)
Fixpoint forEachForm (guard : Form -> bool) (reason : string) (clock : nat -> Z)
  (dom : nat -> Form) (keys : list nat) (s : State) : State :=
  match keys with
  | [] => s
  | k :: rest =>
      let s' :=
        match FormMap.get k (activeForms s) with
        | Some data =>
            if (guard (formAt dom k) && negb (submitted data))%bool
            then checkFormAbandonment (clock k) (Some (formAt dom k)) reason s
            else s
        | None => s
        end in
      forEachForm guard reason clock dom rest s'
  end.

Definition keysOf (s : State) : list nat := map fst (activeForms s).

(** [trackPageExit]. *)
Definition trackPageExit (now : Z) (clock : nat -> Z) (dom : nat -> Form) (p : Page)
  : Page :=
  let total := if isVisible p then totalVisibleTime p + (now - lastVisibilityChange p)
               else totalVisibleTime p in
  let s1 := forEachForm (fun _ => true) "page_exit" clock dom (keysOf (core p)) (core p) in
  let s2 := sendEvent "pageexit"
              [("timeOnPage", JNum (now - pageEntryTime p));
               ("activeTime", JNum total);
               ("maxScrollDepth", JNum (maxScrollDepth s1));
               ("clickCount", JNum (clickCount s1));
               ("interactionCount", JNum (interactionCount s1));
               ("rageClickCount", JNum (rageClickCount s1));
               ("deadClickCount", JNum (deadClickCount s1))] s1 in
  mkPage s2 (pageEntryTime p) (isVisible p) total (lastVisibilityChange p).

(** [resetPageState]; [t0] and [t1] are its two readings of the clock. *)
Definition resetPageState (t0 t1 : Z) (clock : nat -> Z) (dom : nat -> Form) (p : Page)
  : Page :=
  let s := core p in
  let s1 := mkState 0 0 0 (interactionCount s) [] [] (lastMousePosition s) 0 0
              (activeForms s) (timers s) (sent s) in
  let s2 := forEachForm (fun _ => true) "page_navigation" clock dom (keysOf s1) s1 in
  mkPage (set_activeForms [] s2) t0 true 0 t1.

(** [trackNavigation(url, type)]; [from] is [window.location.pathname], [to]
    is the path of [url] as the browser resolves it. *)
Definition trackNavigation (now : Z) (from to type : string) (p : Page) : Page :=
  with_core
    (sendEvent "navigation"
       [("from", JStr from); ("to", JStr to); ("type", JStr type);
        ("timeOnPreviousPage", JNum (now - pageEntryTime p))]) p.

(** The readings of the clock and of the document in one navigation. *)
Record NavEnv : Type := mkNavEnv {
  nav_now : Z;            (* in trackNavigation *)
  exit_now : Z;           (* in trackPageExit *)
  exit_clock : nat -> Z;  (* in its abandonment checks *)
  reset_t0 : Z;           (* in resetPageState, for pageEntryTime *)
  reset_t1 : Z;           (* in resetPageState, for lastVisibilityChange *)
  reset_clock : nat -> Z; (* in its abandonment checks *)
  nav_dom : nat -> Form
}.

(** The wrapper put around [history.pushState], up to the deferred page
    view; [url] holds the two paths when a url was passed. *)
Definition onPushState (env : NavEnv) (url : option (string * string)) (p : Page) : Page :=
  let p1 := match url with
            | Some (from, to) => trackNavigation (nav_now env) from to "pushState" p
            | None => p
            end in
  let p2 := trackPageExit (exit_now env) (exit_clock env) (nav_dom env) p1 in
  resetPageState (reset_t0 env) (reset_t1 env) (reset_clock env) (nav_dom env) p2.

(** The callback of the Escape key's timer. *)
Definition escapeTimer (clock : nat -> Z) (dom : nat -> Form) (s : State) : State :=
  forEachForm (fun form => negb (form_offsetParent form)) "escape_pressed" clock dom
    (keysOf s) s.

(** A node in [mutation.removedNodes]. *)
Record RemovedNode : Type := mkRemovedNode {
  nodeType : Z;
  node_asForm : option Form;     (* the node itself, when its tagName is FORM *)
  node_forms : list Form         (* node.querySelectorAll('form') *)
}.

(** The body of the observer for one removed node; [clock k] is the
    reading of the clock in the check of form [k]. *)
Definition onRemovedNode (clock : nat -> Z) (node : RemovedNode) (s : State) : State :=
  if negb (nodeType node =? 1) then s
  else
    let s1 := match node_asForm node with
              | Some form =>
                  if FormMap.has (form_node form) (activeForms s)
                  then checkFormAbandonment (clock (form_node form)) (Some form)
                         "form_removed" s
                  else s
              | None => s
              end in
    fold_left (fun st form =>
                 if FormMap.has (form_node form) (activeForms st)
                 then checkFormAbandonment (clock (form_node form)) (Some form)
                        "container_removed" st
                 else st) (node_forms node) s1.

(** [trackFormFocus]: [input] is the target of [focusin] when it is an
    element of the form controls' kind, [form] is [input.closest('form')]. *)
Definition sensitiveTypes : list string :=
  ["password"; "credit-card"; "cc-number"; "cc-exp"; "cc-csc"].

Definition sensitiveNames : list string :=
  ["password"; "pwd"; "pass"; "credit"; "card"; "cvv"; "cvc"; "ssn"; "social"].

Definition isSensitive (input : Field) : bool :=
  (mem (f_type input) sensitiveTypes
   || existsb (fun s => includes s (toLowerCase (f_name input))) sensitiveNames)%bool.

Definition trackFormFocus (now : Z) (input : Field) (form : option Form) : Js unit :=
  if negb (mem (f_tagName input) ["INPUT"; "TEXTAREA"; "SELECT"]) then ret tt
  else
    (trackFormFieldInteraction now input form ;;;
     if (negb (isSensitive input) && negb (String.eqb (f_type input) "password"))%bool
     then label <- getFieldLabel input ;;
          update (sendEvent "form_interact"
                    (spread (match form with Some f => getFormInfo f | None => [] end)
                       [("fieldType", JStr (fieldType input));
                        ("fieldName", str_or_null (f_name input));
                        ("fieldId", str_or_null (f_id input));
                        ("fieldLabel", opt_str label)]))
     else ret tt)%js.

(** ** Loading the capture library *)

(** The three variables of the loader; callbacks are known by number. *)
Record Loader : Type := mkLoader {
  html2canvasLoaded : bool;
  html2canvasLoading : bool;
  pendingScreenshotCallbacks : list nat
}.

(** What the loader does to the outside: it calls a callback, with an error
    or without, or appends the script element. *)
Inductive LoaderEffect : Type :=
| Called (callback : nat) (error : bool)
| ScriptAppended.

Definition initialLoader : Loader := mkLoader false false [].

(** [loadHtml2Canvas(callback)]. *)
Definition loadHtml2Canvas (callback : nat) (l : Loader) : Loader * list LoaderEffect :=
  if html2canvasLoaded l then (l, [Called callback false])
  else
    let pending := (pendingScreenshotCallbacks l ++ [callback])%list in
    if html2canvasLoading l
    then (mkLoader (html2canvasLoaded l) true pending, [])
    else (mkLoader (html2canvasLoaded l) true pending, [ScriptAppended]).

(** [script.onload]. *)
Definition onload (l : Loader) : Loader * list LoaderEffect :=
  (mkLoader true false [],
   map (fun cb => Called cb false) (pendingScreenshotCallbacks l)).

(** [script.onerror]. *)
Definition onerror (l : Loader) : Loader * list LoaderEffect :=
  (mkLoader (html2canvasLoaded l) false [],
   map (fun cb => Called cb true) (pendingScreenshotCallbacks l)).

(** ** Hiding sensitive elements for a capture *)

(** [style.visibility] of every element of the document, by number. *)
Definition Visibility : Type := nat -> string.

Definition setVisibility (el : nat) (v : string) (doc : Visibility) : Visibility :=
  fun e => if Nat.eqb e el then v else doc e.

(** The loop of [captureScreenshot] over the elements one selector finds:
    an element not hidden yet is recorded with its visibility and hidden. *)
Fixpoint hideEach (els : list nat) (doc : Visibility) (hiddenElements : list (nat * string))
  : Visibility * list (nat * string) :=
  match els with
  | [] => (doc, hiddenElements)
  | el :: rest =>
      if negb (String.eqb (doc el) "hidden")
      then hideEach rest (setVisibility el "hidden" doc)
             (hiddenElements ++ [(el, doc el)])%list
      else hideEach rest doc hiddenElements
  end.

(** The loop over the selectors; [found] holds, selector by selector, what
    [document.querySelectorAll] returns. *)
Fixpoint hideSensitive (found : list (list nat)) (doc : Visibility)
  (hiddenElements : list (nat * string)) : Visibility * list (nat * string) :=
  match found with
  | [] => (doc, hiddenElements)
  | els :: rest =>
      let '(doc', hidden') := hideEach els doc hiddenElements in
      hideSensitive rest doc' hidden'
  end.

(** [hiddenElements.forEach(item => item.el.style.visibility = item.visibility)]. *)
Definition restoreHidden (hiddenElements : list (nat * string)) (doc : Visibility)
  : Visibility :=
  fold_left (fun d item => setVisibility (fst item) (snd item) d) hiddenElements doc.

(** * The vocabulary of the properties *)

(** The two coordinates of [c] are each less than 50px from those of
    [firstClick]. *)
Definition near (firstClick c : ClickSample) : Prop :=
  Z.abs (c_x c - c_x firstClick) < 50 /\ Z.abs (c_y c - c_y firstClick) < 50.

(** The test of [detectRageClick] on the buffer a click leaves. *)
Definition rageFires (now : Z) (ev : ClickEvent) (t : Element) (s : State) : bool :=
  let buf := pruned now (recentClicks s)
               (mkClick now (clientX ev) (clientY ev) (elementSelector t)) in
  ((3 <=? len buf) && forallb (sameArea (hd (mkClick 0 0 0 "") buf)) buf)%bool.

Definition deadFires (t : Element) : bool :=
  (looksClickable t && negb (isActuallyClickable t))%bool.

Definition typesOf (log : list Envelope) : list string := map eventType log.

(** The structural predicate in the words of the specification: the element
    is, or is nested in, an anchor, button, input, select, textarea or
    role=button, or it has a click handler. *)
Definition structurallyClickable (t : Element) : bool :=
  (is_some (closest interactiveAncestors t)
   || onclick t || opt_truthy (getAttribute "onclick" t))%bool.

Definition pointerStyled (t : Element) : bool :=
  (is_pointer (style_cursor t) || is_pointer (computed_cursor t))%bool.

Definition isLabel (t : Element) : bool :=
  String.eqb (toLowerCase (tagName t)) "label".

Definition countType (type : string) (log : list Envelope) : nat :=
  List.length (ofType type log).

(** Whether the label lookup by id throws for a field, and the label that
    [getFieldLabel] returns when it does not. *)
Definition labelThrows (field : Field) : bool :=
  (truthy (f_id field) &&
   match f_labelFor field with InvalidSelector => true | _ => false end)%bool.

Definition fieldLabel (field : Field) : option string :=
  let around :=
    match f_closestLabel field with
    | Some text => Some (slice0 50 (trim text))
    | None => let s := or_else (f_placeholder field) (f_name field) in
              if truthy s then Some s else None
    end in
  if truthy (f_id field)
  then match f_labelFor field with
       | LabelFound text => Some (slice0 50 (trim text))
       | _ => around
       end
  else around.

(** The field before [field] in the form, if [field] is not the first. *)
Definition fieldBefore (field : Field) (form : Form) : option Field :=
  let i := indexOf (f_node field) (form_inputs form) 0 in
  if i >? 0 then nth_error (form_inputs form) (Z.to_nat (i - 1)) else None.

(** A focus on [field] ends in an exception: the lookup of its label
    throws, or that of the skipped field before it. *)
Definition focusThrows (field : Field) (form : Form) : bool :=
  (labelThrows field ||
   match fieldBefore field form with
   | Some prev => skipped prev && labelThrows prev
   | None => false
   end)%bool.

(** The test that guards the [form_abandonment] event. *)
Definition engaged (formData : FormData) (form : Form) : bool :=
  ((len (fieldsInteracted formData) >? 0) && (filledFields form >? 0))%bool.

(** A run of abandonment triggers, one after the other. *)
Definition fireAll (trs : list (Trigger * Z * Form)) (s : State) : State :=
  fold_left (fun st x => fire (fst (fst x)) (snd (fst x)) (snd x) st) trs s.

(** [b] was taken at least 50ms after [a]. *)
Definition apart (a b : MouseSample) : Prop := 50 <= m_time b - m_time a.

(** Any two consecutive samples of the buffer are at least 50ms apart. *)
Fixpoint spaced (buf : list MouseSample) : Prop :=
  match buf with
  | [] => True
  | a :: r => match r with b :: _ => apart a b | [] => True end /\ spaced r
  end.

(** What every reachable buffer satisfies: samples in order of time, 50ms
    apart or more, none 1000ms older than the last one. *)
Definition buffer_ok (buf : list MouseSample) : Prop :=
  StronglySorted apart buf /\
  forall l m, last_sample buf = Some l -> In m buf -> m_time l - m_time m < 1000.

Definition clock_ok (ev : MouseEvent) : Prop := mv_now ev <= mv_now' ev.

Definition trackMouseMoves (evs : list MouseEvent) (s : State) : State :=
  fold_left (fun st ev => trackMouseMove ev st) evs s.

(** The three conditions of [mouse_thrash] on a buffer: ten samples or more,
    a path longer than 500px, four changes of direction or more. *)
Definition thrashing (buf : list MouseSample) : Prop :=
  10 <= len buf /\
  PrimFloat.ltb (of_Z 500) (fst (thrash_measure buf)) = true /\
  4 <= snd (thrash_measure buf).

(** The same measures, said of the path rather than of the loop.  The
    segments of a path are its samples, each with the one before it. *)
Definition segments (buf : list MouseSample) : list (MouseSample * MouseSample) :=
  combine buf (tl buf).

(** The accumulated distance: the lengths of the segments, added up as
    doubles from the oldest on. *)
Definition pathLength (buf : list MouseSample) : float :=
  fold_left (fun total seg => PrimFloat.add total (segment (fst seg) (snd seg)))
    (segments buf) (of_Z 0).

Definition deltas (buf : list MouseSample) : list (Z * Z) :=
  map (fun seg => (m_x (snd seg) - m_x (fst seg), m_y (snd seg) - m_y (fst seg)))
    (segments buf).

(** The changes of label: the segments after the first whose label, right
    or left and down or up, is not that of the segment before.  A delta of
    zero reads as left, or as up. *)
Fixpoint labelChanges (ds : list (Z * Z)) : Z :=
  match ds with
  | a :: (b :: _) as rest =>
      (if String.eqb (direction (fst b) (snd b)) (direction (fst a) (snd a))
       then 0 else 1) + labelChanges rest
  | _ => 0
  end.

(** A reversal, in the words of the specification: from one segment to the
    next the pointer turns back on an axis, the x delta or the y delta
    going from positive to negative or from negative to positive. *)
Definition turnsBack (a b : Z) : bool :=
  ((0 <? a) && (b <? 0) || (a <? 0) && (0 <? b))%bool.

Fixpoint reversals (ds : list (Z * Z)) : Z :=
  match ds with
  | a :: (b :: _) as rest =>
      (if (turnsBack (fst a) (fst b) || turnsBack (snd a) (snd b))%bool then 1 else 0)
      + reversals rest
  | _ => 0
  end.

(** The buffer that [detectMouseThrashing] measures when it is called from
    [trackMouseMove]. *)
Definition measured (ev : MouseEvent) (s : State) : list MouseSample :=
  filter (fun m => mv_now' ev - m_time m <? 1000)
    (filter (fun m => mv_now ev - m_time m <? 2000)
       (mouseMovements s ++ [mkMove (mv_now ev) (mv_x ev) (mv_y ev)])%list).

Definition trackScrolls (depths : list Z) (s : State) : State :=
  fold_left (fun st depth => trackScroll depth st) depths s.

(** The [depth] of an envelope. *)
Definition depthOf (e : Envelope) : Z :=
  match obj_get "depth" (eventData e) with
  | Some (JNum n) => n
  | _ => 0
  end.

(** The milestones sent so far, in the order they were sent. *)
Definition sentMilestones (s : State) : list Z :=
  map depthOf (ofType "scroll_milestone" (sent s)).

(** The first [k] milestones have been sent, the last of them is on record,
    and the high-water mark has reached it. *)
Definition sentUpTo (k : nat) (s : State) : Prop :=
  (k <= 5)%nat /\
  sentMilestones s = firstn k milestones /\
  lastScrollDepthSent s = nth k (0 :: milestones) 0 /\
  lastScrollDepthSent s <= maxScrollDepth s.

(** Whether a scroll event at [depth] sends the milestone after the first
    [k]. *)
Definition sendsNext (k : nat) (depth : Z) (s : State) : bool :=
  ((k <? 5)%nat && (nth k milestones 0 <=? Z.max depth (maxScrollDepth s)))%bool.

(** ** More vocabulary: ids, device types, paths *)

Definition is_hex (c : ascii) : bool :=
  existsb (Ascii.eqb c) (list_ascii_of_string "0123456789abcdef").

(** What the character [o] of an id may be where the template has [t]: a
    hexadecimal digit for [x], one of 8, 9, a, b for [y], and [t] itself
    otherwise. *)
Definition idChar (t o : ascii) : Prop :=
  if Ascii.eqb t "x" then is_hex o = true
  else if Ascii.eqb t "y"
       then existsb (Ascii.eqb o) (list_ascii_of_string "89ab") = true
       else o = t.

(** ** More vocabulary: runs of clicks *)

(** A click on an element: the reading of the clock and the event. *)
Record ElementClick : Type := mkElementClick {
  ec_now : Z;
  ec_target : Element;
  ec_x : Z;
  ec_y : Z;
  ec_pageX : Z;
  ec_pageY : Z;
  ec_host : string
}.

Definition clickOf (c : ElementClick) : ClickEvent :=
  mkClickEvent (Elem (ec_target c)) (ec_x c) (ec_y c) (ec_pageX c) (ec_pageY c) (ec_host c).

Definition trackClicks (cs : list ElementClick) (s : State) : State :=
  fold_left (fun st c => final_state (trackClick (ec_now c) (clickOf c) st)) cs s.

(** Whether [trackClick] throws on an element: at the inner text or value
    of the target when that is a number, or at that of the clickable
    ancestor. *)
Definition clickThrows (t : Element) : bool :=
  match textOrValue t with
  | None => true
  | Some _ =>
      match closest clickables t with
      | Some clickableParent => negb (is_some (textOrValue clickableParent))
      | None => false
      end
  end.

(** The counters of the page against the log: the two frustration counters
    say what the log holds; [clickCount] runs ahead of the [click] events by
    the clicks whose handler threw, [lost] of them. *)
Definition counters_agree (lost : Z) (s : State) : Prop :=
  clickCount s = Z.of_nat (countType "click" (sent s)) + lost /\
  rageClickCount s = Z.of_nat (countType "rage_click" (sent s)) /\
  deadClickCount s = Z.of_nat (countType "dead_click" (sent s)).

(** ** Rage clicks in the words of the specification *)







(** The [clickCount] of each [rage_click] of a log, in order. *)
Definition rageCounts (log : list Envelope) : list (option JsVal) :=
  map (fun e => obj_get "clickCount" (eventData e)) (ofType "rage_click" log).

(** ** More vocabulary: runs of the whole tracker *)

(** One run of a handler or of a timer's callback, with the readings of
    the clock and of the document it makes. *)
Inductive Call : Type :=
| CClick (now : Z) (ev : ClickEvent)
| CMouseMove (ev : MouseEvent)
| CScroll (depth : Z)
| CFocus (now : Z) (input : Field) (form : option Form)
| CSubmit (now : Z) (form : option Form)
| CCancelTimer (now : Z) (form : Form)
| CEscapeTimer (clock : nat -> Z) (dom : nat -> Form)
| CRemoved (clock : nat -> Z) (node : RemovedNode)
| CReport (now : Z) (formElement : option Form) (reason : option string)
| CVisibility (now : Z) (hidden : bool)
| CMouseLeave (now : Z) (clientY : Z)
| CPageExit (now : Z) (clock : nat -> Z) (dom : nat -> Form)
| CPushState (env : NavEnv) (url : option (string * string)).

Definition run (c : Call) (p : Page) : Page :=
  match c with
  | CClick now ev => with_core (fun s => final_state (trackClick now ev s)) p
  | CMouseMove ev => with_core (trackMouseMove ev) p
  | CScroll depth => with_core (trackScroll depth) p
  | CFocus now input form =>
      with_core (fun s => final_state (trackFormFocus now input form s)) p
  | CSubmit now form => with_core (trackFormSubmit now form) p
  | CCancelTimer now form => with_core (cancelTimer now form) p
  | CEscapeTimer clock dom => with_core (escapeTimer clock dom) p
  | CRemoved clock node => with_core (onRemovedNode clock node) p
  | CReport now formElement reason =>
      with_core (reportFormAbandonment now formElement reason) p
  | CVisibility now hidden => trackVisibilityChange now hidden p
  | CMouseLeave now clientY => trackMouseLeave now clientY p
  | CPageExit now clock dom => trackPageExit now clock dom p
  | CPushState env url => onPushState env url p
  end.

Definition runAll (cs : list Call) (p : Page) : Page :=
  fold_left (fun q c => run c q) cs p.

(** A handler keeps an invariant when the state it leaves, returning or
    throwing, has it whenever the state it starts from has it. *)
Definition keeps {A : Type} (P : State -> Prop) (m : Js A) : Prop :=
  forall s, P s -> P (final_state (m s)).

(** The [k]-th envelope of the log carries the index [k], and the counter
    stands at the last one. *)
Definition numbered_log (count : Z) (log : list Envelope) : Prop :=
  len log = count /\
  map interactionIndex log = map Z.of_nat (seq 1 (List.length log)).

Definition numbered (s : State) : Prop := numbered_log (interactionCount s) (sent s).

(** A record as every reachable one is: not submitted, with at least one
    field interacted with, none listed twice, and the last field, when one
    is on record, among them. *)
Definition record_ok (d : FormData) : Prop :=
  submitted d = false /\
  fieldsInteracted d <> [] /\
  NoDup (fieldsInteracted d) /\
  forall l, lastField d = Some l -> In (lf_name l) (fieldsInteracted d).

(** The same, of a map of records. *)
Definition map_ok (m : FormMap.t) : Prop :=
  NoDup (map fst m) /\ Forall (fun e => record_ok (snd e)) m.

Definition forms_ok (s : State) : Prop :=
  NoDup (keysOf s) /\ Forall (fun e => record_ok (snd e)) (activeForms s).

(** The record of a form after a focus on [field]: [d] is the record
    before, a fresh one if there was none.  [pushed] is the record when the
    label lookup throws: the name is listed, the last field is not set. *)
Definition pushed (field : Field) (d : FormData) : FormData :=
  mkFormData (startTime d)
    (if mem (fieldName field) (fieldsInteracted d) then fieldsInteracted d
     else (fieldsInteracted d ++ [fieldName field])%list)
    (lastField d) (submitted d).

Definition touched (field : Field) (d : FormData) : FormData :=
  mkFormData (startTime d)
    (if mem (fieldName field) (fieldsInteracted d) then fieldsInteracted d
     else (fieldsInteracted d ++ [fieldName field])%list)
    (Some (mkLastField (fieldName field) (opt_str (fieldLabel field)) (fieldType field)))
    (submitted d).

(** The steps of [trackFormFieldInteraction] on a form: the state once the
    form has a record, the record the focus works on, and a record put
    back into the map. *)
Definition started (now : Z) (form : Form) (s : State) : State :=
  if FormMap.has (form_node form) (activeForms s) then s
  else startTrackingForm now form s.

Definition recordBefore (now : Z) (form : Form) (s : State) : FormData :=
  match FormMap.get (form_node form) (activeForms s) with
  | Some d => d
  | None => mkFormData now [] None false
  end.

Definition putRecord (form : Form) (d : FormData) (s : State) : State :=
  set_activeForms (FormMap.set (form_node form) d (activeForms s)) s.

(** The reason an abandonment event gives. *)
Definition reasonOf (e : Envelope) : option JsVal := obj_get "reason" (eventData e).

(** ** Field values *)

(** A field with its value replaced by a stand-in that is filled, blank or
    empty as the value is; a form with every field so replaced. *)
Definition masked (f : Field) : Field :=
  mkField (f_node f) (f_tagName f) (f_name f) (f_id f) (f_type f)
    (if is_filled f then "x" else if truthy (f_value f) then " " else "")
    (f_required f) (f_placeholder f) (f_labelFor f) (f_closestLabel f).

Definition maskedForm (form : Form) : Form :=
  mkForm (form_node form) (form_id form) (form_name form) (form_action form)
    (map masked (form_inputs form)) (form_offsetParent form).

(** ** Focus events on one form *)

(** The test of [trackFormFocus] on the tag of its target. *)
Definition isControl (f : Field) : bool :=
  mem (f_tagName f) ["INPUT"; "TEXTAREA"; "SELECT"].

(** A run of focus events, each with its reading of the clock, on fields
    of [form]. *)
Definition focusAll (form : Form) (evs : list (Z * Field)) (s : State) : State :=
  fold_left (fun st x => final_state (trackFormFocus (fst x) (snd x) (Some form) st))
    evs s.

(** ** Removed subtrees *)

(** The forms of a removed node: the node itself when it is a form, then the
    forms inside it. *)
Definition formsOf (node : RemovedNode) : list Form :=
  (match node_asForm node with Some form => [form] | None => [] end
   ++ node_forms node)%list.

(** ** The protocol of the loader *)

(** What happens to the loader: a capture asks for the library, the script
    loads, the script fails. *)
Inductive LoaderCall : Type :=
| Request (callback : nat)
| ScriptLoaded
| ScriptFailed.

Definition stepLoader (c : LoaderCall) (l : Loader) : Loader * list LoaderEffect :=
  match c with
  | Request callback => loadHtml2Canvas callback l
  | ScriptLoaded => onload l
  | ScriptFailed => onerror l
  end.

(** A run of the loader, with everything it did to the outside, in order. *)
Fixpoint runLoader (cs : list LoaderCall) (l : Loader) : Loader * list LoaderEffect :=
  match cs with
  | [] => (l, [])
  | c :: rest =>
      let '(l1, effects) := stepLoader c l in
      let '(l2, effects') := runLoader rest l1 in
      (l2, (effects ++ effects')%list)
  end.

Definition requested (cs : list LoaderCall) : list nat :=
  flat_map (fun c => match c with Request cb => [cb] | _ => [] end) cs.

Definition called (effects : list LoaderEffect) : list nat :=
  flat_map (fun e => match e with Called cb _ => [cb] | ScriptAppended => [] end) effects.

Definition appended (effects : list LoaderEffect) : nat :=
  List.length (filter (fun e => match e with ScriptAppended => true | _ => false end)
                 effects).

Definition failures (cs : list LoaderCall) : nat :=
  List.length (filter (fun c => match c with ScriptFailed => true | _ => false end) cs).

(** ** Time on the page *)

(** The readings of the page clock in a run never go back from [t], and the
    run holds no page exit of its own (a navigation makes one, then starts
    the page anew). *)
Fixpoint timed (t : Z) (cs : list Call) : Prop :=
  match cs with
  | [] => True
  | CVisibility now _ :: rest => t <= now /\ timed now rest
  | CPushState env _ :: rest => reset_t0 env <= reset_t1 env /\ timed (reset_t1 env) rest
  | CPageExit _ _ _ :: _ => False
  | _ :: rest => timed t rest
  end.

(** The last reading of the page clock in such a run. *)
Fixpoint lastReading (t : Z) (cs : list Call) : Z :=
  match cs with
  | [] => t
  | CVisibility now _ :: rest => lastReading now rest
  | CPushState env _ :: rest => lastReading (reset_t1 env) rest
  | _ :: rest => lastReading t rest
  end.

(** The visible time never exceeds the time since the page was entered. *)
Definition time_ok (p : Page) : Prop :=
  pageEntryTime p <= lastVisibilityChange p /\
  0 <= totalVisibleTime p <= lastVisibilityChange p - pageEntryTime p.

(** * Sample documents and runs *)

Module Sample.

(** An element with a tag, a class attribute, a cursor (inline and
    computed alike) and a parent; everything else is empty. *)
Definition element (tag cls cursor : string) (parent : option Element) : Element :=
  mkElement tag "" (ClassString cls) [] false cursor cursor "" NoValue None "" NoHref ""
    false None None parent.

Definition body : Element :=
  mkElement "BODY" "" (ClassString "") [] false "" "auto" "" NoValue None "" NoHref ""
    true None None None.

Definition div : Element := element "DIV" "" "auto" (Some body).

Definition click (n : Node) (x y : Z) : ClickEvent := mkClickEvent n x y x y "example.org".

End Sample.

(** The scenario of the specification: clicks at (100,100), (110,105) and
    (120,95), 100ms apart, on one element. *)
Definition twoClicksIn : State :=
  set_recentClicks [mkClick 0 100 100 "div"; mkClick 100 110 105 "div"] initialState.

Definition pointerSpan : Element := Sample.element "SPAN" "" "pointer" (Some Sample.div).
Definition labelButton : Element := Sample.element "LABEL" "btn" "auto" (Some Sample.body).

Definition formAB (a_value : string) : Form :=
  mkForm 7 "signup" "" "/signup"
    [mkField 1 "INPUT" "a" "" "text" a_value true "" NoLabel None;
     mkField 2 "INPUT" "b" "" "text" "" true "" NoLabel None;
     mkField 3 "INPUT" "c" "" "text" "" false "" NoLabel None]
    true.

Definition fieldOf (form : Form) (i : nat) : Field :=
  nth i (form_inputs form) (mkField 0 "" "" "" "" "" false "" NoLabel None).

Definition formPrefilled : Form :=
  mkForm 9 "newsletter" "" "/subscribe"
    [mkField 1 "INPUT" "email" "" "email" "" true "" NoLabel None;
     mkField 2 "INPUT" "country" "" "text" "France" false "" NoLabel None]
    true.

Definition burst : list MouseEvent :=
  [mkMouseEvent 0 0 0 0; mkMouseEvent 10 10 5 5; mkMouseEvent 60 61 9 9;
   mkMouseEvent 70 70 12 12; mkMouseEvent 1040 1040 30 30].

(** A zigzag of ten samples, 60ms apart, 100px a step. *)
Definition zigzag : list MouseEvent :=
  map (fun i => let t := 60 * Z.of_nat i in
                mkMouseEvent t t (if Nat.even i then 0 else 100) (10 * Z.of_nat i))
      (seq 0 10).

(** Mouse events 50ms apart, all at one point. *)
Definition steady (n : nat) : list MouseEvent :=
  map (fun i => let t := 50 * Z.of_nat i in mkMouseEvent t t 0 0) (seq 0 n).

(** A login form: [email], then [password]. *)
Definition emailField : Field :=
  mkField 1 "INPUT" "email" "" "email" "" true "" NoLabel None.

Definition passwordField : Field :=
  mkField 2 "INPUT" "password" "" "password" "" true "" NoLabel None.

Definition loginForm : Form :=
  mkForm 7 "login" "" "/login" [emailField; passwordField] true.


(** A slide to the right and slowly down: ten samples 100ms apart, 100px
    a step to the right, one pixel down at every other step. *)
Definition slide : list MouseEvent :=
  map (fun i => let t := 100 * Z.of_nat i in
                mkMouseEvent t t t (Z.of_nat (Nat.div2 i)))
      (seq 0 10).

(** * Properties *)

(** ** The transport's log *)

Lemma skipn_all_app {A : Type} (l r : list A) : skipn (List.length l) (l ++ r)%list = r.
Proof. induction l as [|a l IH]; simpl; auto. Qed.

Lemma emitted_refl (s : State) : emitted s s = [].
Proof.
  unfold emitted. rewrite <- (app_nil_r (sent s)) at 2. apply skipn_all_app.
Qed.

Lemma emitted_grows (s s' : State) (l : list Envelope) :
  sent s' = (sent s ++ l)%list -> emitted s s' = l.
Proof. intros E. unfold emitted. rewrite E. apply skipn_all_app. Qed.

Lemma len_cons {A : Type} (a : A) (l : list A) : len (a :: l) = len l + 1.
Proof. unfold len. simpl List.length. lia. Qed.

Lemma len_nonneg {A : Type} (l : list A) : 0 <= len l.
Proof. unfold len. lia. Qed.

Lemma len_app {A : Type} (l r : list A) : len (l ++ r)%list = len l + len r.
Proof. unfold len. rewrite length_app. lia. Qed.

Lemma len_filter_le {A : Type} (p : A -> bool) (l : list A) : len (filter p l) <= len l.
Proof. unfold len. pose proof (filter_length_le p l). lia. Qed.

(** ** Rage clicks *)

Lemma sameArea_near (f c : ClickSample) : sameArea f c = true <-> near f c.
Proof.
  unfold sameArea, near. rewrite andb_true_iff, !Z.ltb_lt. tauto.
Qed.

(** What [detectRageClick] does on an element, as one case split. *)
Lemma detectRageClick_elem (now : Z) (ev : ClickEvent) (t : Element) (s : State) :
  target ev = Elem t ->
  let buf := pruned now (recentClicks s)
               (mkClick now (clientX ev) (clientY ev) (elementSelector t)) in
  detectRageClick now ev s =
    if ((3 <=? len buf) && forallb (sameArea (hd (mkClick 0 0 0 "") buf)) buf)%bool
    then Returned true
           (set_recentClicks []
              (sendEvent "rage_click"
                 [("clickCount", JNum (len buf));
                  ("timeWindow", JNum (now - c_time (hd (mkClick 0 0 0 "") buf)));
                  ("x", JNum (clientX ev));
                  ("y", JNum (clientY ev));
                  ("element", JStr (elementSelector t));
                  ("elementPath", JStr (elementPath t));
                  ("elementText", JStr (elementText (Elem t)));
                  ("totalRageClicks", JNum (rageClickCount s + 1))]
                 (set_rageClickCount (rageClickCount s + 1) (set_recentClicks buf s))))
    else Returned false (set_recentClicks buf s).
Proof.
  intros Ht buf. unfold detectRageClick, bind, update, read, ret.
  rewrite Ht. cbn [getElementSelector getElementPath ret].
  cbn [recentClicks set_recentClicks]. fold buf.
  destruct (3 <=? len buf) eqn:E3; cbn [andb]; [|reflexivity].
  destruct buf as [|firstClick rest] eqn:Eb; [discriminate E3|].
  cbn [hd]. destruct (forallb (sameArea firstClick) (firstClick :: rest)); reflexivity.
Qed.

Lemma forallb_near (firstClick : ClickSample) (buf : list ClickSample) :
  (forall c, In c buf -> near firstClick c) -> forallb (sameArea firstClick) buf = true.
Proof.
  intros H. apply forallb_forall. intros c Hc. apply sameArea_near. auto.
Qed.


(** ** What one click does *)

(** The end of [trackClick], from cancel detection on, whatever state [s1]
    and events [l1] the detections left. *)
Ltac click_tail s1 Hty1 Hrc1 F :=
  let Hs := fresh "Hs" in
  destruct F as (Hs & ? & ? & ? & ? & ? & ? & ? & ? & ? & ?);
  unfold clickThrows, detectFormCancelClick, bind, update, read, ret, throw;
  match goal with Ht : target _ = Elem ?t |- _ => rewrite Ht end;
  match goal with
  | |- context [textOrValue ?t] =>
      let text := fresh "text" in
      let Htv := fresh "Htv" in
      destruct (textOrValue t) as [text|] eqn:Htv;
      [ let Hc := fresh "Hc" in
        let Hf := fresh "Hf" in
        let Hh := fresh "Hh" in
        let form := fresh "form" in
        destruct (isCancelButton (toLowerCase text) t) eqn:Hc;
        [ destruct (cancelledForm t) as [form|] eqn:Hf;
          [ destruct (FormMap.has (form_node form) (activeForms s1)) eqn:Hh | ]
        | ];
        (destruct (closest clickables t) as [?cp|];
         [ destruct (textOrValue cp) as [?text'|] | ])
      | ]
  end;
  cbn [final_state is_some negb];
  eexists;
  (split;
   [ cbn [sent sendEvent set_timers]; first [rewrite Hs, <- ?app_assoc; reflexivity | idtac] | ]);
  (split;
   [ unfold typesOf in *; rewrite ?map_app, Hty1; cbn [map eventType app];
     rewrite ?app_nil_r; reflexivity | ]);
  (split;
   [ unfold rageCounts, ofType in *; rewrite ?filter_app, ?map_app, Hrc1;
     cbn [filter eventType String.eqb Ascii.eqb Bool.eqb map app];
     rewrite ?app_nil_r; reflexivity | ]);
  (split; [ first [ reflexivity | eexists; reflexivity ] | ]);
  cbn [clickCount rageClickCount deadClickCount recentClicks activeForms mouseMovements
       maxScrollDepth lastScrollDepthSent interactionCount timers sendEvent set_timers];
  repeat (split; [ first [ assumption | reflexivity
                         | (rewrite ?len_app; unfold len in *; cbn [List.length]; lia) ] | ]);
  first [ left; assumption
        | right; do 2 eexists; (split; [reflexivity|]); (split; [eassumption|]);
          (split; [reflexivity|]); split; congruence ].

(** [trackClick] on an element, whole: what it sends, how it ends and what
    it leaves in the state.  It throws exactly when the inner text or value
    it reads is a number, and then the [click] event is not sent; the
    events of the detections are out by then. *)
Lemma trackClick_effect (now : Z) (ev : ClickEvent) (t : Element) (s : State) :
  target ev = Elem t ->
  let buf := pruned now (recentClicks s)
               (mkClick now (clientX ev) (clientY ev) (elementSelector t)) in
  let o := trackClick now ev s in
  let s'' := final_state o in
  exists l,
    sent s'' = (sent s ++ l)%list /\
    typesOf l = ((if rageFires now ev t s then ["rage_click"]
                  else if deadFires t then ["dead_click"] else [])
                 ++ (if clickThrows t then [] else ["click"]))%list /\
    rageCounts l = (if rageFires now ev t s then [Some (JNum (len buf))] else []) /\
    (if clickThrows t then exists e, o = Thrown e s'' else o = Returned tt s'') /\
    clickCount s'' = clickCount s + 1 /\
    rageClickCount s'' = rageClickCount s + (if rageFires now ev t s then 1 else 0) /\
    deadClickCount s'' = deadClickCount s +
                         (if rageFires now ev t s then 0 else if deadFires t then 1 else 0) /\
    recentClicks s'' = (if rageFires now ev t s then [] else buf) /\
    activeForms s'' = activeForms s /\
    mouseMovements s'' = mouseMovements s /\
    maxScrollDepth s'' = maxScrollDepth s /\
    lastScrollDepthSent s'' = lastScrollDepthSent s /\
    interactionCount s'' = interactionCount s + len l /\
    (timers s'' = timers s \/
     exists form text,
       textOrValue t = Some text /\ isCancelButton (toLowerCase text) t = true /\
       cancelledForm t = Some form /\
       FormMap.has (form_node form) (activeForms s) = true /\
       timers s'' = (timers s ++ [CancelCheck (form_node form)])%list).
Proof.
  intros Ht. cbv zeta. unfold trackClick, bind, update. cbn beta.
  rewrite (detectRageClick_elem now ev t _ Ht). cbv zeta.
  cbn [recentClicks set_clickCount]. fold (rageFires now ev t s).
  destruct (rageFires now ev t s).
  - cbn [ret].
    match goal with
    | |- context [detectFormCancelClick ev ?S] => set (s1 := S)
    end.
    assert (F : exists l1,
              typesOf l1 = ["rage_click"] /\
              rageCounts l1 =
                [Some (JNum (len (pruned now (recentClicks s)
                                    (mkClick now (clientX ev) (clientY ev)
                                       (elementSelector t)))))] /\
              sent s1 = (sent s ++ l1)%list /\
              clickCount s1 = clickCount s + 1 /\
              rageClickCount s1 = rageClickCount s + 1 /\
              deadClickCount s1 = deadClickCount s + 0 /\
              recentClicks s1 = [] /\
              activeForms s1 = activeForms s /\
              mouseMovements s1 = mouseMovements s /\
              maxScrollDepth s1 = maxScrollDepth s /\
              lastScrollDepthSent s1 = lastScrollDepthSent s /\
              interactionCount s1 = interactionCount s + len l1 /\
              timers s1 = timers s).
    { eexists. split; [|split; [|split]];
        [| |unfold s1; cbn [sent sendEvent set_recentClicks set_rageClickCount
                             set_clickCount]; reflexivity|];
        [reflexivity|reflexivity|].
      unfold s1; cbn; repeat split; lia. }
    destruct F as (l1 & Hty1 & Hrc1 & F).
    clearbody s1. click_tail s1 Hty1 Hrc1 F.
  - unfold detectDeadClick. rewrite Ht. fold (deadFires t).
    destruct (deadFires t); unfold bind, update, read, ret; cbn beta.
    + match goal with
      | |- context [detectFormCancelClick ev ?S] => set (s1 := S)
      end.
      assert (F : exists l1,
                typesOf l1 = ["dead_click"] /\
                rageCounts l1 = [] /\
                sent s1 = (sent s ++ l1)%list /\
                clickCount s1 = clickCount s + 1 /\
                rageClickCount s1 = rageClickCount s + 0 /\
                deadClickCount s1 = deadClickCount s + 1 /\
                recentClicks s1 =
                  pruned now (recentClicks s)
                    (mkClick now (clientX ev) (clientY ev) (elementSelector t)) /\
                activeForms s1 = activeForms s /\
                mouseMovements s1 = mouseMovements s /\
                maxScrollDepth s1 = maxScrollDepth s /\
                lastScrollDepthSent s1 = lastScrollDepthSent s /\
                interactionCount s1 = interactionCount s + len l1 /\
                timers s1 = timers s).
      { eexists. split; [|split; [|split]];
          [| |unfold s1; cbn [sent sendEvent set_recentClicks set_deadClickCount
                               set_clickCount]; reflexivity|];
          [reflexivity|reflexivity|].
        unfold s1; cbn; repeat split; lia. }
      destruct F as (l1 & Hty1 & Hrc1 & F).
      clearbody s1. click_tail s1 Hty1 Hrc1 F.
    + match goal with
      | |- context [detectFormCancelClick ev ?S] => set (s1 := S)
      end.
      assert (F : exists l1,
                typesOf l1 = [] /\
                rageCounts l1 = [] /\
                sent s1 = (sent s ++ l1)%list /\
                clickCount s1 = clickCount s + 1 /\
                rageClickCount s1 = rageClickCount s + 0 /\
                deadClickCount s1 = deadClickCount s + 0 /\
                recentClicks s1 =
                  pruned now (recentClicks s)
                    (mkClick now (clientX ev) (clientY ev) (elementSelector t)) /\
                activeForms s1 = activeForms s /\
                mouseMovements s1 = mouseMovements s /\
                maxScrollDepth s1 = maxScrollDepth s /\
                lastScrollDepthSent s1 = lastScrollDepthSent s /\
                interactionCount s1 = interactionCount s + len l1 /\
                timers s1 = timers s).
      { exists []. unfold s1; cbn; rewrite app_nil_r; repeat split; lia. }
      destruct F as (l1 & Hty1 & Hrc1 & F).
      clearbody s1. click_tail s1 Hty1 Hrc1 F.
Qed.

(** ** Rage clicks over a run of clicks *)

Lemma trackClicks_cons (c : ElementClick) (cs : list ElementClick) (s : State) :
  trackClicks (c :: cs) s
    = trackClicks cs (final_state (trackClick (ec_now c) (clickOf c) s)).
Proof. reflexivity. Qed.











(** The same scenario run through [trackClick] from the first click on:
    one [rage_click], with [clickCount] 3, at the third click. *)
Example three_clicks_one_rage_click :
  let run := (trackClick 0 (Sample.click (Elem Sample.div) 100 100) ;;;
              trackClick 100 (Sample.click (Elem Sample.div) 110 105) ;;;
              trackClick 200 (Sample.click (Elem Sample.div) 120 95))%js initialState in
  map eventType (sent (final_state run)) = ["click"; "click"; "rage_click"; "click"] /\
  map (fun e => obj_get "clickCount" (eventData e)) (ofType "rage_click" (sent (final_state run)))
    = [Some (JNum 3)] /\
  recentClicks (final_state run) = [].
Proof. vm_compute. repeat split. Qed.

(** All the samples of the window count, not only three of them: with a far
    click between two near ones, the fourth click, near the first, finds
    four samples in the window and sends no [rage_click]. *)
Example far_click_in_the_window :
  let run := (trackClick 0 (Sample.click (Elem Sample.div) 100 100) ;;;
              trackClick 100 (Sample.click (Elem Sample.div) 110 105) ;;;
              trackClick 200 (Sample.click (Elem Sample.div) 400 400) ;;;
              trackClick 300 (Sample.click (Elem Sample.div) 120 95))%js initialState in
  typesOf (sent (final_state run)) = ["click"; "click"; "click"; "click"] /\
  len (recentClicks (final_state run)) = 4.
Proof. vm_compute. split; reflexivity. Qed.

(** ** Dead clicks *)

Lemma closest_unfold (sels : list Selector) (e : Element) :
  closest sels e =
    if matches sels e then Some e
    else match parentElement e with
         | Some p => closest sels p
         | None => None
         end.
Proof. destruct e; reflexivity. Qed.

(** What the code counts as clickable: the structural predicate, and
    besides it every [label] and every element with a pointer cursor. *)
Lemma isActuallyClickable_split (t : Element) :
  isActuallyClickable t =
    (structurallyClickable t || isLabel t || pointerStyled t)%bool.
Proof.
  unfold isActuallyClickable, structurallyClickable, isLabel, pointerStyled,
    isClickableElement.
  rewrite closest_unfold. unfold matches, interactiveAncestors.
  cbn [existsb matches1 mem]. unfold attr_eq, attr_of. cbn [String.eqb Ascii.eqb Bool.eqb].
  destruct (String.eqb (toLowerCase (tagName t)) "a"); cbn; try reflexivity.
  destruct (String.eqb (toLowerCase (tagName t)) "button"); cbn; try reflexivity.
  destruct (String.eqb (toLowerCase (tagName t)) "input"); cbn; try reflexivity.
  destruct (String.eqb (toLowerCase (tagName t)) "select"); cbn; try reflexivity.
  destruct (String.eqb (toLowerCase (tagName t)) "textarea"); cbn; try reflexivity.
  destruct (getAttribute "role" t) as [r|];
    [destruct (String.eqb r "button"); cbn; try reflexivity|];
    destruct (String.eqb (toLowerCase (tagName t)) "label"),
      (onclick t), (opt_truthy (getAttribute "onclick" t)),
      (is_pointer (style_cursor t)), (is_pointer (computed_cursor t));
    cbn; rewrite ?orb_true_r, ?orb_false_r; reflexivity.
Qed.

Lemma countType_types (type : string) (log : list Envelope) :
  countType type log =
    List.length (filter (fun n => String.eqb n type) (typesOf log)).
Proof.
  unfold countType, ofType, typesOf.
  induction log as [|e log IH]; [reflexivity|].
  cbn [filter map]. destruct (String.eqb (eventType e) type); cbn [List.length]; now rewrite IH.
Qed.

(** C2, as stated, fails.  A [span] whose only sign of clickability is its
    pointer cursor looks clickable and fails the structural predicate, and so
    does a [label] of class [btn]; a click on either one sends no
    [dead_click]. *)
Lemma dead_click_claim_fails :
  (looksClickable pointerSpan = true /\
   structurallyClickable pointerSpan = false /\
   rageFires 0 (Sample.click (Elem pointerSpan) 1 1) pointerSpan initialState = false /\
   exists s'', trackClick 0 (Sample.click (Elem pointerSpan) 1 1) initialState = Returned tt s''
               /\ countType "dead_click" (emitted initialState s'') = 0%nat) /\
  (looksClickable labelButton = true /\
   structurallyClickable labelButton = false /\
   rageFires 0 (Sample.click (Elem labelButton) 1 1) labelButton initialState = false /\
   exists s'', trackClick 0 (Sample.click (Elem labelButton) 1 1) initialState = Returned tt s''
               /\ countType "dead_click" (emitted initialState s'') = 0%nat).
Proof.
  split; (split; [reflexivity|]); (split; [reflexivity|]); (split; [reflexivity|]);
    eexists; (split; [vm_compute; reflexivity|]); reflexivity.
Qed.

(** C2, amended.  A click on an element sends at most one [dead_click];
    none when the element satisfies the structural predicate, whatever its
    styling, none on a [label], none when the click is a rage click.  For a
    click that is not a rage click, on an element without pointer-cursor
    styling, a [dead_click] is sent exactly when the element looks clickable
    (an image, or one of the class markers) and neither satisfies the
    structural predicate nor is a [label].  All of this holds of the state
    the handler leaves, also when it throws further on, at the text of the
    element; when it does not, the handler returns. *)
Theorem dead_click_needs_no_structure
  (now x y px py : Z) (host : string) (t : Element) (s : State) :
  let ev := mkClickEvent (Elem t) x y px py host in
  let s'' := final_state (trackClick now ev s) in
  (countType "dead_click" (emitted s s'') <= 1)%nat /\
  (structurallyClickable t = true -> countType "dead_click" (emitted s s'') = 0%nat) /\
  (isLabel t = true -> countType "dead_click" (emitted s s'') = 0%nat) /\
  (rageFires now ev t s = true -> countType "dead_click" (emitted s s'') = 0%nat) /\
  (rageFires now ev t s = false -> pointerStyled t = false ->
   (countType "dead_click" (emitted s s'') = 1%nat <->
    looksClickable t = true /\ structurallyClickable t = false /\ isLabel t = false)) /\
  (clickThrows t = false -> trackClick now ev s = Returned tt s'').
Proof.
  intros ev. cbv zeta.
  destruct (trackClick_effect now ev t s eq_refl) as (l & Hsent & Hty & _ & Hend & _).
  cbv zeta in Hsent, Hty, Hend. rewrite (emitted_grows _ _ _ Hsent).
  rewrite countType_types, Hty. unfold deadFires.
  assert (Hret : clickThrows t = false ->
                 trackClick now ev s = Returned tt (final_state (trackClick now ev s))).
  { intros H. rewrite H in Hend. exact Hend. }
  revert Hret. clear Hend. generalize (trackClick now ev s). intros o Hret.
  rewrite isActuallyClickable_split.
  destruct (rageFires now ev t s), (looksClickable t), (structurallyClickable t),
    (isLabel t), (pointerStyled t), (clickThrows t); cbn;
    repeat split; intros; try discriminate; try lia; try reflexivity;
    repeat match goal with H : _ /\ _ |- _ => destruct H end; try discriminate;
    now apply Hret.
Qed.

(** ** Forms *)

Module FormMapFacts.

Lemma get_set_same (k : nat) (d : FormData) (m : FormMap.t) :
  FormMap.get k (FormMap.set k d m) = Some d.
Proof.
  induction m as [|[k' d'] m IH]; cbn.
  - now rewrite Nat.eqb_refl.
  - destruct (Nat.eqb k k') eqn:E; cbn; rewrite ?Nat.eqb_refl, ?E; auto.
Qed.

Lemma get_delete_same (k : nat) (m : FormMap.t) :
  FormMap.get k (FormMap.delete k m) = None.
Proof.
  unfold FormMap.delete.
  induction m as [|[k' d'] m IH]; cbn; [reflexivity|].
  destruct (Nat.eqb k k') eqn:E; cbn; rewrite ?E; auto.
Qed.

Lemma has_delete_same (k : nat) (m : FormMap.t) :
  FormMap.has k (FormMap.delete k m) = false.
Proof. unfold FormMap.has. now rewrite get_delete_same. Qed.

Lemma has_get (k : nat) (m : FormMap.t) :
  FormMap.has k m = false <-> FormMap.get k m = None.
Proof. unfold FormMap.has. destruct (FormMap.get k m); cbn; split; congruence. Qed.

End FormMapFacts.

Lemma set_set (k : nat) (d d' : FormData) (m : FormMap.t) :
  FormMap.set k d' (FormMap.set k d m) = FormMap.set k d' m.
Proof.
  induction m as [|[k' d''] m IH]; cbn.
  - now rewrite Nat.eqb_refl.
  - destruct (Nat.eqb k k') eqn:E; cbn; rewrite ?Nat.eqb_refl, ?E; congruence.
Qed.

(** [getFieldLabel] throws for the fields whose selector the document
    rejects, and returns the label for the others. *)
Lemma getFieldLabel_cases (field : Field) (s : State) :
  getFieldLabel field s =
    if labelThrows field then Thrown (SyntaxError (labelSelector field)) s
    else Returned (fieldLabel field) s.
Proof.
  unfold getFieldLabel, labelThrows, fieldLabel, bind, ret, throw.
  destruct (truthy (f_id field)); cbn [andb];
    [destruct (f_labelFor field)|]; try reflexivity;
    destruct (f_closestLabel field); reflexivity.
Qed.

(** [trackFormFieldInteraction] on a form, case by case.  The exception of
    the first lookup leaves the record with the name pushed and the last
    field as it was; that of the second leaves the record complete and no
    event sent. *)
Lemma trackFormFieldInteraction_cases (now : Z) (field : Field) (form : Form) (s : State) :
  trackFormFieldInteraction now field (Some form) s =
    let s1 := started now form s in
    let d := recordBefore now form s in
    if labelThrows field
    then Thrown (SyntaxError (labelSelector field)) (putRecord form (pushed field d) s1)
    else
      let s2 := putRecord form (touched field d) s1 in
      match fieldBefore field form with
      | Some prev =>
          if skipped prev then
            if labelThrows prev then Thrown (SyntaxError (labelSelector prev)) s2
            else Returned tt
                   (sendEvent "form_field_skip"
                      (skipData form prev (fieldLabel prev) (fieldName field)) s2)
          else Returned tt s2
      | None => Returned tt s2
      end.
Proof.
  cbv zeta. unfold trackFormFieldInteraction, bind, update, read, ret.
  fold (started now form s).
  assert (G : FormMap.get (form_node form) (activeForms (started now form s))
              = Some (recordBefore now form s)).
  { unfold started, recordBefore, FormMap.has, startTrackingForm.
    destruct (FormMap.get (form_node form) (activeForms s)) as [d|] eqn:E; cbn [is_some].
    - exact E.
    - unfold FormMap.has. rewrite E. cbn [is_some activeForms sendEvent set_activeForms].
      apply FormMapFacts.get_set_same. }
  rewrite G. set (d := recordBefore now form s). set (s1 := started now form s).
  rewrite getFieldLabel_cases.
  destruct (labelThrows field); [reflexivity|].
  assert (P : set_activeForms
                (FormMap.set (form_node form) (touched field d)
                   (activeForms
                      (set_activeForms
                         (FormMap.set (form_node form)
                            (mkFormData (startTime d)
                               (if mem (fieldName field) (fieldsInteracted d)
                                then fieldsInteracted d
                                else (fieldsInteracted d ++ [fieldName field])%list)
                               (lastField d) (submitted d)) (activeForms s1)) s1)))
                (set_activeForms
                   (FormMap.set (form_node form)
                      (mkFormData (startTime d)
                         (if mem (fieldName field) (fieldsInteracted d)
                          then fieldsInteracted d
                          else (fieldsInteracted d ++ [fieldName field])%list)
                         (lastField d) (submitted d)) (activeForms s1)) s1)
              = putRecord form (touched field d) s1).
  { unfold putRecord. cbn [activeForms set_activeForms]. now rewrite set_set. }
  unfold touched in P. unfold fieldBefore.
  destruct (indexOf (f_node field) (form_inputs form) 0 >? 0);
    [destruct (nth_error (form_inputs form) _) as [prev|];
     [destruct (skipped prev);
      [rewrite getFieldLabel_cases; destruct (labelThrows prev)|]|]|];
    unfold touched; rewrite <- P; reflexivity.
Qed.
(** One focus on a field of a form: a [form_start] if the form had no
    record, then a [form_field_skip] if the field before is skipped, unless
    a label lookup throws first. *)
Lemma trackFormFieldInteraction_sent (now : Z) (field : Field) (form : Form) (s : State) :
  exists n,
    emitted s (final_state (trackFormFieldInteraction now field (Some form) s)) =
      ((if FormMap.has (form_node form) (activeForms s) then []
        else [mkEnvelope "form_start" (getFormInfo form) (interactionCount s + 1)])
       ++ if labelThrows field then []
          else match fieldBefore field form with
               | Some prev =>
                   if (skipped prev && negb (labelThrows prev))%bool
                   then [mkEnvelope "form_field_skip"
                           (skipData form prev (fieldLabel prev) (fieldName field)) n]
                   else []
               | None => []
               end)%list.
Proof.
  rewrite trackFormFieldInteraction_cases. cbv zeta.
  unfold started, startTrackingForm, putRecord.
  destruct (FormMap.has (form_node form) (activeForms s));
    (destruct (labelThrows field);
     [|destruct (fieldBefore field form) as [prev|];
       [destruct (skipped prev); [destruct (labelThrows prev)|]|]]);
    cbn [final_state andb negb];
    first [ eexists; apply emitted_grows;
            cbn [sent sendEvent set_activeForms]; rewrite <- ?app_assoc; reflexivity
          | exists 0; apply emitted_grows;
            cbn [sent sendEvent set_activeForms app]; rewrite ?app_nil_r; reflexivity ].
Qed.

Lemma skipped_spec (prev : Field) :
  skipped prev = true <->
  f_type prev <> "password" /\ f_value prev = "" /\ f_required prev = true.
Proof.
  unfold skipped, mem. cbn [existsb]. rewrite orb_false_r.
  rewrite !andb_true_iff, !negb_true_iff.
  destruct (String.eqb_spec (f_type prev) "password") as [E|E];
    destruct (f_value prev) as [|c v]; cbn; intuition congruence.
Qed.

(** C3, as stated, fails.  Field [a] of the form is required and stays
    empty.  The user focuses [b], goes back to [a], and focuses [b] again:
    [form_field_skip] is sent for [a] at each of the two moves onto [b],
    within one lifecycle of the record. *)
Lemma form_field_skip_repeats :
  let s1 := final_state (trackFormFieldInteraction 0 (fieldOf (formAB "") 1)
                           (Some (formAB "")) initialState) in
  let s2 := final_state (trackFormFieldInteraction 900 (fieldOf (formAB "") 0)
                           (Some (formAB "")) s1) in
  let s3 := final_state (trackFormFieldInteraction 1800 (fieldOf (formAB "") 1)
                           (Some (formAB "")) s2) in
  map (fun e => obj_get "skippedField" (eventData e)) (ofType "form_field_skip" (sent s3))
    = [Some (JStr "a"); Some (JStr "a")] /\
  typesOf (sent s3) = ["form_start"; "form_field_skip"; "form_field_skip"] /\
  FormMap.has 7 (activeForms s3) = true /\
  trackFormFieldInteraction 0 (fieldOf (formAB "") 1) (Some (formAB "")) initialState
    = Returned tt s1 /\
  trackFormFieldInteraction 900 (fieldOf (formAB "") 0) (Some (formAB "")) s1
    = Returned tt s2 /\
  trackFormFieldInteraction 1800 (fieldOf (formAB "") 1) (Some (formAB "")) s2
    = Returned tt s3.
Proof. vm_compute. repeat split. Qed.

(** One focus, case by case, with the test of the code on the field
    before. *)
Lemma form_field_skip_cases (now : Z) (field : Field) (form : Form) (s : State) :
  let out := trackFormFieldInteraction now field (Some form) s in
  let skips := ofType "form_field_skip" (emitted s (final_state out)) in
  let due := exists prev, fieldBefore field form = Some prev /\
               f_type prev <> "password" /\ f_value prev = "" /\ f_required prev = true in
  let thrown :=
    labelThrows field = true \/
    exists prev, fieldBefore field form = Some prev /\ skipped prev = true /\
                 labelThrows prev = true in
  (List.length skips <= 1)%nat /\
  (~ thrown -> (List.length skips = 1%nat <-> due)) /\
  (thrown <-> exists e s', out = Thrown e s') /\
  (thrown -> skips = []) /\
  (forall e, In e skips ->
   exists prev, fieldBefore field form = Some prev /\
                eventData e = skipData form prev (fieldLabel prev) (fieldName field) /\
                obj_get "movedToField" (eventData e) = Some (JStr (fieldName field))).
Proof.
  cbv zeta.
  destruct (trackFormFieldInteraction_sent now field form s) as (n & E).
  rewrite E. clear E. unfold ofType. rewrite filter_app.
  assert (Hstart : filter (fun e => String.eqb (eventType e) "form_field_skip")
                     (if FormMap.has (form_node form) (activeForms s) then []
                      else [mkEnvelope "form_start" (getFormInfo form)
                              (interactionCount s + 1)]) = []).
  { destruct (FormMap.has _ _); reflexivity. }
  rewrite Hstart. cbn [app]. clear Hstart.
  rewrite trackFormFieldInteraction_cases. cbv zeta.
  destruct (labelThrows field) eqn:Hf.
  { split; [cbn; lia|]. split; [intros H; elim H; now left|].
    split; [split; [intros _; eexists; eexists; reflexivity|intros _; now left]|].
    split; [reflexivity|intros e []]. }
  destruct (fieldBefore field form) as [prev|].
  - pose proof (skipped_spec prev) as Hs.
    destruct (skipped prev) eqn:Hsk; [destruct (labelThrows prev) eqn:Hp|];
      cbn [andb negb filter eventType String.eqb Ascii.eqb Bool.eqb List.length].
    + split; [lia|]. split.
      { intros H. elim H. right. exists prev. auto. }
      split; [split; [intros _; eexists; eexists; reflexivity|]|].
      { intros _. right. exists prev. auto. }
      split; [reflexivity|intros e []].
    + split; [lia|]. split.
      { intros _. split; [|reflexivity]. intros _. exists prev.
        split; [reflexivity|]. now apply Hs. }
      split.
      { split.
        - intros [H|(p & Hp' & _ & Hp'')]; [discriminate|].
          injection Hp' as <-. congruence.
        - intros (e & s' & H). discriminate. }
      split.
      { intros [H|(p & Hp' & _ & Hp'')]; [discriminate|].
        injection Hp' as <-. congruence. }
      intros e [<-|[]]. exists prev. split; [reflexivity|]. split; reflexivity.
    + split; [lia|]. split.
      { intros _. split; [discriminate|]. intros (p & Hp' & H). injection Hp' as <-.
        apply Hs in H. discriminate. }
      split.
      { split.
        - intros [H|(p & Hp' & Hp'' & _)]; [discriminate|].
          injection Hp' as <-. congruence.
        - intros (e & s' & H). discriminate. }
      split; [reflexivity|intros e []].
  - cbn. split; [lia|]. split.
    { intros _. split; [discriminate|]. intros (p & Hp & _). discriminate. }
    split.
    { split.
      - intros [H|(p & Hp' & _)]; discriminate.
      - intros (e & s' & H). discriminate. }
    split; [reflexivity|intros e []].
Qed.

(** C3, amended.  One focus on a field sends at most one
    [form_field_skip].  When no label lookup throws, it sends one exactly
    when the field is not the first of its form and the field just before it
    in document order is not a password field, has an empty value and is
    required, as the document stands at that moment; the event names that
    field and the field the focus moved to.  Nothing of the record's past
    enters the test, so the same field is reported again at each later focus
    that meets it.  A lookup that throws, for the field or for the one
    before it, ends the handler before the event is sent. *)
Theorem form_field_skip_per_focus (now : Z) (field : Field) (form : Form) (s : State) :
  let out := trackFormFieldInteraction now field (Some form) s in
  let skips := ofType "form_field_skip" (emitted s (final_state out)) in
  let due := exists prev, fieldBefore field form = Some prev /\
               f_type prev <> "password" /\ f_value prev = "" /\ f_required prev = true in
  let thrown :=
    labelThrows field = true \/
    exists prev, fieldBefore field form = Some prev /\
                 (f_type prev <> "password" /\ f_value prev = "" /\
                  f_required prev = true) /\
                 labelThrows prev = true in
  (List.length skips <= 1)%nat /\
  (~ thrown -> (List.length skips = 1%nat <-> due)) /\
  (thrown <-> exists e s', out = Thrown e s') /\
  (thrown -> skips = []) /\
  (forall e, In e skips ->
   exists prev, fieldBefore field form = Some prev /\
                eventData e = skipData form prev (fieldLabel prev) (fieldName field) /\
                obj_get "skippedField" (eventData e)
                  = Some (JStr (or_else (f_name prev) (or_else (f_id prev) "unknown"))) /\
                obj_get "movedToField" (eventData e) = Some (JStr (fieldName field))).
Proof.
  cbv zeta.
  pose proof (form_field_skip_cases now field form s) as H. cbv zeta in H.
  assert (T : (labelThrows field = true \/
               exists prev, fieldBefore field form = Some prev /\ skipped prev = true /\
                            labelThrows prev = true) <->
              (labelThrows field = true \/
               exists prev, fieldBefore field form = Some prev /\
                            (f_type prev <> "password" /\ f_value prev = "" /\
                             f_required prev = true) /\
                            labelThrows prev = true)).
  { split; (intros [H0|(p & H1 & H2 & H3)];
            [now left|right; exists p; split; [exact H1|split; [|exact H3]]]);
      now apply skipped_spec. }
  rewrite T in H. destruct H as (H1 & H2 & H3 & H4 & H5).
  split; [exact H1|]. split; [exact H2|]. split; [exact H3|]. split; [exact H4|].
  intros e He. destruct (H5 e He) as (prev & P1 & P2 & P3). exists prev.
  split; [exact P1|]. split; [exact P2|]. split; [|exact P3].
  rewrite P2. unfold skipData, getFormInfo, spread. reflexivity.
Qed.

(** The scenario of the specification: [a] is filled, [b] is required and
    empty, the focus goes from [a] to [c]: one [form_field_skip], naming
    [b], moved to [c]. *)
Example skip_b_moving_to_c :
  let s1 := final_state (trackFormFieldInteraction 0 (fieldOf (formAB "") 0)
                           (Some (formAB "")) initialState) in
  let s2 := final_state (trackFormFieldInteraction 900 (fieldOf (formAB "x") 2)
                           (Some (formAB "x")) s1) in
  map (fun e => (obj_get "skippedField" (eventData e), obj_get "movedToField" (eventData e)))
      (ofType "form_field_skip" (sent s2))
    = [(Some (JStr "b"), Some (JStr "c"))].
Proof. vm_compute. reflexivity. Qed.

(** [checkFormAbandonment] on a form, case by case. *)
Lemma checkFormAbandonment_cases (now : Z) (form : Form) (reason : string) (s : State) :
  checkFormAbandonment now (Some form) reason s =
    match FormMap.get (form_node form) (activeForms s) with
    | None => s
    | Some formData =>
        let s1 := if (negb (submitted formData) && engaged formData form)%bool
                  then sendEvent "form_abandonment"
                         (abandonmentData now form reason formData) s
                  else s in
        set_activeForms (FormMap.delete (form_node form) (activeForms s1)) s1
    end.
Proof.
  unfold checkFormAbandonment, engaged.
  destruct (FormMap.get (form_node form) (activeForms s)) as [formData|]; [|reflexivity].
  destruct (submitted formData); [reflexivity|]. cbn [negb andb].
  destruct (_ && _)%bool; reflexivity.
Qed.

(** A check leaves the state alone, or it removes the record and adds at
    most one [form_abandonment] to the log. *)
Lemma checkFormAbandonment_effect (now : Z) (form : Form) (reason : string) (s : State) :
  let s1 := checkFormAbandonment now (Some form) reason s in
  FormMap.has (form_node form) (activeForms s1) = false /\
  exists l, sent s1 = (sent s ++ l)%list /\ (countType "form_abandonment" l <= 1)%nat /\
            (FormMap.has (form_node form) (activeForms s) = false -> s1 = s).
Proof.
  cbv zeta. rewrite checkFormAbandonment_cases. unfold FormMap.has.
  destruct (FormMap.get (form_node form) (activeForms s)) as [formData|] eqn:G.
  - cbv zeta. destruct (_ && _)%bool; cbn [activeForms set_activeForms sendEvent sent];
      rewrite FormMapFacts.get_delete_same; (split; [reflexivity|]).
    + eexists. split; [reflexivity|]. split; [cbn; lia|discriminate].
    + exists []. rewrite app_nil_r. split; [reflexivity|]. split; [cbn; lia|discriminate].
  - rewrite G. split; [reflexivity|]. exists []. rewrite app_nil_r. auto.
Qed.

Lemma fire_cases (tr : Trigger) (now : Z) (form : Form) (s : State) :
  fire tr now form s = s \/
  exists reason, fire tr now form s = checkFormAbandonment now (Some form) reason s.
Proof.
  destruct tr; cbn [fire reportFormAbandonment]; unfold cancelTimer;
    try (destruct (FormMap.has _ _); [right; eexists; reflexivity|now left]);
    try (destruct (FormMap.get _ _) as [data|]; [|now left];
         destruct (_ : bool); [right; eexists; reflexivity|now left]).
  right; eexists; reflexivity.
Qed.

Lemma fire_gone (tr : Trigger) (now : Z) (form : Form) (s : State) :
  FormMap.has (form_node form) (activeForms s) = false -> fire tr now form s = s.
Proof.
  intros H. destruct (fire_cases tr now form s) as [E|[reason E]]; [exact E|].
  rewrite E.
  destruct (checkFormAbandonment_effect now form reason s) as (_ & l & _ & _ & Hs).
  now apply Hs.
Qed.

Lemma fireAll_gone (node : nat) (trs : list (Trigger * Z * Form)) (s : State) :
  Forall (fun x => form_node (snd x) = node) trs ->
  FormMap.has node (activeForms s) = false -> fireAll trs s = s.
Proof.
  intros Hall. revert s. induction Hall as [|[[tr now] f] trs Hx _ IH]; intros s H.
  - reflexivity.
  - cbn in Hx. subst node. unfold fireAll. cbn [fold_left fst snd].
    rewrite fire_gone by exact H. now apply IH.
Qed.

Lemma fireAll_once (node : nat) (trs : list (Trigger * Z * Form)) (s : State) :
  Forall (fun x => form_node (snd x) = node) trs ->
  exists l, sent (fireAll trs s) = (sent s ++ l)%list /\
            (countType "form_abandonment" l <= 1)%nat.
Proof.
  intros Hall. revert s. induction Hall as [|[[tr now] f] trs Hx Hall IH]; intros s.
  - exists []. cbn. rewrite app_nil_r. split; [reflexivity|lia].
  - cbn in Hx. unfold fireAll. cbn [fold_left fst snd]. fold (fireAll trs (fire tr now f s)).
    destruct (fire_cases tr now f s) as [E|[reason E]]; rewrite E.
    + apply IH.
    + destruct (checkFormAbandonment_effect now f reason s) as (Hgone & l & Hl & Hc & _).
      rewrite fireAll_gone with (node := node); [|exact Hall|now rewrite <- Hx].
      exists l. split; assumption.
Qed.

(** C4.  [checkFormAbandonment] adds at most one [form_abandonment] and
    leaves no record for the form.  After it, every abandonment check on that
    form, from any trigger (removal of the form or of a container, a cancel
    click, page exit, navigation, Escape, or [reportFormAbandonment]), at any
    time and whatever the form then holds, returns the very same state: no
    event, no change.  And any run of triggers on one form, from any state,
    adds at most one [form_abandonment]. *)
Theorem abandonment_once_and_final (now : Z) (form : Form) (reason : string) (s : State) :
  let s1 := checkFormAbandonment now (Some form) reason s in
  (countType "form_abandonment" (emitted s s1) <= 1)%nat /\
  FormMap.get (form_node form) (activeForms s1) = None /\
  (forall tr now' form' reason', form_node form' = form_node form ->
     fire tr now' form' s1 = s1 /\
     checkFormAbandonment now' (Some form') reason' s1 = s1 /\
     emitted s1 (fire tr now' form' s1) = []) /\
  (forall trs, Forall (fun x => form_node (snd x) = form_node form) trs ->
     (countType "form_abandonment" (emitted s (fireAll trs s)) <= 1)%nat /\
     fireAll trs s1 = s1).
Proof.
  cbv zeta.
  destruct (checkFormAbandonment_effect now form reason s) as (Hgone & l & Hl & Hc & _).
  split; [now rewrite (emitted_grows _ _ _ Hl)|].
  split; [now apply FormMapFacts.has_get|].
  split.
  - intros tr now' form' reason' Hn.
    assert (Hg : FormMap.has (form_node form') (activeForms
                   (checkFormAbandonment now (Some form) reason s)) = false)
      by now rewrite Hn.
    rewrite (fire_gone tr now' form' _ Hg). split; [reflexivity|].
    split; [|apply emitted_refl].
    destruct (checkFormAbandonment_effect now' form' reason'
                (checkFormAbandonment now (Some form) reason s)) as (_ & l' & _ & _ & Hs).
    now apply Hs.
  - intros trs Hall. split.
    + destruct (fireAll_once (form_node form) trs s Hall) as (l' & Hl' & Hc').
      now rewrite (emitted_grows _ _ _ Hl').
    + now apply fireAll_gone with (node := form_node form).
Qed.

(** C5, as stated, fails.  The form comes with [country] filled in and
    [email] empty.  The user focuses [email], which creates the record, types
    nothing and leaves the page.  No field is both interacted with and
    non-empty, when the record is created or later, and [form_abandonment]
    is sent all the same: the count of filled fields runs over all the
    fields of the form, read when the check is made. *)
Lemma abandonment_without_filled_interacted_field :
  let s1 := final_state (trackFormFieldInteraction 0 (fieldOf formPrefilled 0)
                           (Some formPrefilled) initialState) in
  let s2 := checkFormAbandonment 5000 (Some formPrefilled) "page_exit" s1 in
  option_map fieldsInteracted (FormMap.get 9 (activeForms s1)) = Some ["email"] /\
  filter (fun f => (mem (fieldName f) ["email"] && truthy (f_value f))%bool)
         (form_inputs formPrefilled) = [] /\
  typesOf (emitted s1 s2) = ["form_abandonment"] /\
  FormMap.get 9 (activeForms s2) = None /\
  trackFormFieldInteraction 0 (fieldOf formPrefilled 0) (Some formPrefilled) initialState
    = Returned tt s1.
Proof. vm_compute. repeat split. Qed.

Lemma is_filled_spec (f : Field) :
  is_filled f = true <-> trim (f_value f) <> "".
Proof.
  unfold is_filled. rewrite andb_true_iff, negb_true_iff.
  destruct (String.eqb_spec (trim (f_value f)) "") as [E|E].
  - split; [intros [_ H]; discriminate|congruence].
  - split; [auto|]. intros _. split; [|reflexivity].
    destruct (f_value f); [now elim E|reflexivity].
Qed.

Lemma filledFields_pos (form : Form) :
(filledFields form >? 0) = true <->
  exists f, In f (form_inputs form) /\ trim (f_value f) <> "".
Proof.
  unfold filledFields. rewrite Z.gtb_lt. split.
  - destruct (filter is_filled (form_inputs form)) as [|f r] eqn:E.
    + cbn. lia.
    + intros _. exists f.
      assert (Hf : In f (filter is_filled (form_inputs form))) by (rewrite E; now left).
      apply filter_In in Hf. destruct Hf as [Hin Hfl]. split; [exact Hin|].
      now apply is_filled_spec.
  - intros (f & Hin & Hv).
    assert (Hf : In f (filter is_filled (form_inputs form))).
    { apply filter_In. split; [exact Hin|]. now apply is_filled_spec. }
    destruct (filter is_filled (form_inputs form)); [destruct Hf|].
    rewrite len_cons. pose proof (len_nonneg l). lia.
Qed.

(** C5, amended.  A check on a live, unsubmitted record removes the record
    and sends [form_abandonment] exactly when some field was interacted with
    and some field of the form, not necessarily that one, holds a value that
    is not blank when the check is made; otherwise it sends nothing. *)
Theorem abandonment_needs_engagement
  (now : Z) (form : Form) (reason : string) (s : State) (formData : FormData) :
  FormMap.get (form_node form) (activeForms s) = Some formData ->
  submitted formData = false ->
  let s1 := checkFormAbandonment now (Some form) reason s in
  let engagement := fieldsInteracted formData <> [] /\
                    exists f, In f (form_inputs form) /\ trim (f_value f) <> "" in
  FormMap.get (form_node form) (activeForms s1) = None /\
  (engagement ->
   emitted s s1 = [mkEnvelope "form_abandonment" (abandonmentData now form reason formData)
                     (interactionCount s + 1)]) /\
  (~ engagement -> emitted s s1 = []).
Proof.
  intros G Hsub. cbv zeta. rewrite checkFormAbandonment_cases, G, Hsub. cbn [negb andb].
  assert (He : engaged formData form = true <->
               fieldsInteracted formData <> [] /\
               exists f, In f (form_inputs form) /\ trim (f_value f) <> "").
  { unfold engaged. rewrite andb_true_iff, filledFields_pos, Z.gtb_lt.
    destruct (fieldsInteracted formData) as [|x l].
    - cbn. split; [lia|]. intros [Hnil _]. now elim Hnil.
    - rewrite len_cons. pose proof (len_nonneg l) as Hl.
      split; intros [_ Hf]; (split; [|exact Hf]); [discriminate|lia]. }
  destruct (engaged formData form); cbv zeta;
    cbn [activeForms set_activeForms sendEvent];
    (split; [apply FormMapFacts.get_delete_same|]); split; intros H.
  - apply emitted_grows. reflexivity.
  - elim H. now apply He.
  - apply He in H. discriminate.
  - apply emitted_grows. cbn. now rewrite app_nil_r.
Qed.

(** C5 on a record made by a focus on field [a]: the form is removed once
    with [a] filled in, once with every field empty. *)
Lemma abandonment_needs_engagement_witness :
  let s := final_state (trackFormFieldInteraction 0 (fieldOf (formAB "") 0)
                          (Some (formAB "")) initialState) in
  typesOf (emitted s (checkFormAbandonment 4000 (Some (formAB "ann")) "form_removed" s))
    = ["form_abandonment"] /\
  emitted s (checkFormAbandonment 4000 (Some (formAB "")) "form_removed" s) = [].
Proof.
  cbv zeta.
  set (s := final_state (trackFormFieldInteraction 0 (fieldOf (formAB "") 0)
                           (Some (formAB "")) initialState)).
  set (d := mkFormData 0 ["a"] (Some (mkLastField "a" (JStr "a") "text")) false).
  split.
  - destruct (abandonment_needs_engagement 4000 (formAB "ann") "form_removed" s d
                eq_refl eq_refl) as (_ & H & _).
    rewrite H; [reflexivity|]. split; [discriminate|].
    exists (fieldOf (formAB "ann") 0). split; [now left|]. vm_compute. discriminate.
  - destruct (abandonment_needs_engagement 4000 (formAB "") "form_removed" s d
                eq_refl eq_refl) as (_ & _ & H).
    apply H. intros [_ (f & Hin & Hv)]. apply Hv.
    vm_compute in Hin. destruct Hin as [<-|[<-|[<-|[]]]]; reflexivity.
Defined.

(** ** The mouse buffer *)

Lemma sorted_filter (p : MouseSample -> bool) (l : list MouseSample) :
  StronglySorted apart l -> StronglySorted apart (filter p l).
Proof.
  induction 1 as [|a l Hs IH Ha]; cbn; [constructor|].
  destruct (p a); [|exact IH]. constructor; [exact IH|].
  apply Forall_forall. intros b Hb. apply filter_In in Hb.
  rewrite Forall_forall in Ha. now apply Ha.
Qed.

Lemma sorted_snoc (l : list MouseSample) (x : MouseSample) :
  StronglySorted apart l -> (forall a, In a l -> apart a x) ->
  StronglySorted apart (l ++ [x]).
Proof.
  induction 1 as [|a l Hs IH Ha]; intros Hx; cbn.
  - constructor; constructor.
  - constructor.
    + apply IH. intros b Hb. apply Hx. now right.
    + apply Forall_app. split; [exact Ha|]. constructor; [|constructor].
      apply Hx. now left.
Qed.

Lemma last_sample_In (l : list MouseSample) (m : MouseSample) :
  last_sample l = Some m -> In m l.
Proof.
  induction l as [|a [|b r] IH]; cbn; intros H; [discriminate| |].
  - injection H as <-. now left.
  - right. now apply IH.
Qed.

Lemma last_sample_latest (l : list MouseSample) (m : MouseSample) :
  StronglySorted apart l -> last_sample l = Some m ->
  forall a, In a l -> m_time a <= m_time m.
Proof.
  induction 1 as [|a l Hs IH Ha]; intros Hl b Hb; [destruct Hb|].
  destruct l as [|c r].
  - cbn in Hl. injection Hl as <-. destruct Hb as [<-|[]]. lia.
  - assert (Hl' : last_sample (c :: r) = Some m) by exact Hl.
    destruct Hb as [<-|Hb]; [|now apply IH].
    rewrite Forall_forall in Ha.
    pose proof (Ha m (last_sample_In _ _ Hl')) as Hm. unfold apart in Hm. lia.
Qed.

Lemma sorted_spaced (l : list MouseSample) : StronglySorted apart l -> spaced l.
Proof.
  induction 1 as [|a l Hs IH Ha]; cbn; [exact I|]. split; [|exact IH].
  destruct l as [|b r]; [exact I|]. now inversion Ha.
Qed.

Lemma detectMouseThrashing_buffer (now : Z) (s : State) :
  let buf' := mouseMovements (fst (detectMouseThrashing now s)) in
  buf' = filter (fun m => now - m_time m <? 1000) (mouseMovements s) \/ buf' = [].
Proof.
  cbv zeta. unfold detectMouseThrashing.
  destruct (len _ <? 10); [now left|].
  destruct (thrash_measure _) as [totalDistance changes].
  destruct (_ && _)%bool; [now right|now left].
Qed.

Lemma throttled_spec (now : Z) (buf : list MouseSample) :
  throttled now buf = false ->
  forall l, last_sample buf = Some l -> 50 <= now - m_time l.
Proof.
  unfold throttled. intros H l Hl. rewrite Hl in H. apply Z.ltb_ge in H. exact H.
Qed.

(** One [mousemove]: the invariant is kept; what is left in the buffer is
    less than 1050ms old, and less than 1000ms old when the event was
    taken in. *)
Lemma trackMouseMove_ok (ev : MouseEvent) (s : State) :
  buffer_ok (mouseMovements s) -> clock_ok ev ->
  let buf' := mouseMovements (trackMouseMove ev s) in
  buffer_ok buf' /\
  (forall m, In m buf' -> mv_now ev - m_time m < 1050) /\
  (throttled (mv_now ev) (mouseMovements s) = false ->
   forall m, In m buf' -> mv_now' ev - m_time m < 1000).
Proof.
  intros [Hsorted Hwin] Hclock. unfold clock_ok in Hclock. cbv zeta.
  unfold trackMouseMove.
  destruct (throttled (mv_now ev) (mouseMovements s)) eqn:Hth.
  - split; [now split|]. split; [|discriminate].
    intros m Hm. unfold throttled in Hth.
    destruct (last_sample (mouseMovements s)) as [l|] eqn:Hl; [|discriminate].
    apply Z.ltb_lt in Hth. pose proof (Hwin l m eq_refl Hm). lia.
  - cbn [mouseMovements set_lastMousePosition].
    set (x := mkMove (mv_now ev) (mv_x ev) (mv_y ev)).
    set (pushed := (mouseMovements s ++ [x])%list).
    assert (Hpushed : StronglySorted apart pushed).
    { apply sorted_snoc; [exact Hsorted|]. intros a Ha. unfold apart. cbn.
      destruct (last_sample (mouseMovements s)) as [l|] eqn:Hl.
      - pose proof (throttled_spec _ _ Hth l Hl).
        pose proof (last_sample_latest _ _ Hsorted Hl a Ha). lia.
      - destruct (mouseMovements s) as [|b r]; [destruct Ha|].
        exfalso. clear -Hl. revert b Hl.
        induction r as [|c r IH]; intros b Hl; [discriminate|]. now apply (IH c). }
    assert (Hlatest : forall a, In a pushed -> m_time a <= mv_now ev).
    { intros a Ha. apply in_app_or in Ha. destruct Ha as [Ha|[<-|[]]]; [|cbn; lia].
      destruct (last_sample (mouseMovements s)) as [l|] eqn:Hl.
      - pose proof (throttled_spec _ _ Hth l Hl).
        pose proof (last_sample_latest _ _ Hsorted Hl a Ha). lia.
      - destruct (mouseMovements s) as [|b r]; [destruct Ha|].
        exfalso. clear -Hl. revert b Hl.
        induction r as [|c r IH]; intros b Hl; [discriminate|]. now apply (IH c). }
    set (s1 := set_mouseMovements _ s).
    destruct (detectMouseThrashing_buffer (mv_now' ev) s1) as [E|E];
      cbv zeta in E; rewrite E; clear E.
    + cbn [mouseMovements s1 set_mouseMovements].
      set (kept := filter _ (filter _ pushed)).
      assert (Hkept : forall m, In m kept ->
                        In m pushed /\ mv_now' ev - m_time m < 1000).
      { intros m Hm. unfold kept in Hm. apply filter_In in Hm. destruct Hm as [Hm Hlt].
        apply filter_In in Hm. destruct Hm as [Hm _]. apply Z.ltb_lt in Hlt. now split. }
      split; [split|split].
      * unfold kept. now do 2 apply sorted_filter.
      * intros l m Hl Hm. apply last_sample_In in Hl.
        destruct (Hkept l Hl) as [Hlp _]. destruct (Hkept m Hm) as [_ Hmw].
        pose proof (Hlatest l Hlp). lia.
      * intros m Hm. destruct (Hkept m Hm). lia.
      * intros _ m Hm. now destruct (Hkept m Hm).
    + split; [split; [constructor|intros l m Hl; discriminate]|].
      split; [intros m []|intros _ m []].
Qed.

Lemma buffer_ok_reachable (evs : list MouseEvent) (s : State) :
  buffer_ok (mouseMovements s) -> Forall clock_ok evs ->
  buffer_ok (mouseMovements (trackMouseMoves evs s)).
Proof.
  intros Hs Hall. revert s Hs.
  induction Hall as [|ev evs Hev _ IH]; intros s Hs; [exact Hs|].
  unfold trackMouseMoves. cbn [fold_left]. apply IH.
  now apply trackMouseMove_ok.
Qed.

(** C6, as stated, fails.  A sample taken at time 0 is 1500ms old when the
    next [mousemove] arrives, inside the 2000ms window, and it is evicted:
    [detectMouseThrashing] cuts the shared buffer down to its own 1000ms. *)
Lemma sample_evicted_before_2000ms :
  let s1 := trackMouseMove (mkMouseEvent 0 0 10 10) initialState in
  let s2 := trackMouseMove (mkMouseEvent 1500 1500 20 20) s1 in
  mouseMovements s1 = [mkMove 0 10 10] /\
  (1500 - m_time (mkMove 0 10 10) <? 2000) = true /\
  mouseMovements s2 = [mkMove 1500 20 20].
Proof. vm_compute. repeat split. Qed.

(** C6, amended.  After any sequence of [mousemove] events from the start
    of the page, however fast they come, and one more: every sample left in
    the buffer is less than 1050ms old by that event's clock, so inside the
    2000ms window; if the event was taken in (not throttled), every sample
    left is strictly less than 1000ms old by the detector's clock, samples
    being evicted from 1000ms on (and all of them when [mouse_thrash] is
    sent); and any two consecutive samples are at least 50ms apart.  The clock is taken not to run backwards between the
    two readings of one handler run. *)
Theorem mouse_buffer_bounds (evs : list MouseEvent) (ev : MouseEvent) :
  Forall clock_ok evs -> clock_ok ev ->
  let s := trackMouseMoves evs initialState in
  let buf' := mouseMovements (trackMouseMove ev s) in
  (forall m, In m buf' -> mv_now ev - m_time m < 1050) /\
  (throttled (mv_now ev) (mouseMovements s) = false ->
   forall m, In m buf' -> mv_now' ev - m_time m < 1000) /\
  spaced buf'.
Proof.
  intros Hall Hev. cbv zeta.
  assert (H0 : buffer_ok (mouseMovements initialState)).
  { split; [constructor|intros l m Hl; discriminate]. }
  pose proof (buffer_ok_reachable evs initialState H0 Hall) as Hs.
  destruct (trackMouseMove_ok ev _ Hs Hev) as ([Hsorted _] & Hold & Hnew).
  split; [exact Hold|]. split; [exact Hnew|]. now apply sorted_spaced.
Qed.

(** C6 on a burst of events 10ms apart followed by a pause. *)
Lemma mouse_buffer_bounds_witness :
  let buf' := mouseMovements
                (trackMouseMove (mkMouseEvent 1100 1101 40 40)
                   (trackMouseMoves burst initialState)) in
  buf' = [mkMove 1040 30 30; mkMove 1100 40 40] /\
  (forall m, In m buf' -> 1100 - m_time m < 1050) /\
  spaced buf'.
Proof.
  cbv zeta. split; [vm_compute; reflexivity|].
  assert (Hb : Forall clock_ok burst).
  { unfold burst. repeat constructor; unfold clock_ok; cbn; lia. }
  assert (He : clock_ok (mkMouseEvent 1100 1101 40 40)) by (unfold clock_ok; cbn; lia).
  destruct (mouse_buffer_bounds burst (mkMouseEvent 1100 1101 40 40) Hb He) as (H1 & _ & H3).
  split; [exact H1|exact H3].
Defined.

(** ** Mouse thrashing *)

Lemma detectMouseThrashing_spec (now : Z) (s : State) :
  let buf := filter (fun m => now - m_time m <? 1000) (mouseMovements s) in
  let out := detectMouseThrashing now s in
  (snd out = true <-> thrashing buf) /\
  (snd out = true ->
   typesOf (emitted s (fst out)) = ["mouse_thrash"] /\ mouseMovements (fst out) = []) /\
  (snd out = false -> emitted s (fst out) = []).
Proof.
  cbv zeta. unfold detectMouseThrashing, thrashing.
  set (buf := filter _ (mouseMovements s)).
  destruct (len buf <? 10) eqn:E10.
  - apply Z.ltb_lt in E10. cbn [fst snd]. split; [|split].
    + split; [discriminate|]. intros [H _]. lia.
    + discriminate.
    + intros _. apply emitted_grows. cbn. now rewrite app_nil_r.
  - apply Z.ltb_ge in E10.
    destruct (thrash_measure buf) as [totalDistance changes]. cbn [fst snd].
    destruct (PrimFloat.ltb (of_Z 500) totalDistance) eqn:Ed; cbn [andb].
    + destruct (4 <=? changes) eqn:Ec; cbn [fst snd].
      * apply Z.leb_le in Ec. split; [|split].
        -- split; auto.
        -- intros _. split; [|reflexivity].
           erewrite emitted_grows by (cbn; reflexivity). reflexivity.
        -- discriminate.
      * apply Z.leb_gt in Ec. split; [|split].
        -- split; [discriminate|]. intros (_ & _ & H). lia.
        -- discriminate.
        -- intros _. apply emitted_grows. cbn. now rewrite app_nil_r.
    + cbn [fst snd]. split; [|split].
      * split; [discriminate|]. intros (_ & H & _). discriminate.
      * discriminate.
      * intros _. apply emitted_grows. cbn. now rewrite app_nil_r.
Qed.

(** The loop of the code measures the path: its total is the accumulated
    distance and its count the number of label changes. *)
Lemma segments_cons (a b : MouseSample) (rest : list MouseSample) :
  segments (a :: b :: rest) = (a, b) :: segments (b :: rest).
Proof. reflexivity. Qed.

Lemma thrash_loop_spec (rest : list MouseSample) :
  forall (prev : MouseSample) (total : float) (changes : Z) (before : Z * Z),
  thrash_loop prev rest total changes (Some (direction (fst before) (snd before))) =
    (fold_left (fun t seg => PrimFloat.add t (segment (fst seg) (snd seg)))
       (segments (prev :: rest)) total,
     changes + labelChanges (before :: deltas (prev :: rest))).
Proof.
  induction rest as [|curr rest IH]; intros prev total changes before.
  - cbn. f_equal. lia.
  - cbn [thrash_loop]. 
    rewrite (IH curr _ _ (m_x curr - m_x prev, m_y curr - m_y prev)).
    unfold deltas. rewrite segments_cons. cbn [map fold_left fst snd labelChanges].
    f_equal. destruct (String.eqb _ _); lia.
Qed.

Lemma thrash_measure_spec (buf : list MouseSample) :
  thrash_measure buf = (pathLength buf, labelChanges (deltas buf)).
Proof.
  unfold thrash_measure, pathLength.
  destruct buf as [|first [|curr rest]]; [reflexivity|reflexivity|].
  cbn [thrash_loop].
  rewrite (thrash_loop_spec rest curr _ _ (m_x curr - m_x first, m_y curr - m_y first)).
  unfold deltas. rewrite segments_cons. cbn [map fold_left fst snd].
  reflexivity.
Qed.

(** A turn back on an axis changes the label. *)
Lemma turnsBack_label (a b : Z * Z) :
  (turnsBack (fst a) (fst b) || turnsBack (snd a) (snd b))%bool = true ->
  String.eqb (direction (fst b) (snd b)) (direction (fst a) (snd a)) = false.
Proof.
  unfold turnsBack, direction. intros T.
  destruct (Z.gtb_spec (fst a) 0) as [A1|A1], (Z.gtb_spec (fst b) 0) as [A2|A2],
    (Z.gtb_spec (snd a) 0) as [A3|A3], (Z.gtb_spec (snd b) 0) as [A4|A4];
    try reflexivity;
    exfalso; apply orb_prop in T; destruct T as [T|T];
    apply orb_prop in T; destruct T as [T|T];
    apply andb_prop in T; destruct T as [T1 T2];
    apply Z.ltb_lt in T1; apply Z.ltb_lt in T2; lia.
Qed.

Lemma reversals_le_labelChanges (ds : list (Z * Z)) :
  0 <= reversals ds <= labelChanges ds.
Proof.
  induction ds as [|a [|b rest] IH]; cbn [reversals labelChanges]; [lia|lia|].
  cbn [reversals labelChanges] in IH.
  destruct (turnsBack (fst a) (fst b) || turnsBack (snd a) (snd b))%bool eqn:E.
  - rewrite (turnsBack_label a b E). lia.
  - destruct (String.eqb _ _); lia.
Qed.

Lemma sign_bits (x : Z) :
  x <> 0 -> (0 <? x) = (x >? 0) /\ (x <? 0) = negb (x >? 0).
Proof.
  intros H. destruct (Z.gtb_spec x 0) as [G|G], (Z.ltb_spec 0 x) as [L|L],
    (Z.ltb_spec x 0) as [M|M]; cbn; split; try reflexivity; lia.
Qed.

(** Where no delta is zero, the label changes are the turns back. *)
Lemma labelChanges_reversals (ds : list (Z * Z)) :
  Forall (fun d => fst d <> 0 /\ snd d <> 0) ds -> labelChanges ds = reversals ds.
Proof.
  induction ds as [|a [|b rest] IH]; intros H; cbn [reversals labelChanges];
    [reflexivity|reflexivity|].
  inversion H as [|? ? [Ha1 Ha2] H']; subst.
  pose proof H' as H''. inversion H'' as [|? ? [Hb1 Hb2] _]; subst.
  cbn [reversals labelChanges] in IH. rewrite (IH H'). f_equal.
  unfold turnsBack, direction.
  destruct (sign_bits _ Ha1) as [-> ->]. destruct (sign_bits _ Ha2) as [-> ->].
  destruct (sign_bits _ Hb1) as [-> ->]. destruct (sign_bits _ Hb2) as [-> ->].
  destruct (fst a >? 0), (snd a >? 0), (fst b >? 0), (snd b >? 0); reflexivity.
Qed.

(** [detectMouseThrashing] reports a thrash exactly when the samples of the
    last 1000ms are ten or more, the accumulated distance of their path
    exceeds 500px and the label changes along it are four or more; it then
    sends one [mouse_thrash] and empties the buffer, and otherwise sends
    nothing.  Every turn back on an axis is a label change; a label change
    need not be a turn back.  A [mousemove] sends a [mouse_thrash] only if
    it was not throttled and the buffer it leaves for measuring meets the
    three conditions; where no delta of that buffer is zero, the pointer
    then turned back four times or more. *)
Lemma mouse_thrash_conditions (now : Z) (ev : MouseEvent) (s : State) :
  let buf := filter (fun m => now - m_time m <? 1000) (mouseMovements s) in
  let out := detectMouseThrashing now s in
  let due b := 10 <= len b /\ PrimFloat.ltb (of_Z 500) (pathLength b) = true /\
               4 <= labelChanges (deltas b) in
  (snd out = true <-> due buf) /\
  (snd out = true ->
   typesOf (emitted s (fst out)) = ["mouse_thrash"] /\ mouseMovements (fst out) = []) /\
  (snd out = false -> emitted s (fst out) = []) /\
  (In "mouse_thrash" (typesOf (emitted s (trackMouseMove ev s))) ->
   throttled (mv_now ev) (mouseMovements s) = false /\ due (measured ev s)) /\
  (~ due (measured ev s) -> emitted s (trackMouseMove ev s) = []) /\
  reversals (deltas buf) <= labelChanges (deltas buf) /\
  (In "mouse_thrash" (typesOf (emitted s (trackMouseMove ev s))) ->
   Forall (fun d => fst d <> 0 /\ snd d <> 0) (deltas (measured ev s)) ->
   4 <= reversals (deltas (measured ev s))).
Proof.
  cbv zeta.
  assert (Hdue : forall b, thrashing b <->
            10 <= len b /\ PrimFloat.ltb (of_Z 500) (pathLength b) = true /\
            4 <= labelChanges (deltas b)).
  { intros b. unfold thrashing. rewrite thrash_measure_spec. reflexivity. }
  destruct (detectMouseThrashing_spec now s) as (Hiff & Hyes & Hno). cbv zeta in *.
  split; [now rewrite <- Hdue|]. split; [exact Hyes|]. split; [exact Hno|].
  assert (Hmove : emitted s (trackMouseMove ev s) = [] \/
                  (throttled (mv_now ev) (mouseMovements s) = false /\
                   thrashing (measured ev s))).
  { unfold trackMouseMove.
    destruct (throttled (mv_now ev) (mouseMovements s)); [left; apply emitted_refl|].
    set (s1 := set_mouseMovements _ s).
    destruct (detectMouseThrashing_spec (mv_now' ev) s1) as (Hiff1 & _ & Hno1).
    cbv zeta in *.
    destruct (snd (detectMouseThrashing (mv_now' ev) s1)).
    - right. split; [reflexivity|]. now apply Hiff1.
    - left. specialize (Hno1 eq_refl). unfold emitted in *. exact Hno1. }
  split; [|split; [|split]].
  - intros Hin. destruct Hmove as [E|[H1 H2]]; [rewrite E in Hin; destruct Hin|].
    split; [exact H1|]. now apply Hdue.
  - intros Hn. destruct Hmove as [E|[_ H]]; [exact E|]. elim Hn. now apply Hdue.
  - apply reversals_le_labelChanges.
  - intros Hin Hnz. destruct Hmove as [E|[_ H]]; [rewrite E in Hin; destruct Hin|].
    apply Hdue in H. rewrite <- (labelChanges_reversals _ Hnz). tauto.
Qed.

Example zigzag_thrashes :
  typesOf (sent (trackMouseMoves zigzag initialState)) = ["mouse_thrash"] /\
  mouseMovements (trackMouseMoves zigzag initialState) = [].
Proof. vm_compute. split; reflexivity. Qed.

(** C7: the code departs from the claim where a delta is zero.  The
    pointer slides to the right, 100px every 100ms, and one pixel down at
    every other step: every x delta is positive and no y delta is negative,
    so the pointer never turns back on either axis and the count of
    reversals is 0.  The tenth sample sends [mouse_thrash] all the same,
    with [directionChanges] 8: the two-way tests [dx > 0] and [dy > 0] have
    no case for zero, so a y delta of zero reads as up and the next one as
    down. *)
Theorem mouse_thrash_without_reversal :
  let path := map (fun ev => mkMove (mv_now ev) (mv_x ev) (mv_y ev)) slide in
  let s := trackMouseMoves slide initialState in
  Forall (fun d => 0 < fst d /\ 0 <= snd d) (deltas path) /\
  reversals (deltas path) = 0 /\
  labelChanges (deltas path) = 8 /\
  typesOf (sent (trackMouseMoves (firstn 9 slide) initialState)) = [] /\
  mouseMovements (trackMouseMoves (firstn 9 slide) initialState) = firstn 9 path /\
  typesOf (sent s) = ["mouse_thrash"] /\
  map (fun e => obj_get "directionChanges" (eventData e)) (sent s) = [Some (JNum 8)].
Proof.
  cbv zeta. split; [|vm_compute; repeat split].
  vm_compute. repeat constructor; discriminate.
Qed.

(** ** The session id *)

Ltac by_window :=
  match goal with
  | |- context [?a <? ?b] =>
      let E := fresh "E" in
      destruct (a <? b) eqn:E; [apply Z.ltb_lt in E|apply Z.ltb_ge in E]
  end.

Ltac reload_case t :=
  exists t; split; [reflexivity|]; intros t0' t1' fresh'; cbn;
  by_window; cbn; split; intros; (reflexivity || lia).

(** C8.  When the storage holds a session record and the clock, at its
    first reading, is strictly less than 30 minutes past the record's last
    activity, [getOrCreateSessionId] returns the stored id and writes the
    record back with the last activity refreshed; in every other state of
    the storage it returns a newly minted id and stores it with the current
    time.  So on a reload the id of the previous load comes back when less
    than 30 minutes have passed since the activity recorded then, and a new
    id replaces it after 30 minutes or more. *)
Theorem session_id_kept_for_30_minutes (t0 t1 : Z) (fresh : string) (st : Session.Storage) :
  let out := Session.getOrCreateSessionId t0 t1 fresh st in
  (forall id last, Session.record_of st = Some (id, last) ->
     t0 - last < 30 * 60 * 1000 ->
     out = (id, Some (Session.SessionJson id (Some t1)))) /\
  ((forall id last, Session.record_of st = Some (id, last) -> 30 * 60 * 1000 <= t0 - last) ->
     fst out = fresh /\
     exists t, Session.record_of (snd out) = Some (fresh, t) /\ (t = t0 \/ t = t1)) /\
  (exists last, Session.record_of (snd out) = Some (fst out, last) /\
     forall t0' t1' fresh',
       let reload := Session.getOrCreateSessionId t0' t1' fresh' (snd out) in
       (t0' - last < 30 * 60 * 1000 -> fst reload = fst out) /\
       (30 * 60 * 1000 <= t0' - last -> fst reload = fresh')).
Proof.
  cbv zeta. unfold Session.getOrCreateSessionId, Session.record_of, Session.thirtyMinutes.
  destruct st as [[| |id [last|]]|].
  - split; [discriminate|]. split; [|reload_case t0].
    intros _. split; [reflexivity|]. exists t0. split; [reflexivity|now left].
  - split; [discriminate|]. split; [|reload_case t1].
    intros _. split; [reflexivity|]. exists t1. split; [reflexivity|now right].
  - by_window.
    + split; [intros id' last' H _; now injection H as <- <-|].
      split; [|reload_case t1].
      intros H. specialize (H id last eq_refl). lia.
    + split; [intros id' last' H Hlt; injection H as <- <-; lia|].
      split; [|reload_case t1].
      intros _. split; [reflexivity|]. exists t1. split; [reflexivity|now right].
  - split; [discriminate|]. split; [|reload_case t1].
    intros _. split; [reflexivity|]. exists t1. split; [reflexivity|now right].
  - split; [discriminate|]. split; [|reload_case t0].
    intros _. split; [reflexivity|]. exists t0. split; [reflexivity|now left].
Qed.

(** A visit at noon, a reload 29 minutes later, another one 31 minutes
    after that. *)
Example reload_within_and_after_30_minutes :
  let first := Session.getOrCreateSessionId 0 0 "id-1" None in
  let second := Session.getOrCreateSessionId 1740000 1740001 "id-2" (snd first) in
  let third := Session.getOrCreateSessionId 3600001 3600002 "id-3" (snd second) in
  (fst first, fst second, fst third) = ("id-1", "id-1", "id-3").
Proof. vm_compute. reflexivity. Qed.

(** ** Scroll milestones *)

Lemma sentMilestones_sendEvent (m max : Z) (s : State) :
  sentMilestones
    (sendEvent "scroll_milestone" [("depth", JNum m); ("maxDepth", JNum max)]
       (set_lastScrollDepthSent m s))
  = (sentMilestones s ++ [m])%list.
Proof.
  unfold sentMilestones, ofType. cbn [sent sendEvent set_lastScrollDepthSent].
  rewrite filter_app, map_app. reflexivity.
Qed.

Lemma trackScroll_max (depth : Z) (s : State) :
  maxScrollDepth (if depth >? maxScrollDepth s then set_maxScrollDepth depth s else s)
  = Z.max depth (maxScrollDepth s).
Proof.
  destruct (depth >? maxScrollDepth s) eqn:E; cbn [maxScrollDepth set_maxScrollDepth].
  - apply Z.gtb_lt in E. lia.
  - rewrite Z.gtb_ltb in E. apply Z.ltb_ge in E. lia.
Qed.

(** One scroll event: it sends the next milestone if the high-water mark
    has reached it, and nothing otherwise. *)
Lemma trackScroll_step (k : nat) (depth : Z) (s : State) :
  sentUpTo k s ->
  let s' := trackScroll depth s in
  maxScrollDepth s' = Z.max depth (maxScrollDepth s) /\
  if sendsNext k depth s
  then sentUpTo (S k) s' /\
       exists e, emitted s s' = [e] /\ eventType e = "scroll_milestone" /\
                 depthOf e = nth k milestones 0
  else sentUpTo k s' /\ emitted s s' = [].
Proof.
  intros (Hk & Hsent & Hlast & Hmax). cbv zeta. unfold trackScroll, sendsNext.
  pose proof (trackScroll_max depth s) as HM.
  set (s1 := if depth >? maxScrollDepth s then set_maxScrollDepth depth s else s) in *.
  assert (Hl1 : lastScrollDepthSent s1 = lastScrollDepthSent s)
    by (unfold s1; destruct (depth >? maxScrollDepth s); reflexivity).
  assert (Hs1 : sent s1 = sent s)
    by (unfold s1; destruct (depth >? maxScrollDepth s); reflexivity).
  assert (Hm1 : sentMilestones s1 = sentMilestones s)
    by (unfold sentMilestones; now rewrite Hs1).
  set (M := Z.max depth (maxScrollDepth s)) in *.
  assert (HlM : lastScrollDepthSent s <= M) by (unfold M; lia).
  unfold milestones in *. unfold milestone_loop. rewrite Hl1, HM.
  destruct k as [|[|[|[|[|[|k]]]]]]; [| | | | | |lia];
    cbn [nth Nat.ltb Nat.leb andb] in *; rewrite Hlast in *;
    cbn [Z.ltb Z.compare Pos.compare Pos.compare_cont];
    rewrite ?andb_false_r, ?andb_true_r;
    repeat match goal with
      | |- context [?a <=? M] =>
          let E := fresh "E" in
          destruct (a <=? M) eqn:E; [apply Z.leb_le in E|apply Z.leb_gt in E]; try lia
      end.
  all: cbn [maxScrollDepth sendEvent set_lastScrollDepthSent lastScrollDepthSent].
  all: rewrite ?HM; (split; [reflexivity|]).
  all: first
    [ split;
      [ unfold sentUpTo, milestones; rewrite sentMilestones_sendEvent, Hm1, Hsent;
        cbn [maxScrollDepth sendEvent set_lastScrollDepthSent lastScrollDepthSent
             firstn app nth];
        rewrite ?HM; repeat split; (lia || reflexivity)
      | eexists; split; [apply emitted_grows; cbn; rewrite Hs1; reflexivity|];
        split; reflexivity ]
    | split;
      [ unfold sentUpTo, milestones; rewrite Hm1, Hl1, Hsent, HM;
        cbn [firstn nth]; repeat split; (lia || reflexivity)
      | apply emitted_grows; rewrite Hs1; now rewrite app_nil_r ] ].
Qed.



Lemma trackScrolls_sentUpTo (depths : list Z) (k : nat) (s : State) :
  sentUpTo k s ->
  exists k', (k <= k')%nat /\ (k' <= k + List.length depths)%nat /\
             sentUpTo k' (trackScrolls depths s).
Proof.
  revert k s. induction depths as [|depth depths IH]; intros k s Hs.
  - exists k. cbn. split; [lia|split; [lia|exact Hs]].
  - unfold trackScrolls. cbn [fold_left]. fold (trackScrolls depths (trackScroll depth s)).
    destruct (trackScroll_step k depth s Hs) as [_ Hstep]. cbv zeta in Hstep.
    destruct (sendsNext k depth s).
    + destruct Hstep as [Hs' _]. destruct (IH _ _ Hs') as (k' & H1 & H2 & H3).
      exists k'. cbn [List.length]. split; [lia|split; [lia|exact H3]].
    + destruct Hstep as [Hs' _]. destruct (IH _ _ Hs') as (k' & H1 & H2 & H3).
      exists k'. cbn [List.length]. split; [lia|split; [lia|exact H3]].
Qed.

Lemma sentUpTo_reached (k : nat) (s : State) :
  sentUpTo k s -> forall m, In m (sentMilestones s) -> m <= maxScrollDepth s.
Proof.
  intros (Hk & Hsent & Hlast & Hmax) m Hm. rewrite Hsent in Hm.
  rewrite Hlast in Hmax. unfold milestones in *.
  destruct k as [|[|[|[|[|[|k]]]]]]; [| | | | | |lia];
    cbn [firstn nth] in *;
    repeat (destruct Hm as [<-|Hm]; [lia|]); destruct Hm.
Qed.

(** C9, as stated, fails.  One scroll event takes the page from the top to
    60%.  The high-water mark reaches 25 and 50 on that event, and only 25 is
    sent; 50 is sent on the next scroll event, whatever its depth, and never
    if none follows. *)
Lemma milestone_50_not_sent_when_reached :
  maxScrollDepth (trackScroll 60 initialState) = 60 /\
  sentMilestones (trackScroll 60 initialState) = [25] /\
  sentMilestones (trackScroll 12 (trackScroll 60 initialState)) = [25; 50].
Proof. vm_compute. repeat split. Qed.

(** C9, amended.  After any sequence of scroll events on a page, the
    milestones sent are the first [k] of 25, 50, 75, 90, 100, each once, in
    increasing order, none skipped, with [k] at most the number of scroll
    events, and the high-water mark has reached every one of them.  The
    next scroll event sends exactly one milestone, the next in the list, if
    there is one left and the high-water mark (the new depth included) has
    reached it; otherwise it sends nothing.  A milestone is thus sent on
    the event on which the mark first reaches it only when all the smaller
    ones were sent before. *)
Theorem scroll_milestones_one_per_event (depths : list Z) :
  let s := trackScrolls depths initialState in
  exists k, (k <= 5)%nat /\ (k <= List.length depths)%nat /\
    sentMilestones s = firstn k milestones /\
    (forall m, In m (sentMilestones s) -> m <= maxScrollDepth s) /\
    forall depth,
      let s' := trackScroll depth s in
      (sendsNext k depth s = true ->
       sentMilestones s' = firstn (S k) milestones /\
       exists e, emitted s s' = [e] /\ eventType e = "scroll_milestone" /\
                 depthOf e = nth k milestones 0) /\
      (sendsNext k depth s = false -> emitted s s' = []).
Proof.
  cbv zeta.
  assert (H0 : sentUpTo 0 initialState).
  { unfold sentUpTo. cbn. repeat split; lia. }
  destruct (trackScrolls_sentUpTo depths 0 initialState H0) as (k & _ & Hlen & Hk).
  exists k. split; [apply Hk|]. split; [exact Hlen|]. split; [apply Hk|].
  split; [now apply sentUpTo_reached with (k := k)|].
  intros depth. destruct (trackScroll_step k depth _ Hk) as [_ Hstep]. cbv zeta in Hstep.
  destruct (sendsNext k depth _); split; try discriminate; intros _.
  - destruct Hstep as [Hs' He]. split; [apply Hs'|exact He].
  - apply Hstep.
Qed.

(** The scenario of the specification: the depth goes 10%, 30%, 60%. *)
Example milestones_25_then_50 :
  sentMilestones (trackScrolls [10; 30; 60] initialState) = [25; 50] /\
  map (fun depth => sentMilestones (trackScrolls (firstn depth [10; 30; 60]) initialState))
      [1; 2; 3]%nat = [[]; [25]; [25; 50]].
Proof. vm_compute. split; reflexivity. Qed.

(** ** Exceptions inside a click *)

(** C10, as stated, fails.  A click event whose target is the document
    makes rage-click detection throw (the document has no [tagName]).  The
    exception leaves [trackClick]: the click is counted and nothing else
    happens; in particular the plain [click] event is not sent. *)
Lemma click_lost_when_rage_detection_throws :
  detectRageClick 0 (Sample.click DocumentNode 5 5) (set_clickCount 1 initialState)
    = Thrown (TypeError "tagName.toLowerCase") (set_clickCount 1 initialState) /\
  trackClick 0 (Sample.click DocumentNode 5 5) initialState
    = Thrown (TypeError "tagName.toLowerCase") (set_clickCount 1 initialState) /\
  sent (set_clickCount 1 initialState) = [].
Proof. repeat split. Qed.

(** C10, amended.  Nothing isolates the detections inside [trackClick]:
    the first exception leaves it at once.  If rage-click detection throws,
    no event is sent, no timer is set, no dead click is counted, so
    dead-click detection, cancel-click detection and the plain [click] event
    do not run; that happens for every click whose target is the document.
    If cancel-click detection throws, which it does on an element whose
    inner text is empty and whose value is a number other than zero, the
    plain [click] event is not sent either, though what the detections
    before it sent is out.  On an element [trackClick] returns exactly when
    neither that text nor that of the clickable ancestor is such a number,
    and then the detections have run in order and [click] is sent last. *)
Theorem first_exception_ends_trackClick (now : Z) (ev : ClickEvent) (s : State) :
  let s0 := set_clickCount (clickCount s + 1) s in
  (forall e s1, detectRageClick now ev s0 = Thrown e s1 ->
     trackClick now ev s = Thrown e s1 /\
     emitted s s1 = [] /\ timers s1 = timers s /\ deadClickCount s1 = deadClickCount s) /\
  (target ev = DocumentNode ->
     detectRageClick now ev s0 = Thrown (TypeError "tagName.toLowerCase") s0) /\
  (forall t, target ev = Elem t ->
     let o := trackClick now ev s in
     let detections := if rageFires now ev t s then ["rage_click"]
                       else if deadFires t then ["dead_click"] else [] in
     (textOrValue t = None ->
        forall s1, detectFormCancelClick ev s1 = Thrown (TypeError "toLowerCase") s1) /\
     (clickThrows t = true ->
        exists e s'', o = Thrown e s'' /\ typesOf (emitted s s'') = detections) /\
     (clickThrows t = false ->
        exists s'', o = Returned tt s'' /\
                    typesOf (emitted s s'') = (detections ++ ["click"])%list)).
Proof.
  cbv zeta. split; [|split].
  - intros e s1 Hthrow. destruct (target ev) as [|t] eqn:Ht.
    + unfold detectRageClick, bind in Hthrow. rewrite Ht in Hthrow.
      cbn in Hthrow. injection Hthrow as <- <-.
      split; [|split; [apply emitted_grows; cbn; now rewrite app_nil_r|split; reflexivity]].
      unfold trackClick, bind, update, detectRageClick. cbn beta. rewrite Ht. reflexivity.
    + exfalso. rewrite (detectRageClick_elem now ev t _ Ht) in Hthrow. cbv zeta in Hthrow.
      destruct (_ && _)%bool; discriminate.
  - intros Ht. unfold detectRageClick, bind. rewrite Ht. reflexivity.
  - intros t Ht.
    destruct (trackClick_effect now ev t s Ht) as (l & Hsent & Hty & _ & Hend & _).
    cbv zeta in Hsent, Hty, Hend.
    split; [|split].
    + intros Hnone s1. unfold detectFormCancelClick. rewrite Ht, Hnone. reflexivity.
    + intros Hthrows. rewrite Hthrows in Hend, Hty. destruct Hend as (e & Hend).
      exists e. eexists. split; [exact Hend|].
      rewrite (emitted_grows _ _ _ Hsent), Hty. apply app_nil_r.
    + intros Hfine. rewrite Hfine in Hend, Hty.
      eexists. split; [exact Hend|].
      rewrite (emitted_grows _ _ _ Hsent). exact Hty.
Qed.

(** A click on a progress bar, which has no inner text and a number for
    value: the click is counted and the [click] event is lost. *)
Example click_lost_on_a_progress_bar :
  let bar := mkElement "PROGRESS" "" (ClassString "") [] false "" "auto" ""
               (NumberValue (of_Z 1)) None "" NoHref "" false None None
               (Some Sample.body) in
  clickThrows bar = true /\
  trackClick 0 (Sample.click (Elem bar) 5 5) initialState
    = Thrown (TypeError "toLowerCase")
        (set_recentClicks [mkClick 0 5 5 "progress"] (set_clickCount 1 initialState)).
Proof. vm_compute. split; reflexivity. Qed.

(** * Further properties of the tracker *)

(** ** Minted ids *)

Lemma toString16_digit (v : Z) :
  0 <= v < 16 -> exists c, toString16 v = String c "" /\ is_hex c = true.
Proof.
  intros H.
  assert (Hv : v = 0 \/ v = 1 \/ v = 2 \/ v = 3 \/ v = 4 \/ v = 5 \/ v = 6 \/ v = 7 \/
               v = 8 \/ v = 9 \/ v = 10 \/ v = 11 \/ v = 12 \/ v = 13 \/ v = 14 \/ v = 15)
    by lia.
  repeat (destruct Hv as [->|Hv]; [eexists; split; reflexivity|]).
  subst v. eexists; split; reflexivity.
Qed.

Lemma variant_digit (r : Z) :
  0 <= r < 16 ->
  exists c, toString16 (Z.lor (Z.land r 3) 8) = String c "" /\
            existsb (Ascii.eqb c) (list_ascii_of_string "89ab") = true.
Proof.
  intros H.
  assert (Hv : r = 0 \/ r = 1 \/ r = 2 \/ r = 3 \/ r = 4 \/ r = 5 \/ r = 6 \/ r = 7 \/
               r = 8 \/ r = 9 \/ r = 10 \/ r = 11 \/ r = 12 \/ r = 13 \/ r = 14 \/ r = 15)
    by lia.
  repeat (destruct Hv as [->|Hv]; [eexists; split; reflexivity|]).
  subst r. eexists; split; reflexivity.
Qed.

Lemma replace_xy_shape (draw : nat -> Z) (template : string) (i : nat) :
  (forall i, 0 <= draw i < 16) ->
  Forall2 idChar (list_ascii_of_string template)
    (list_ascii_of_string (replace_xy template i draw)).
Proof.
  intros Hdraw. revert i.
  induction template as [|c rest IH]; intros i; cbn [replace_xy list_ascii_of_string].
  - constructor.
  - unfold idChar at 1, idDigit.
    destruct (Ascii.eqb c "x") eqn:Ex; cbn [orb].
    + destruct (toString16_digit (draw i) (Hdraw i)) as (d & -> & Hd).
      cbn. constructor; [now rewrite Ex|apply IH].
    + destruct (Ascii.eqb c "y") eqn:Ey.
      * destruct (variant_digit (draw i) (Hdraw i)) as (d & -> & Hd).
        cbn. constructor; [now rewrite Ex, Ey|apply IH].
      * cbn. constructor; [now rewrite Ex, Ey|apply IH].
Qed.

Lemma string_length_chars (s : string) :
  String.length s = List.length (list_ascii_of_string s).
Proof. induction s as [|c s IH]; cbn; congruence. Qed.

(** X1.  Whatever the random generator returns, [generateId] yields 36
    characters in the layout of a version-4 UUID: the hyphens and the [4] of
    the template stay in place, the character for [y] is one of 8, 9, a, b,
    and every other character is a lower-case hexadecimal digit. *)
Theorem generateId_is_uuid_v4_shaped (draw : nat -> Z) :
  (forall i, 0 <= draw i < 16) ->
  String.length (generateId draw) = 36%nat /\
  Forall2 idChar (list_ascii_of_string idTemplate)
    (list_ascii_of_string (generateId draw)).
Proof.
  intros Hdraw.
  pose proof (replace_xy_shape draw idTemplate 0 Hdraw) as H. split; [|exact H].
  apply Forall2_length in H. rewrite string_length_chars. unfold generateId.
  etransitivity; [symmetry; exact H|]. vm_compute. reflexivity.
Qed.

(** X1 with a generator that always returns 7. *)
Lemma generateId_is_uuid_v4_shaped_witness :
  generateId (fun _ => 7) = "77777777-7777-4777-b777-777777777777" /\
  String.length (generateId (fun _ => 7)) = 36%nat.
Proof.
  split; [reflexivity|].
  apply (generateId_is_uuid_v4_shaped (fun _ => 7)). intros _. lia.
Defined.

(** ** The visitor id *)

Lemma truthy_append_r (a b : string) : truthy b = true -> truthy (a ++ b) = true.
Proof. destruct a; cbn; auto. Qed.

Lemma generateId_truthy (draw : nat -> Z) : truthy (generateId draw) = true.
Proof.
  unfold generateId, idTemplate. cbn [replace_xy Ascii.eqb Bool.eqb orb andb].
  do 8 apply truthy_append_r. reflexivity.
Qed.

(** X2.  [getVisitorId] always leaves its result stored, and a stored id is
    never replaced: every later call, whatever the random generator would
    give, returns the same id and leaves the storage as it is. *)
Theorem visitor_id_is_never_rotated (draw draw' : nat -> Z) (st : option string) :
  let out := getVisitorId draw st in
  snd out = Some (fst out) /\
  getVisitorId draw' (snd out) = out /\
  (forall v, st = Some v -> v <> "" -> out = (v, st)).
Proof.
  cbv zeta. unfold getVisitorId.
  pose proof (generateId_truthy draw) as Hg.
  destruct st as [v|].
  - destruct (truthy v) eqn:Hv; cbn [fst snd].
    + rewrite Hv. split; [reflexivity|]. split; [reflexivity|]. now intros v' [= <-] _.
    + rewrite Hg. split; [reflexivity|]. split; [reflexivity|].
      intros v' [= <-] Hne. destruct v; [now elim Hne|discriminate].
  - cbn [fst snd]. rewrite Hg. split; [reflexivity|]. split; [reflexivity|]. discriminate.
Qed.

(** ** The device type *)

Lemma prefix_cons (a b : ascii) (p s : string) :
  prefix (String a p) (String b s) = (Ascii.eqb a b && prefix p s)%bool.
Proof.
  cbn [prefix]. destruct (ascii_dec a b) as [->|Hne].
  - now rewrite Ascii.eqb_refl.
  - destruct (Ascii.eqb_spec a b); [contradiction|reflexivity].
Qed.

Lemma prefix_nil (p : string) : prefix p "" = true -> p = "".
Proof. destruct p; [reflexivity|discriminate]. Qed.

Lemma prefix_lower (p s : string) :
  prefix p s = true -> prefix (toLowerCase p) (toLowerCase s) = true.
Proof.
  revert s. induction p as [|a p IH]; intros s H.
  - destruct s; reflexivity.
  - destruct s as [|b s]; [discriminate|].
    rewrite prefix_cons in H. apply andb_true_iff in H. destruct H as [Hab Hp].
    apply Ascii.eqb_eq in Hab. subst b. cbn [toLowerCase].
    rewrite prefix_cons, Ascii.eqb_refl. cbn [andb]. now apply IH.
Qed.

Lemma includes_unfold (p s : string) :
  includes p s = (prefix p s || match s with
                               | EmptyString => false
                               | String _ r => includes p r
                               end)%bool.
Proof. destruct s; reflexivity. Qed.

(** A pattern found through one test on prefixes is found through any
    weaker one. *)
Lemma includes_weaken (p q : string) (f : string -> string) :
  (forall s, prefix p s = true -> prefix q (f s) = true) ->
  (forall c r, exists c', f (String c r) = String c' (f r)) ->
  forall s, includes p s = true -> includes q (f s) = true.
Proof.
  intros Hp Hf. induction s as [|c r IH]; intros H; rewrite includes_unfold in H |- *.
  - apply orb_true_iff in H. destruct H as [H|H]; [|discriminate].
    rewrite (Hp _ H). reflexivity.
  - apply orb_true_iff in H. destruct H as [H|H].
    + rewrite (Hp _ H). reflexivity.
    + destruct (Hf c r) as [c' E]. rewrite E. rewrite (IH H). apply orb_true_r.
Qed.

Lemma includes_lower (p s : string) :
  includes p s = true -> includes (toLowerCase p) (toLowerCase s) = true.
Proof.
  apply (includes_weaken p (toLowerCase p) toLowerCase).
  - intros s'. apply prefix_lower.
  - intros c r. eexists. reflexivity.
Qed.

Lemma prefix_append (a b s : string) : prefix (a ++ b) s = true -> prefix a s = true.
Proof.
  revert s. induction a as [|c a IH]; intros s H; [destruct s; reflexivity|].
  destruct s as [|d s]; [discriminate|]. cbn [append] in H.
  rewrite prefix_cons in *. apply andb_true_iff in H. destruct H as [-> H].
  cbn [andb]. now apply IH.
Qed.

Lemma prefix_rest_of_line (p s : string) :
  prefix p (rest_of_line s) = true -> prefix p s = true.
Proof.
  revert s. induction p as [|a p IH]; intros s H; [destruct s; reflexivity|].
  destruct s as [|c s]; [discriminate|]. cbn [rest_of_line] in H.
  destruct (is_line_end c); [discriminate|].
  rewrite prefix_cons in *. apply andb_true_iff in H. destruct H as [-> H].
  cbn [andb]. now apply IH.
Qed.

Lemma includes_rest_of_line (p s : string) :
  includes p (rest_of_line s) = true -> includes p s = true.
Proof.
  induction s as [|c s IH]; intros H; [exact H|].
  cbn [rest_of_line] in H. rewrite includes_unfold.
  destruct (is_line_end c) eqn:E.
  - rewrite includes_unfold, orb_false_r in H. apply prefix_nil in H. subst p. reflexivity.
  - rewrite includes_unfold in H. apply orb_true_iff in H. destruct H as [H|H].
    + assert (H' : prefix p (rest_of_line (String c s)) = true)
        by (cbn [rest_of_line]; rewrite E; exact H).
      rewrite (prefix_rest_of_line _ _ H'). reflexivity.
    + rewrite (IH H). apply orb_true_r.
Qed.

Lemma includes_drop (p : string) (n : nat) (s : string) :
  includes p (drop n s) = true -> includes p s = true.
Proof.
  revert s. induction n as [|n IH]; intros s H; [exact H|].
  destruct s as [|c s]; [exact H|]. cbn [drop] in H.
  rewrite includes_unfold, (IH _ H). apply orb_true_r.
Qed.

Lemma android_without_mobi (l : string) :
  includes "android" l = true -> includes "mobi" l = false -> android_not_mobi l = true.
Proof.
  induction l as [|c r IH]; intros Ha Hm.
  - discriminate.
  - rewrite includes_unfold in Ha, Hm. apply orb_false_iff in Hm. destruct Hm as [_ Hm].
    assert (E : android_not_mobi (String c r) =
                ((prefix "android" (String c r)
                  && negb (includes "mobi" (rest_of_line (drop 7 (String c r)))))
                 || android_not_mobi r)%bool) by reflexivity.
    rewrite E. apply orb_true_iff in Ha. destruct Ha as [Ha|Ha].
    + rewrite Ha. cbn [andb].
      destruct (includes "mobi" (rest_of_line (drop 7 (String c r)))) eqn:Em;
        [|reflexivity].
      apply includes_rest_of_line in Em.
      apply (includes_drop "mobi" 6 r) in Em. congruence.
    + rewrite (IH Ha Hm). apply orb_true_r.
Qed.

Lemma IEMobile_is_Mobile (s : string) :
  includes "IEMobile" s = true -> includes "Mobile" s = true.
Proof.
  induction s as [|a s IH]; intros H; [discriminate|].
  rewrite includes_unfold in H. apply orb_true_iff in H. destruct H as [H|H].
  - rewrite prefix_cons in H. apply andb_true_iff in H. destruct H as [_ H].
    destruct s as [|b s]; [cbn in H; discriminate|].
    rewrite prefix_cons in H. apply andb_true_iff in H. destruct H as [_ H].
    rewrite includes_unfold, (includes_unfold "Mobile" (String b s)),
      (includes_unfold "Mobile" s), H.
    cbn [orb]. now rewrite !orb_true_r.
  - rewrite includes_unfold, (IH H). apply orb_true_r.
Qed.

Lemma Silk_is_silk (ua : string) :
  includes "Silk-Accelerated" ua = true -> includes "silk" (toLowerCase ua) = true.
Proof.
  apply (includes_weaken "Silk-Accelerated" "silk" toLowerCase).
  - intros s H. apply prefix_lower in H.
    apply (prefix_append "silk" "-accelerated"). exact H.
  - intros c r. eexists. reflexivity.
Qed.

(** X3.  [getDeviceType]: a user agent with [tablet], [ipad], [playbook] or
    [silk] in it, in any case, is a tablet whatever else it holds; one
    with [android] and no [mobi] anywhere is a tablet; one with [Android] is
    never a desktop; and the result is [mobile] exactly when the tablet
    pattern fails and one of Mobile, Android, iPhone, iPod, BlackBerry,
    Kindle occurs: the alternatives [IEMobile] and [Silk-Accelerated] of the
    second pattern never decide. *)
Theorem device_type_classes (ua : string) :
  (forall w, In w ["tablet"; "ipad"; "playbook"; "silk"] ->
     includes w (toLowerCase ua) = true -> getDeviceType ua = "tablet") /\
  (includes "android" (toLowerCase ua) = true ->
     includes "mobi" (toLowerCase ua) = false -> getDeviceType ua = "tablet") /\
  (includes "Android" ua = true -> getDeviceType ua <> "desktop") /\
  (getDeviceType ua = "mobile" <->
   tabletPattern ua = false /\
   existsb (fun w => includes w ua)
     ["Mobile"; "Android"; "iPhone"; "iPod"; "BlackBerry"; "Kindle"] = true).
Proof.
  unfold getDeviceType. split; [|split; [|split]].
  - intros w Hw H. unfold tabletPattern. cbv zeta.
    destruct Hw as [<-|[<-|[<-|[<-|[]]]]]; rewrite H; now rewrite ?orb_true_r.
  - intros Ha Hm. unfold tabletPattern. cbv zeta.
    rewrite (android_without_mobi _ Ha Hm). now rewrite !orb_true_r.
  - intros H. destruct (tabletPattern ua); [discriminate|].
    unfold mobilePattern. rewrite H. now rewrite ?orb_true_r.
  - destruct (tabletPattern ua) eqn:Et.
    + split; [discriminate|]. intros [H _]. discriminate.
    + unfold mobilePattern. cbn [existsb].
      pose proof (IEMobile_is_Mobile ua) as HI.
      pose proof (Silk_is_silk ua) as HS.
      assert (Hsilk : includes "Silk-Accelerated" ua = false).
      { destruct (includes "Silk-Accelerated" ua); [|reflexivity].
        unfold tabletPattern in Et. cbv zeta in Et. rewrite (HS eq_refl) in Et.
        now rewrite ?orb_true_r in Et. }
      rewrite Hsilk.
      destruct (includes "Mobile" ua); cbn [orb]; [split; auto|].
      destruct (includes "IEMobile" ua); [specialize (HI eq_refl); discriminate|].
      destruct (includes "Android" ua), (includes "iPhone" ua), (includes "iPod" ua),
        (includes "BlackBerry" ua), (includes "Kindle" ua); cbn;
        split; auto; try discriminate; intros [_ H]; discriminate.
Qed.

(** ** Element paths *)





(** ** The size of the mouse buffer *)

Lemma sorted_span (l : list MouseSample) :
  StronglySorted apart l ->
  forall first last, hd_error l = Some first -> last_sample l = Some last ->
  50 * (len l - 1) <= m_time last - m_time first.
Proof.
  induction 1 as [|a l Hs IH Ha]; intros first last Hf Hl; [discriminate|].
  cbn in Hf. injection Hf as <-.
  destruct l as [|b r].
  - cbn in Hl. injection Hl as <-. cbn. lia.
  - assert (Hl' : last_sample (b :: r) = Some last) by exact Hl.
    specialize (IH b last eq_refl Hl').
    inversion Ha as [|? ? Hab _]; subst. unfold apart in Hab.
    rewrite len_cons. lia.
Qed.

Lemma last_sample_some (a : MouseSample) (l : list MouseSample) :
  exists m, last_sample (a :: l) = Some m.
Proof.
  revert a. induction l as [|b r IH]; intros a; [now exists a|].
  destruct (IH b) as [m Hm]. exists m. exact Hm.
Qed.

Lemma buffer_ok_size (buf : list MouseSample) : buffer_ok buf -> len buf <= 20.
Proof.
  intros [Hs Hw]. destruct buf as [|a r]; [cbn; lia|].
  destruct (last_sample_some a r) as [m Hm].
  pose proof (sorted_span _ Hs a m eq_refl Hm) as Hspan.
  pose proof (Hw m a Hm (or_introl eq_refl)). lia.
Qed.

(** X5.  However fast [mousemove] events arrive, the mouse buffer never
    holds more than 20 samples: they are 50ms apart or more and span less
    than a second.  (The clock is taken not to run backwards between the
    two readings of one handler run.) *)
Theorem mouse_buffer_holds_at_most_20 (evs : list MouseEvent) :
  Forall clock_ok evs ->
  len (mouseMovements (trackMouseMoves evs initialState)) <= 20.
Proof.
  intros Hall. apply buffer_ok_size. apply buffer_ok_reachable; [|exact Hall].
  split; [constructor|intros l m Hl; discriminate].
Qed.

(** X5 on events 50ms apart: twenty fill the buffer, the next one pushes
    the oldest sample out. *)
Lemma mouse_buffer_holds_at_most_20_witness :
  len (mouseMovements (trackMouseMoves (steady 20) initialState)) = 20 /\
  len (mouseMovements (trackMouseMoves (steady 21) initialState)) <= 20.
Proof.
  split; [vm_compute; reflexivity|].
  apply mouse_buffer_holds_at_most_20.
  unfold steady. apply Forall_forall. intros ev Hev. apply in_map_iff in Hev.
  destruct Hev as (i & <- & _). unfold clock_ok. cbn. lia.
Defined.

Lemma detectMouseThrashing_quiet (now : Z) (s : State) :
  len (mouseMovements s) < 10 ->
  detectMouseThrashing now s =
    (set_mouseMovements (filter (fun m => now - m_time m <? 1000) (mouseMovements s)) s,
     false).
Proof.
  intros H. unfold detectMouseThrashing.
  pose proof (len_filter_le (fun m => now - m_time m <? 1000) (mouseMovements s)) as Hf.
  destruct (len _ <? 10) eqn:E; [reflexivity|]. apply Z.ltb_ge in E. lia.
Qed.

Lemma trackMouseMove_quiet (ev : MouseEvent) (s : State) :
  len (mouseMovements s) < 9 ->
  sent (trackMouseMove ev s) = sent s /\
  len (mouseMovements (trackMouseMove ev s)) <= len (mouseMovements s) + 1.
Proof.
  intros H. unfold trackMouseMove.
  destruct (throttled (mv_now ev) (mouseMovements s)); [split; [reflexivity|lia]|].
  set (buf := filter _ (mouseMovements s ++ _)%list).
  assert (Hb : len buf <= len (mouseMovements s) + 1).
  { unfold buf. etransitivity; [apply len_filter_le|]. rewrite len_app. cbn. lia. }
  rewrite detectMouseThrashing_quiet by (cbn; lia).
  cbn. split; [reflexivity|].
  etransitivity; [apply len_filter_le|exact Hb].
Qed.

Lemma trackMouseMoves_quiet (evs : list MouseEvent) (s : State) :
  len (mouseMovements s) + len evs < 10 ->
  sent (trackMouseMoves evs s) = sent s.
Proof.
  revert s. induction evs as [|ev evs IH]; intros s H; [reflexivity|].
  rewrite len_cons in H. pose proof (len_nonneg evs).
  destruct (trackMouseMove_quiet ev s) as [Hs Hl]; [lia|].
  unfold trackMouseMoves. cbn [fold_left]. fold (trackMouseMoves evs (trackMouseMove ev s)).
  rewrite IH by lia. exact Hs.
Qed.

(** X6.  With an empty mouse buffer, as at the start of a page and right
    after a [mouse_thrash], the next nine [mousemove] events send nothing,
    whatever the movement: a thrash takes ten samples taken in one by one. *)
Theorem no_thrash_in_the_first_nine_moves (evs : list MouseEvent) (s : State) :
  mouseMovements s = [] -> (List.length evs <= 9)%nat ->
  sent (trackMouseMoves evs s) = sent s.
Proof.
  intros He Hn. apply trackMouseMoves_quiet. rewrite He. unfold len. cbn. lia.
Qed.

(** X6 on the first nine moves of the zigzag, which thrashes at the tenth. *)
Lemma no_thrash_in_the_first_nine_moves_witness :
  sent (trackMouseMoves (firstn 9 zigzag) initialState) = [] /\
  typesOf (sent (trackMouseMoves zigzag initialState)) = ["mouse_thrash"].
Proof.
  split; [|vm_compute; reflexivity].
  apply (no_thrash_in_the_first_nine_moves (firstn 9 zigzag) initialState eq_refl).
  vm_compute. lia.
Defined.

(** ** What a click changes *)

Lemma countType_app (type : string) (l r : list Envelope) :
  countType type (l ++ r)%list = (countType type l + countType type r)%nat.
Proof. unfold countType, ofType. now rewrite filter_app, length_app. Qed.

Lemma trackClick_counters (c : ElementClick) (lost : Z) (s : State) :
  counters_agree lost s ->
  counters_agree (lost + if clickThrows (ec_target c) then 1 else 0)
    (final_state (trackClick (ec_now c) (clickOf c) s)).
Proof.
  intros (Hc & Hr & Hd).
  destruct (trackClick_effect (ec_now c) (clickOf c) (ec_target c) s eq_refl)
    as (l & Hsent & Hty & _ & _ & Hc' & Hr' & Hd' & _).
  cbv zeta in Hsent, Hty, Hc', Hr', Hd'. unfold counters_agree.
  rewrite Hsent, !countType_app, Hc', Hr', Hd', Hc, Hr, Hd.
  rewrite !(countType_types _ l), Hty.
  destruct (rageFires _ _ _ s); [|destruct (deadFires _)];
    destruct (clickThrows _); cbn; repeat split; lia.
Qed.

(** X7.  After any run of clicks on elements from the start of a page,
    [rageClickCount] and [deadClickCount] (which [getFrustrationStats] and
    [pageexit] report) are the numbers of [rage_click] and [dead_click]
    events sent, and [clickCount] is the number of clicks handled.  It is
    the number of [click] events sent plus the number of clicks whose
    handler threw before sending one: the click is counted first. *)
Theorem click_counters_match_the_events_sent (cs : list ElementClick) :
  let s := trackClicks cs initialState in
  let lost := len (filter (fun c => clickThrows (ec_target c)) cs) in
  clickCount s = len cs /\
  clickCount s = Z.of_nat (countType "click" (sent s)) + lost /\
  rageClickCount s = Z.of_nat (countType "rage_click" (sent s)) /\
  deadClickCount s = Z.of_nat (countType "dead_click" (sent s)).
Proof.
  cbv zeta.
  assert (H : forall s lost, counters_agree lost s ->
            counters_agree (lost + len (filter (fun c => clickThrows (ec_target c)) cs))
              (trackClicks cs s) /\
            clickCount (trackClicks cs s) = clickCount s + len cs).
  { induction cs as [|c cs IH]; intros s lost Hs.
    - cbn. rewrite !Z.add_0_r. split; [exact Hs|reflexivity].
    - rewrite trackClicks_cons.
      destruct (IH _ _ (trackClick_counters c lost s Hs)) as [I1 I2].
      destruct (trackClick_effect (ec_now c) (clickOf c) (ec_target c) s eq_refl)
        as (l & _ & _ & _ & _ & Hc' & _).
      cbv zeta in Hc'. rewrite I2, Hc', len_cons. split; [|lia].
      cbn [filter]. destruct (clickThrows (ec_target c)).
      + rewrite len_cons.
        replace (lost + (len (filter (fun c0 => clickThrows (ec_target c0)) cs) + 1))
          with (lost + 1 + len (filter (fun c0 => clickThrows (ec_target c0)) cs)) by lia.
        exact I1.
      + rewrite Z.add_0_r in I1. exact I1. }
  destruct (H initialState 0) as [(H1 & H2 & H3) H4]; [repeat split|].
  cbn [clickCount initialState] in H4. rewrite Z.add_0_l in *.
  repeat split; assumption.
Qed.

(** X8.  A click never ends a form's tracking on the spot.  [trackClick] on
    an element leaves [activeForms], the mouse buffer and the scroll marks
    as they are and sends no [form_abandonment]; at most it leaves one
    timer, and only when the target reads as a cancel control and the form
    found for it has a record. *)
Theorem click_defers_form_abandonment (c : ElementClick) (s : State) :
  let s' := final_state (trackClick (ec_now c) (clickOf c) s) in
  activeForms s' = activeForms s /\
  mouseMovements s' = mouseMovements s /\
  maxScrollDepth s' = maxScrollDepth s /\
  lastScrollDepthSent s' = lastScrollDepthSent s /\
  countType "form_abandonment" (emitted s s') = 0%nat /\
  (timers s' = timers s \/
   exists form text,
     textOrValue (ec_target c) = Some text /\
     isCancelButton (toLowerCase text) (ec_target c) = true /\
     cancelledForm (ec_target c) = Some form /\
     FormMap.has (form_node form) (activeForms s) = true /\
     timers s' = (timers s ++ [CancelCheck (form_node form)])%list).
Proof.
  cbv zeta.
  destruct (trackClick_effect (ec_now c) (clickOf c) (ec_target c) s eq_refl)
    as (l & Hsent & Hty & _ & _ & _ & _ & _ & _ & Hf & Hm & Hx & Hl & _ & Ht).
  cbv zeta in *. rewrite (emitted_grows _ _ _ Hsent).
  repeat (split; [assumption|]). split; [|exact Ht].
  rewrite countType_types, Hty.
  destruct (rageFires _ _ _ s); [|destruct (deadFires _)];
    destruct (clickThrows _); reflexivity.
Qed.

(** ** The numbering of the events *)

Lemma numbered_log_snoc (n : Z) (log : list Envelope) (type : string) (data : JsObj) :
  numbered_log n log -> numbered_log (n + 1) (log ++ [mkEnvelope type data (n + 1)]).
Proof.
  intros [Hlen Hidx]. split.
  - rewrite len_app, Hlen. reflexivity.
  - rewrite map_app, Hidx, length_app. cbn [List.length map interactionIndex].
    rewrite Nat.add_1_r, seq_S, map_app. cbn [map]. f_equal. f_equal.
    unfold len in Hlen. lia.
Qed.

Ltac numb :=
  unfold numbered in *;
  cbn [sent interactionCount sendEvent set_maxScrollDepth set_clickCount
       set_lastScrollDepthSent set_recentClicks set_mouseMovements
       set_lastMousePosition set_deadClickCount set_rageClickCount
       set_activeForms set_timers] in *;
  repeat apply numbered_log_snoc; try assumption.

Lemma numbered_checkFormAbandonment (now : Z) (form : option Form) (reason : string)
  (s : State) :
  numbered s -> numbered (checkFormAbandonment now form reason s).
Proof.
  intros H. destruct form as [form|]; [|exact H].
  rewrite checkFormAbandonment_cases.
  destruct (FormMap.get _ _) as [d|]; [|exact H].
  cbv zeta. destruct (_ && _)%bool; numb.
Qed.

Lemma numbered_forEachForm (guard : Form -> bool) (reason : string) (clock : nat -> Z)
  (dom : nat -> Form) (keys : list nat) (s : State) :
  numbered s -> numbered (forEachForm guard reason clock dom keys s).
Proof.
  revert s. induction keys as [|k keys IH]; intros s H; [exact H|].
  cbn [forEachForm]. apply IH.
  destruct (FormMap.get k (activeForms s)) as [d|]; [|exact H].
  destruct (_ && _)%bool; [now apply numbered_checkFormAbandonment|exact H].
Qed.

(** Invariants through the exception monad. *)
Lemma keeps_bind {A B : Type} (P : State -> Prop) (m : Js A) (k : A -> Js B) :
  keeps P m -> (forall a, keeps P (k a)) -> keeps P (bind m k).
Proof.
  intros Hm Hk s Hs. unfold bind. specialize (Hm s Hs).
  destruct (m s) as [a s'|e s']; cbn [final_state] in Hm; [now apply Hk|exact Hm].
Qed.

Lemma keeps_ret {A : Type} (P : State -> Prop) (a : A) : keeps P (ret a).
Proof. intros s Hs. exact Hs. Qed.

Lemma keeps_throw {A : Type} (P : State -> Prop) (e : JsError) : keeps P (@throw A e).
Proof. intros s Hs. exact Hs. Qed.

Lemma keeps_read {A : Type} (P : State -> Prop) (f : State -> A) : keeps P (read f).
Proof. intros s Hs. exact Hs. Qed.

Lemma keeps_update (P : State -> Prop) (f : State -> State) :
  (forall s, P s -> P (f s)) -> keeps P (update f).
Proof. intros Hf s Hs. now apply Hf. Qed.

Ltac keeps_numbered :=
  cbv zeta;
  repeat match goal with
         | |- keeps _ (bind _ _) => apply keeps_bind; [|intros ?]
         | |- keeps _ (ret _) => apply keeps_ret
         | |- keeps _ (throw _) => apply keeps_throw
         | |- keeps _ (read _) => apply keeps_read
         | |- keeps _ (update _) =>
             apply keeps_update; intros ? ?;
             repeat match goal with
                    | |- context [if ?c then _ else _] => destruct c
                    end; numb
         | |- keeps _ (match ?x with _ => _ end) => destruct x
         | |- keeps _ (if ?c then _ else _) => destruct c
         end.

Lemma numbered_getFieldLabel (field : Field) : keeps numbered (getFieldLabel field).
Proof. unfold getFieldLabel. keeps_numbered. Qed.

Lemma numbered_detectRageClick (now : Z) (ev : ClickEvent) :
  keeps numbered (detectRageClick now ev).
Proof. unfold detectRageClick, getElementSelector, getElementPath. keeps_numbered. Qed.

Lemma numbered_trackClick (now : Z) (ev : ClickEvent) (s : State) :
  numbered s -> numbered (final_state (trackClick now ev s)).
Proof.
  revert s. change (keeps numbered (trackClick now ev)).
  unfold trackClick. apply keeps_bind; [keeps_numbered|intros _].
  apply keeps_bind; [apply numbered_detectRageClick|intros isRageClick].
  unfold detectDeadClick, detectFormCancelClick. keeps_numbered.
Qed.

Lemma numbered_trackMouseMove (ev : MouseEvent) (s : State) :
  numbered s -> numbered (trackMouseMove ev s).
Proof.
  intros H. unfold trackMouseMove.
  destruct (throttled _ _); [exact H|].
  unfold detectMouseThrashing.
  destruct (len _ <? 10); [numb|].
  destruct (thrash_measure _) as [d c].
  destruct (_ && _)%bool; numb.
Qed.

Lemma numbered_trackScroll (depth : Z) (s : State) :
  numbered s -> numbered (trackScroll depth s).
Proof.
  intros H. unfold trackScroll.
  assert (H1 : numbered (if depth >? maxScrollDepth s
                         then set_maxScrollDepth depth s else s))
    by (destruct (depth >? maxScrollDepth s); numb).
  revert H1. generalize (if depth >? maxScrollDepth s
                         then set_maxScrollDepth depth s else s).
  intros s1 H1. unfold milestones, milestone_loop.
  repeat match goal with
         | |- context [if ?c then _ else _] => destruct c
         end; numb.
Qed.

Lemma numbered_trackFormFieldInteraction (now : Z) (field : Field) (form : option Form) :
  keeps numbered (trackFormFieldInteraction now field form).
Proof.
  unfold trackFormFieldInteraction. destruct form as [form|]; [|apply keeps_ret].
  cbv zeta. apply keeps_bind.
  { apply keeps_update. intros s H. destruct (FormMap.has _ _) eqn:E; [exact H|].
    unfold startTrackingForm. rewrite E. numb. }
  intros _. apply keeps_bind; [apply keeps_read|intros record].
  destruct record as [formData|]; [|apply keeps_throw].
  apply keeps_bind; [keeps_numbered|intros _].
  apply keeps_bind; [apply numbered_getFieldLabel|intros label].
  apply keeps_bind; [keeps_numbered|intros _].
  destruct (_ >? 0); [|apply keeps_ret].
  destruct (nth_error _ _) as [prev|]; [|apply keeps_ret].
  destruct (skipped prev); [|apply keeps_ret].
  apply keeps_bind; [apply numbered_getFieldLabel|intros label'].
  keeps_numbered.
Qed.

Lemma numbered_trackFormFocus (now : Z) (input : Field) (form : option Form) (s : State) :
  numbered s -> numbered (final_state (trackFormFocus now input form s)).
Proof.
  revert s. change (keeps numbered (trackFormFocus now input form)).
  unfold trackFormFocus. destruct (negb _); [apply keeps_ret|].
  apply keeps_bind; [apply numbered_trackFormFieldInteraction|intros _].
  destruct (_ && _)%bool; [|apply keeps_ret].
  apply keeps_bind; [apply numbered_getFieldLabel|intros label].
  keeps_numbered.
Qed.

Lemma numbered_trackFormSubmit (now : Z) (form : option Form) (s : State) :
  numbered s -> numbered (trackFormSubmit now form s).
Proof.
  intros H. destruct form as [form|]; [|exact H]. unfold trackFormSubmit.
  destruct (FormMap.get _ _) as [d|]; numb.
Qed.

Lemma numbered_onRemovedNode (clock : nat -> Z) (node : RemovedNode) (s : State) :
  numbered s -> numbered (onRemovedNode clock node s).
Proof.
  intros H. unfold onRemovedNode. destruct (negb _); [exact H|].
  assert (H1 : numbered
                 match node_asForm node with
                 | Some form =>
                     if FormMap.has (form_node form) (activeForms s)
                     then checkFormAbandonment (clock (form_node form)) (Some form)
                            "form_removed" s
                     else s
                 | None => s
                 end).
  { destruct (node_asForm node) as [form|]; [|exact H].
    destruct (FormMap.has _ _); [now apply numbered_checkFormAbandonment|exact H]. }
  revert H1. generalize (match node_asForm node with
                         | Some form =>
                             if FormMap.has (form_node form) (activeForms s)
                             then checkFormAbandonment (clock (form_node form))
                                    (Some form) "form_removed" s
                             else s
                         | None => s
                         end).
  induction (node_forms node) as [|form forms IH]; intros s1 H1; [exact H1|].
  cbn [fold_left]. apply IH.
  destruct (FormMap.has _ _); [now apply numbered_checkFormAbandonment|exact H1].
Qed.

Lemma numbered_trackPageExit (now : Z) (clock : nat -> Z) (dom : nat -> Form) (p : Page) :
  numbered (core p) -> numbered (core (trackPageExit now clock dom p)).
Proof.
  intros H. unfold trackPageExit. cbn [core].
  pose proof (numbered_forEachForm (fun _ => true) "page_exit" clock dom
                (keysOf (core p)) (core p) H) as H1.
  numb.
Qed.

Lemma numbered_resetPageState (t0 t1 : Z) (clock : nat -> Z) (dom : nat -> Form)
  (p : Page) :
  numbered (core p) -> numbered (core (resetPageState t0 t1 clock dom p)).
Proof.
  intros H. unfold resetPageState. cbn [core].
  unfold numbered. cbn [sent interactionCount set_activeForms].
  apply numbered_forEachForm. exact H.
Qed.

Lemma numbered_run (c : Call) (p : Page) : numbered (core p) -> numbered (core (run c p)).
Proof.
  intros H. destruct c; cbn [run with_core core].
  - now apply numbered_trackClick.
  - now apply numbered_trackMouseMove.
  - now apply numbered_trackScroll.
  - now apply numbered_trackFormFocus.
  - now apply numbered_trackFormSubmit.
  - unfold cancelTimer. destruct (FormMap.has _ _);
      [now apply numbered_checkFormAbandonment|exact H].
  - now apply numbered_forEachForm.
  - now apply numbered_onRemovedNode.
  - unfold reportFormAbandonment. destruct formElement; [|exact H].
    now apply numbered_checkFormAbandonment.
  - unfold trackVisibilityChange. cbn [core]. numb.
  - unfold trackMouseLeave. destruct (_ <=? 5); [|exact H].
    cbn [with_core core]. numb.
  - now apply numbered_trackPageExit.
  - unfold onPushState. apply numbered_resetPageState, numbered_trackPageExit.
    destruct url as [[from to]|]; [|exact H].
    unfold trackNavigation. cbn [with_core core]. numb.
Qed.

(** X9.  Through any run of handlers on a page load (clicks, moves, scrolls,
    focus and submit events, timers, removals, visibility changes, page
    exits, [pushState] navigations), the events go out numbered 1, 2, 3, ...
    in the order they are sent, and [interactionCount] is the number sent so
    far; a navigation inside the page does not restart the numbering. *)
Theorem interaction_index_counts_the_events (cs : list Call) (t0 t1 : Z) :
  let s := core (runAll cs (initialPage t0 t1)) in
  map interactionIndex (sent s) = map Z.of_nat (seq 1 (List.length (sent s))) /\
  interactionCount s = len (sent s).
Proof.
  cbv zeta.
  assert (H : forall p, numbered (core p) -> numbered (core (runAll cs p))).
  { induction cs as [|c cs IH]; intros p Hp; [exact Hp|].
    unfold runAll. cbn [fold_left]. apply IH. now apply numbered_run. }
  destruct (H (initialPage t0 t1)) as [Hlen Hidx].
  - split; reflexivity.
  - split; [exact Hidx|now rewrite Hlen].
Qed.

(** ** The records of the forms *)

Lemma get_In (k : nat) (d : FormData) (m : FormMap.t) :
  FormMap.get k m = Some d -> In (k, d) m.
Proof.
  induction m as [|[k' d'] m IH]; cbn; [discriminate|].
  destruct (Nat.eqb_spec k k') as [->|Hne].
  - intros [= ->]. now left.
  - intros H. right. now apply IH.
Qed.

Lemma has_keys (k : nat) (m : FormMap.t) :
  FormMap.has k m = true <-> In k (map fst m).
Proof.
  unfold FormMap.has. induction m as [|[k' d'] m IH]; cbn.
  - split; [discriminate|intros []].
  - destruct (Nat.eqb_spec k k') as [->|Hne]; cbn.
    + split; auto.
    + rewrite IH. split; [auto|]. intros [E|H]; [now elim Hne|exact H].
Qed.

Lemma keys_set (k : nat) (d : FormData) (m : FormMap.t) :
  map fst (FormMap.set k d m) =
    if FormMap.has k m then map fst m else (map fst m ++ [k])%list.
Proof.
  unfold FormMap.has. induction m as [|[k' d'] m IH]; cbn; [reflexivity|].
  destruct (Nat.eqb_spec k k') as [->|Hne]; cbn; [reflexivity|].
  rewrite IH. now destruct (is_some (FormMap.get k m)).
Qed.

Lemma in_set (k : nat) (d : FormData) (m : FormMap.t) (e : nat * FormData) :
  In e (FormMap.set k d m) -> e = (k, d) \/ In e m.
Proof.
  induction m as [|[k' d'] m IH]; cbn.
  - intros [<-|[]]. now left.
  - destruct (Nat.eqb k k'); cbn.
    + intros [<-|H]; auto.
    + intros [<-|H]; auto. destruct (IH H); auto.
Qed.

Lemma delete_set (k : nat) (d : FormData) (m : FormMap.t) :
  FormMap.delete k (FormMap.set k d m) = FormMap.delete k m.
Proof.
  unfold FormMap.delete. induction m as [|[k' d'] m IH]; cbn.
  - now rewrite Nat.eqb_refl.
  - destruct (Nat.eqb k k') eqn:E; cbn; rewrite ?Nat.eqb_refl, ?E; cbn; congruence.
Qed.

Lemma map_ok_set (k : nat) (d : FormData) (m : FormMap.t) :
  map_ok m -> record_ok d -> map_ok (FormMap.set k d m).
Proof.
  intros [Hn Hf] Hd. split.
  - rewrite keys_set. destruct (FormMap.has k m) eqn:E; [exact Hn|].
    apply NoDup_app; [exact Hn|repeat constructor; intros []|].
    intros x Hx [<-|[]]. apply has_keys in Hx. congruence.
  - apply Forall_forall. intros e He. apply in_set in He.
    destruct He as [->|He]; [exact Hd|]. rewrite Forall_forall in Hf. now apply Hf.
Qed.

Lemma NoDup_keys_filter (p : nat * FormData -> bool) (m : FormMap.t) :
  NoDup (map fst m) -> NoDup (map fst (filter p m)).
Proof.
  induction m as [|e m IH]; cbn; intros H; [constructor|].
  inversion H as [|? ? Hnot Hrest]; subst.
  destruct (p e); cbn; [|now apply IH].
  constructor; [|now apply IH].
  intros Hin. apply Hnot. apply in_map_iff in Hin. destruct Hin as (x & Hx & Hin).
  apply filter_In in Hin. apply in_map_iff. exists x. tauto.
Qed.

Lemma map_ok_delete (k : nat) (m : FormMap.t) : map_ok m -> map_ok (FormMap.delete k m).
Proof.
  intros [Hn Hf]. split; [now apply NoDup_keys_filter|].
  apply Forall_forall. intros e He. apply filter_In in He.
  rewrite Forall_forall in Hf. now apply Hf.
Qed.

Lemma mem_In (x : string) (l : list string) : mem x l = true <-> In x l.
Proof.
  unfold mem. rewrite existsb_exists. split.
  - intros (y & Hy & E). apply String.eqb_eq in E. now subst.
  - intros H. exists x. split; [exact H|apply String.eqb_refl].
Qed.

Lemma touched_ok (field : Field) (d : FormData) :
  submitted d = false -> NoDup (fieldsInteracted d) -> record_ok (touched field d).
Proof.
  intros Hs Hn. unfold record_ok, touched. cbn.
  destruct (mem (fieldName field) (fieldsInteracted d)) eqn:E.
  - apply mem_In in E. repeat split; [exact Hs| |exact Hn|].
    + intros H. rewrite H in E. destruct E.
    + intros l [= <-]. exact E.
  - repeat split; [exact Hs| | |].
    + intros H. apply app_eq_nil in H. destruct H as [_ H]. discriminate.
    + apply NoDup_app; [exact Hn|repeat constructor; intros []|].
      intros x Hx [<-|[]]. apply mem_In in Hx. congruence.
    + intros l [= <-]. apply in_or_app. right. now left.
Qed.

Lemma pushed_ok (field : Field) (d : FormData) :
  submitted d = false -> NoDup (fieldsInteracted d) ->
  (forall l, lastField d = Some l -> In (lf_name l) (fieldsInteracted d)) ->
  record_ok (pushed field d).
Proof.
  intros Hs Hn Hl. unfold record_ok, pushed. cbn.
  destruct (mem (fieldName field) (fieldsInteracted d)) eqn:E.
  - apply mem_In in E. repeat split; [exact Hs| |exact Hn|exact Hl].
    intros H. rewrite H in E. destruct E.
  - repeat split; [exact Hs| | |].
    + intros H. apply app_eq_nil in H. destruct H as [_ H]. discriminate.
    + apply NoDup_app; [exact Hn|repeat constructor; intros []|].
      intros x Hx [<-|[]]. apply mem_In in Hx. congruence.
    + intros l H. apply in_or_app. left. now apply Hl.
Qed.

(** The records after a focus: the record of the form is replaced by the
    touched one, made from a fresh record if the form had none; by the
    pushed one when the lookup of the label throws. *)
Lemma trackFormFieldInteraction_forms (now : Z) (field : Field) (form : Form) (s : State) :
  activeForms (final_state (trackFormFieldInteraction now field (Some form) s)) =
    FormMap.set (form_node form)
      (if labelThrows field then pushed field (recordBefore now form s)
       else touched field (recordBefore now form s))
      (activeForms s).
Proof.
  rewrite trackFormFieldInteraction_cases. cbv zeta.
  assert (P : forall d, activeForms (putRecord form d (started now form s))
                        = FormMap.set (form_node form) d (activeForms s)).
  { intros d. unfold putRecord, started, startTrackingForm.
    destruct (FormMap.has (form_node form) (activeForms s)); [reflexivity|].
    cbn [activeForms set_activeForms sendEvent]. apply set_set. }
  destruct (labelThrows field); [apply P|].
  destruct (fieldBefore field form) as [prev|]; [|apply P].
  destruct (skipped prev); [|apply P].
  destruct (labelThrows prev); apply P.
Qed.

Lemma forms_ok_trackFormFieldInteraction (now : Z) (field : Field) (form : option Form)
  (s : State) :
  forms_ok s -> forms_ok (final_state (trackFormFieldInteraction now field form s)).
Proof.
  intros H. destruct form as [form|]; [|exact H].
  unfold forms_ok, keysOf.
  fold (map_ok (activeForms
                  (final_state (trackFormFieldInteraction now field (Some form) s)))).
  rewrite trackFormFieldInteraction_forms. apply map_ok_set; [exact H|].
  unfold recordBefore.
  destruct (FormMap.get _ _) as [d|] eqn:G.
  - apply get_In in G. destruct H as [_ Hf]. rewrite Forall_forall in Hf.
    destruct (Hf _ G) as (Hs & _ & Hn & Hl).
    destruct (labelThrows field); [now apply pushed_ok|now apply touched_ok].
  - destruct (labelThrows field);
      [apply pushed_ok|apply touched_ok]; try reflexivity; try constructor.
    intros l H'. discriminate.
Qed.

Lemma forms_ok_trackFormFocus (now : Z) (input : Field) (form : option Form) (s : State) :
  forms_ok s -> forms_ok (final_state (trackFormFocus now input form s)).
Proof.
  intros H. unfold trackFormFocus. destruct (negb _); [exact H|].
  pose proof (forms_ok_trackFormFieldInteraction now input form s H) as H1.
  unfold bind.
  destruct (trackFormFieldInteraction now input form s) as [u s'|e s'];
    cbn [final_state] in *; [|exact H1].
  destruct (_ && _)%bool; [|exact H1].
  rewrite getFieldLabel_cases. destruct (labelThrows input); exact H1.
Qed.

Lemma forms_checkFormAbandonment (now : Z) (form : option Form) (reason : string)
  (s : State) :
  activeForms (checkFormAbandonment now form reason s) = activeForms s \/
  exists k, activeForms (checkFormAbandonment now form reason s)
            = FormMap.delete k (activeForms s).
Proof.
  destruct form as [form|]; [|now left]. rewrite checkFormAbandonment_cases.
  destruct (FormMap.get _ _) as [d|]; [|now left]. right. exists (form_node form).
  cbv zeta. destruct (_ && _)%bool; reflexivity.
Qed.

Lemma forms_ok_checkFormAbandonment (now : Z) (form : option Form) (reason : string)
  (s : State) :
  forms_ok s -> forms_ok (checkFormAbandonment now form reason s).
Proof.
  intros H. unfold forms_ok, keysOf.
  destruct (forms_checkFormAbandonment now form reason s) as [E|[k E]]; rewrite E.
  - exact H.
  - now apply map_ok_delete.
Qed.

Lemma forms_ok_forEachForm (guard : Form -> bool) (reason : string) (clock : nat -> Z)
  (dom : nat -> Form) (keys : list nat) (s : State) :
  forms_ok s -> forms_ok (forEachForm guard reason clock dom keys s).
Proof.
  revert s. induction keys as [|k keys IH]; intros s H; [exact H|].
  cbn [forEachForm]. apply IH.
  destruct (FormMap.get k (activeForms s)) as [d|]; [|exact H].
  destruct (_ && _)%bool; [now apply forms_ok_checkFormAbandonment|exact H].
Qed.

Lemma forms_trackClick (now : Z) (ev : ClickEvent) (s : State) :
  activeForms (final_state (trackClick now ev s)) = activeForms s.
Proof.
  destruct (target ev) as [|t] eqn:Ht.
  - unfold trackClick, bind, update, detectRageClick. cbn beta. rewrite Ht. reflexivity.
  - destruct (trackClick_effect now ev t s Ht)
      as (l & _ & _ & _ & _ & _ & _ & _ & _ & Hf & _).
    exact Hf.
Qed.

Lemma forms_trackMouseMove (ev : MouseEvent) (s : State) :
  activeForms (trackMouseMove ev s) = activeForms s.
Proof.
  unfold trackMouseMove. destruct (throttled _ _); [reflexivity|].
  unfold detectMouseThrashing. destruct (len _ <? 10); [reflexivity|].
  destruct (thrash_measure _) as [d c]. destruct (_ && _)%bool; reflexivity.
Qed.

Lemma forms_trackScroll (depth : Z) (s : State) :
  activeForms (trackScroll depth s) = activeForms s.
Proof.
  unfold trackScroll.
  assert (H1 : activeForms (if depth >? maxScrollDepth s
                            then set_maxScrollDepth depth s else s) = activeForms s)
    by (destruct (depth >? maxScrollDepth s); reflexivity).
  revert H1. generalize (if depth >? maxScrollDepth s
                         then set_maxScrollDepth depth s else s).
  intros s1 <-. unfold milestones, milestone_loop.
  repeat match goal with
         | |- context [if ?c then _ else _] => destruct c
         end; reflexivity.
Qed.

Lemma forms_ok_same (s s' : State) :
  activeForms s' = activeForms s -> forms_ok s -> forms_ok s'.
Proof. unfold forms_ok, keysOf. now intros ->. Qed.

Lemma forms_ok_onRemovedNode (clock : nat -> Z) (node : RemovedNode) (s : State) :
  forms_ok s -> forms_ok (onRemovedNode clock node s).
Proof.
  intros H. unfold onRemovedNode. destruct (negb _); [exact H|].
  assert (H1 : forms_ok
                 match node_asForm node with
                 | Some form =>
                     if FormMap.has (form_node form) (activeForms s)
                     then checkFormAbandonment (clock (form_node form)) (Some form)
                            "form_removed" s
                     else s
                 | None => s
                 end).
  { destruct (node_asForm node) as [form|]; [|exact H].
    destruct (FormMap.has _ _); [now apply forms_ok_checkFormAbandonment|exact H]. }
  revert H1. generalize (match node_asForm node with
                         | Some form =>
                             if FormMap.has (form_node form) (activeForms s)
                             then checkFormAbandonment (clock (form_node form))
                                    (Some form) "form_removed" s
                             else s
                         | None => s
                         end).
  induction (node_forms node) as [|form forms IH]; intros s1 H1; [exact H1|].
  cbn [fold_left]. apply IH.
  destruct (FormMap.has _ _); [now apply forms_ok_checkFormAbandonment|exact H1].
Qed.

Lemma forms_ok_run (c : Call) (p : Page) : forms_ok (core p) -> forms_ok (core (run c p)).
Proof.
  intros H. destruct c; cbn [run with_core core].
  - now apply (forms_ok_same (core p)); [apply forms_trackClick|].
  - now apply (forms_ok_same (core p)); [apply forms_trackMouseMove|].
  - now apply (forms_ok_same (core p)); [apply forms_trackScroll|].
  - now apply forms_ok_trackFormFocus.
  - destruct form as [form|]; [|exact H]. unfold trackFormSubmit.
    destruct (FormMap.get _ _) as [d|]; [|exact H].
    unfold forms_ok, keysOf. cbn [activeForms sendEvent set_activeForms].
    rewrite delete_set. now apply map_ok_delete.
  - unfold cancelTimer. destruct (FormMap.has _ _);
      [now apply forms_ok_checkFormAbandonment|exact H].
  - now apply forms_ok_forEachForm.
  - now apply forms_ok_onRemovedNode.
  - unfold reportFormAbandonment. destruct formElement; [|exact H].
    now apply forms_ok_checkFormAbandonment.
  - exact H.
  - unfold trackMouseLeave. destruct (_ <=? 5); exact H.
  - unfold trackPageExit. cbn [core].
    now apply (forms_ok_same (forEachForm (fun _ => true) "page_exit" clock dom
                                (keysOf (core p)) (core p)));
      [reflexivity|apply forms_ok_forEachForm].
  - unfold onPushState, resetPageState. cbn [core].
    split; [constructor|constructor].
Qed.

(** X10.  Through any run of handlers on a page load, no form has two
    records, and every record is unsubmitted and lists at least one field,
    none twice, the last field on record, if any, among them.  So the test on
    [fieldsInteracted] in [checkFormAbandonment] always passes: a check on a
    tracked form sends [form_abandonment] exactly when some field of the
    form holds a value that is not blank at that moment. *)
Theorem live_records_are_well_formed (cs : list Call) (t0 t1 : Z) :
  let s := core (runAll cs (initialPage t0 t1)) in
  NoDup (keysOf s) /\
  (forall k d, FormMap.get k (activeForms s) = Some d -> record_ok d) /\
  (forall now form reason,
     FormMap.has (form_node form) (activeForms s) = true ->
     (countType "form_abandonment"
        (emitted s (checkFormAbandonment now (Some form) reason s)) = 1%nat <->
      exists f, In f (form_inputs form) /\ trim (f_value f) <> "")).
Proof.
  cbv zeta.
  assert (H : forall p, forms_ok (core p) -> forms_ok (core (runAll cs p))).
  { induction cs as [|c cs IH]; intros p Hp; [exact Hp|].
    unfold runAll. cbn [fold_left]. apply IH. now apply forms_ok_run. }
  specialize (H (initialPage t0 t1)).
  destruct H as [Hn Hf]; [split; constructor|].
  set (s := core (runAll cs (initialPage t0 t1))) in *.
  assert (Hrec : forall k d, FormMap.get k (activeForms s) = Some d -> record_ok d).
  { intros k d G. apply get_In in G. rewrite Forall_forall in Hf. now apply (Hf _ G). }
  split; [exact Hn|]. split; [exact Hrec|].
  intros now form reason Hhas. unfold FormMap.has in Hhas.
  destruct (FormMap.get (form_node form) (activeForms s)) as [d|] eqn:G; [|discriminate].
  destruct (Hrec _ _ G) as (Hs & Hne & _).
  rewrite checkFormAbandonment_cases, G. cbv zeta. rewrite Hs. cbn [negb andb].
  rewrite <- filledFields_pos. unfold engaged.
  assert (Hl : (len (fieldsInteracted d) >? 0) = true).
  { apply Z.gtb_lt. destruct (fieldsInteracted d) as [|x l]; [now elim Hne|].
    rewrite len_cons. pose proof (len_nonneg l). lia. }
  rewrite Hl. cbn [andb].
  destruct (filledFields form >? 0).
  - erewrite emitted_grows by (cbn; reflexivity). split; reflexivity.
  - erewrite emitted_grows by (cbn; rewrite app_nil_r; reflexivity).
    split; discriminate.
Qed.

(** A focus on a field whose id holds a double quote: the lookup of the
    label throws after the name was pushed, and the record stays without a
    last field; no [form_interact] is sent. *)
Example record_without_last_field :
  let field := mkField 1 "INPUT" "q" ("a" ++ dquote ++ "b") "text" "" false ""
                 InvalidSelector None in
  let form := mkForm 7 "" "" "" [field] true in
  let out := trackFormFocus 5 field (Some form) initialState in
  out = Thrown (SyntaxError (labelSelector field)) (final_state out) /\
  typesOf (sent (final_state out)) = ["form_start"] /\
  FormMap.get 7 (activeForms (final_state out)) = Some (mkFormData 5 ["q"] None false).
Proof. vm_compute. repeat split. Qed.

(** ** Field values stay on the page *)

Lemma is_filled_masked (f : Field) : is_filled (masked f) = is_filled f.
Proof.
  unfold masked, is_filled at 1. cbn [f_value].
  destruct (is_filled f) eqn:E; [reflexivity|].
  destruct (truthy (f_value f)); reflexivity.
Qed.

Lemma truthy_masked (f : Field) : truthy (f_value (masked f)) = truthy (f_value f).
Proof.
  unfold masked. cbn [f_value]. destruct (is_filled f) eqn:E.
  - unfold is_filled in E. apply andb_prop in E. now rewrite (proj1 E).
  - now destruct (truthy (f_value f)).
Qed.

Lemma filter_is_filled_masked (l : list Field) :
  len (filter is_filled (map masked l)) = len (filter is_filled l).
Proof.
  induction l as [|f l IH]; [reflexivity|]. cbn [map filter].
  rewrite is_filled_masked. destruct (is_filled f); [|exact IH].
  rewrite !len_cons. now rewrite IH.
Qed.

Lemma len_map {A B : Type} (f : A -> B) (l : list A) : len (map f l) = len l.
Proof. unfold len. now rewrite length_map. Qed.

Lemma getFormInfo_masked (form : Form) : getFormInfo (maskedForm form) = getFormInfo form.
Proof.
  unfold getFormInfo, completionRate, filledFields, maskedForm.
  cbn [form_id form_name form_action form_inputs].
  now rewrite filter_is_filled_masked, len_map.
Qed.

Lemma indexOf_masked (node : nat) (l : list Field) (i : Z) :
  indexOf node (map masked l) i = indexOf node l i.
Proof.
  revert i. induction l as [|f l IH]; intros i; [reflexivity|].
  cbn [map indexOf masked f_node]. now rewrite IH.
Qed.

Lemma skipped_masked (f : Field) : skipped (masked f) = skipped f.
Proof. unfold skipped. now rewrite truthy_masked. Qed.

Lemma fieldBefore_masked (field : Field) (form : Form) :
  fieldBefore (masked field) (maskedForm form) = option_map masked (fieldBefore field form).
Proof.
  unfold fieldBefore.
  change (form_inputs (maskedForm form)) with (map masked (form_inputs form)).
  change (f_node (masked field)) with (f_node field).
  rewrite indexOf_masked. destruct (_ >? 0); [|reflexivity].
  apply nth_error_map.
Qed.

Lemma trackFormFieldInteraction_masked (now : Z) (field : Field) (form : Form) (s : State) :
  trackFormFieldInteraction now (masked field) (Some (maskedForm form)) s =
  trackFormFieldInteraction now field (Some form) s.
Proof.
  rewrite !trackFormFieldInteraction_cases. cbv zeta.
  assert (S1 : started now (maskedForm form) s = started now form s).
  { unfold started, startTrackingForm. now rewrite getFormInfo_masked. }
  rewrite S1, fieldBefore_masked.
  change (recordBefore now (maskedForm form) s) with (recordBefore now form s).
  change (labelThrows (masked field)) with (labelThrows field).
  destruct (labelThrows field); [reflexivity|].
  destruct (fieldBefore field form) as [prev|]; [|reflexivity].
  cbn [option_map]. rewrite skipped_masked.
  destruct (skipped prev); [|reflexivity].
  change (labelThrows (masked prev)) with (labelThrows prev).
  destruct (labelThrows prev); [reflexivity|].
  unfold skipData. rewrite getFormInfo_masked. reflexivity.
Qed.

(** X11.  The form events carry no field value.  Replace the value of every
    field by a stand-in that keeps only whether it is empty and whether it
    is blank: a focus, a submit and an abandonment check then give the very
    same state, so the same events with the same payloads. *)
Theorem form_events_carry_no_field_value (now : Z) (input : Field) (form : Form)
  (reason : string) (s : State) :
  trackFormFocus now (masked input) (Some (maskedForm form)) s
    = trackFormFocus now input (Some form) s /\
  trackFormSubmit now (Some (maskedForm form)) s = trackFormSubmit now (Some form) s /\
  checkFormAbandonment now (Some (maskedForm form)) reason s
    = checkFormAbandonment now (Some form) reason s.
Proof.
  split; [|split].
  - unfold trackFormFocus.
    change (f_tagName (masked input)) with (f_tagName input).
    destruct (negb _); [reflexivity|]. unfold bind.
    rewrite trackFormFieldInteraction_masked, getFormInfo_masked. reflexivity.
  - unfold trackFormSubmit. rewrite getFormInfo_masked. reflexivity.
  - unfold checkFormAbandonment, abandonmentData. rewrite getFormInfo_masked.
    change (form_node (maskedForm form)) with (form_node form).
    replace (filledFields (maskedForm form)) with (filledFields form);
      [reflexivity|].
    unfold filledFields, maskedForm. cbn [form_inputs].
    now rewrite filter_is_filled_masked.
Qed.

(** ** Leaving the page *)

Lemma get_delete_other (k k' : nat) (m : FormMap.t) :
  k <> k' -> FormMap.get k (FormMap.delete k' m) = FormMap.get k m.
Proof.
  intros Hne. unfold FormMap.delete. induction m as [|[k0 d0] m IH]; [reflexivity|].
  cbn [filter fst]. destruct (Nat.eqb_spec k' k0) as [<-|Hne']; cbn [negb].
  - cbn [FormMap.get]. destruct (Nat.eqb_spec k k'); [contradiction|exact IH].
  - cbn [FormMap.get]. destruct (Nat.eqb k k0); [reflexivity|exact IH].
Qed.

Lemma delete_absent (k : nat) (m : FormMap.t) :
  ~ In k (map fst m) -> FormMap.delete k m = m.
Proof.
  unfold FormMap.delete. induction m as [|[k0 d0] m IH]; intros H; [reflexivity|].
  cbn [filter fst]. cbn in H. destruct (Nat.eqb_spec k k0) as [<-|Hne]; cbn [negb].
  - elim H. now left.
  - f_equal. apply IH. tauto.
Qed.

(** One step of the loop over the forms, on a live record. *)
Lemma checkFormAbandonment_live (now : Z) (form : Form) (reason : string) (s : State)
  (d : FormData) :
  FormMap.get (form_node form) (activeForms s) = Some d -> record_ok d ->
  let s1 := checkFormAbandonment now (Some form) reason s in
  activeForms s1 = FormMap.delete (form_node form) (activeForms s) /\
  sent s1 = (sent s ++ if filledFields form >? 0
                       then [mkEnvelope "form_abandonment"
                               (abandonmentData now form reason d)
                               (interactionCount s + 1)]
                       else [])%list.
Proof.
  intros G (Hs & Hne & _). cbv zeta. rewrite checkFormAbandonment_cases, G. cbv zeta.
  rewrite Hs. unfold engaged.
  assert (Hl : (len (fieldsInteracted d) >? 0) = true).
  { apply Z.gtb_lt. destruct (fieldsInteracted d) as [|x l]; [now elim Hne|].
    rewrite len_cons. pose proof (len_nonneg l). lia. }
  rewrite Hl. cbn [negb andb].
  destruct (filledFields form >? 0); cbn [activeForms set_activeForms sendEvent sent];
    rewrite ?app_nil_r; split; reflexivity.
Qed.

Lemma reasonOf_abandonment (now : Z) (form : Form) (reason : string) (d : FormData) (n : Z) :
  reasonOf (mkEnvelope "form_abandonment" (abandonmentData now form reason d) n)
    = Some (JStr reason).
Proof. reflexivity. Qed.

Lemma forEachForm_exit (reason : string) (clock : nat -> Z) (dom : nat -> Form)
  (m : FormMap.t) :
  forall s, activeForms s = m -> map_ok m ->
  let s' := forEachForm (fun _ => true) reason clock dom (map fst m) s in
  activeForms s' = [] /\
  exists l, sent s' = (sent s ++ l)%list /\
    map (fun e => (eventType e, eventData e)) l =
      map (fun kd => ("form_abandonment",
                      abandonmentData (clock (fst kd)) (formAt dom (fst kd)) reason (snd kd)))
        (filter (fun kd => filledFields (formAt dom (fst kd)) >? 0) m) /\
    typesOf l = map (fun _ => "form_abandonment")
                  (filter (fun k => filledFields (formAt dom k) >? 0) (map fst m)) /\
    Forall (fun e => reasonOf e = Some (JStr reason)) l /\
    interactionCount s' = interactionCount s + len l /\
    maxScrollDepth s' = maxScrollDepth s /\ clickCount s' = clickCount s /\
    rageClickCount s' = rageClickCount s /\ deadClickCount s' = deadClickCount s.
Proof.
  induction m as [|[k d] m IH]; intros s Hm [Hn Hf]; cbv zeta.
  - cbn. split; [exact Hm|]. exists []. rewrite app_nil_r.
    repeat split; [constructor|unfold len; cbn; lia].
  - cbn [map fst forEachForm]. rewrite Hm. cbn [FormMap.get]. rewrite Nat.eqb_refl.
    inversion Hn as [|? ? Hnot Hn']; subst. inversion Hf as [|? ? Hd Hf']; subst.
    cbn [snd] in Hd. destruct Hd as (Hs & Hrest). rewrite Hs. cbn [negb andb].
    assert (G : FormMap.get (form_node (formAt dom k)) (activeForms s) = Some d).
    { rewrite Hm. cbn. now rewrite Nat.eqb_refl. }
    destruct (checkFormAbandonment_live (clock k) (formAt dom k) reason s d G)
      as [Ha Hl]; [split; assumption|].
    assert (Hc : maxScrollDepth (checkFormAbandonment (clock k) (Some (formAt dom k))
                                   reason s) = maxScrollDepth s /\
                 clickCount (checkFormAbandonment (clock k) (Some (formAt dom k))
                               reason s) = clickCount s /\
                 rageClickCount (checkFormAbandonment (clock k) (Some (formAt dom k))
                                   reason s) = rageClickCount s /\
                 deadClickCount (checkFormAbandonment (clock k) (Some (formAt dom k))
                                   reason s) = deadClickCount s /\
                 interactionCount (checkFormAbandonment (clock k) (Some (formAt dom k))
                                     reason s)
                 = interactionCount s + (if filledFields (formAt dom k) >? 0 then 1 else 0)).
    { destruct Hrest as (Hne & _).
      rewrite checkFormAbandonment_cases, G. cbv zeta. rewrite Hs. unfold engaged.
      assert (Hlen : (len (fieldsInteracted d) >? 0) = true).
      { apply Z.gtb_lt. destruct (fieldsInteracted d) as [|x l0]; [now elim Hne|].
        rewrite len_cons. pose proof (len_nonneg l0). lia. }
      rewrite Hlen. cbn [negb andb].
      destruct (filledFields (formAt dom k) >? 0); cbn; repeat split; lia. }
    set (s1 := checkFormAbandonment (clock k) (Some (formAt dom k)) reason s) in *.
    assert (Hm1 : activeForms s1 = m).
    { rewrite Ha, Hm. cbn [form_node formAt]. unfold FormMap.delete. cbn [filter fst].
      rewrite Nat.eqb_refl. cbn [negb]. now apply delete_absent. }
    destruct (IH s1 Hm1) as (He & l & Hsent & Hev & Ht & Hr & Hi & H1 & H2 & H3 & H4);
      [split; assumption|].
    split; [exact He|].
    destruct Hc as (C1 & C2 & C3 & C4 & C5).
    eexists. split; [rewrite Hsent, Hl, <- app_assoc; reflexivity|].
    cbn [filter fst snd]. destruct (filledFields (formAt dom k) >? 0).
    + cbn [app]. split; [|split; [|split; [|split; [|repeat split; congruence]]]].
      * cbn [map eventType eventData fst snd]. now rewrite Hev.
      * unfold typesOf in *. cbn [map eventType]. now rewrite Ht.
      * constructor; [apply reasonOf_abandonment|exact Hr].
      * rewrite len_cons. lia.
    + cbn [app]. split; [exact Hev|]. split; [exact Ht|]. split; [exact Hr|].
      split; [lia|repeat split; congruence].
Qed.

(** X12.  Leaving the page closes every form.  In any state a page load
    can reach, [trackPageExit] goes through the records in the order of the
    map and, for each form that then holds a value that is not blank, sends
    one [form_abandonment] that reports that form, its record and the
    reason [page_exit]; [pageexit] comes after them, with the counters of
    the page, the interaction counter counting the abandonments just sent;
    no record of a form stays behind. *)
Theorem page_exit_closes_every_form (cs : list Call) (t0 t1 now : Z) (clock : nat -> Z)
  (dom : nat -> Form) :
  let p := runAll cs (initialPage t0 t1) in
  let p' := trackPageExit now clock dom p in
  let new := emitted (core p) (core p') in
  let due := filter (fun kd => filledFields (formAt dom (fst kd)) >? 0)
               (activeForms (core p)) in
  activeForms (core p') = [] /\
  map (fun e => (eventType e, eventData e)) new =
    (map (fun kd => ("form_abandonment",
                     abandonmentData (clock (fst kd)) (formAt dom (fst kd)) "page_exit"
                       (snd kd))) due
     ++ [("pageexit",
          [("timeOnPage", JNum (now - pageEntryTime p));
           ("activeTime",
            JNum (if isVisible p
                  then totalVisibleTime p + (now - lastVisibilityChange p)
                  else totalVisibleTime p));
           ("maxScrollDepth", JNum (maxScrollDepth (core p)));
           ("clickCount", JNum (clickCount (core p)));
           ("interactionCount", JNum (interactionCount (core p) + len due));
           ("rageClickCount", JNum (rageClickCount (core p)));
           ("deadClickCount", JNum (deadClickCount (core p)))])])%list /\
  typesOf new =
    (map (fun _ => "form_abandonment")
       (filter (fun k => filledFields (formAt dom k) >? 0) (keysOf (core p)))
     ++ ["pageexit"])%list /\
  Forall (fun e => eventType e = "form_abandonment" -> reasonOf e = Some (JStr "page_exit"))
    new.
Proof.
  cbv zeta.
  assert (H : forall p, forms_ok (core p) -> forms_ok (core (runAll cs p))).
  { induction cs as [|c cs IH]; intros p Hp; [exact Hp|].
    unfold runAll. cbn [fold_left]. apply IH. now apply forms_ok_run. }
  specialize (H (initialPage t0 t1)).
  assert (Hok : forms_ok (core (runAll cs (initialPage t0 t1))))
    by (apply H; split; constructor).
  clear H. set (p := runAll cs (initialPage t0 t1)) in *.
  destruct (forEachForm_exit "page_exit" clock dom (activeForms (core p)) (core p)
              eq_refl Hok) as (He & l & Hsent & Hev & Ht & Hr & Hi & H1 & H2 & H3 & H4).
  change (map fst (activeForms (core p))) with (keysOf (core p)) in *.
  unfold trackPageExit. cbn [core].
  set (s1 := forEachForm (fun _ => true) "page_exit" clock dom (keysOf (core p)) (core p))
    in *.
  split; [exact He|].
  erewrite emitted_grows
    by (cbn [sent sendEvent]; rewrite Hsent, <- app_assoc; reflexivity).
  assert (Hlen : len l = len (filter (fun kd => filledFields (formAt dom (fst kd)) >? 0)
                                (activeForms (core p)))).
  { unfold len. f_equal. apply (f_equal (@List.length _)) in Hev.
    now rewrite !length_map in Hev. }
  split; [|split].
  - rewrite map_app, Hev. cbn [map eventType eventData].
    rewrite H1, H2, H3, H4, Hi, Hlen. reflexivity.
  - unfold typesOf in *. rewrite map_app, Ht. reflexivity.
  - apply Forall_app. split.
    + eapply Forall_impl; [|exact Hr]. intros e E _. exact E.
    + constructor; [discriminate|constructor].
Qed.

Lemma forEachForm_submitted (reason : string) (clock : nat -> Z) (dom : nat -> Form)
  (keys : list nat) :
  forall s,
  let s' := forEachForm (fun _ => true) reason clock dom keys s in
  (forall k d, In k keys -> FormMap.get k (activeForms s') = Some d -> submitted d = true) /\
  (forall k d, FormMap.get k (activeForms s') = Some d ->
               FormMap.get k (activeForms s) = Some d).
Proof.
  induction keys as [|k keys IH]; intros s; cbv zeta.
  - split; [intros k d []|auto].
  - cbn [forEachForm].
    set (s1 := match FormMap.get k (activeForms s) with
               | Some data =>
                   if ((fun _ : Form => true) (formAt dom k) && negb (submitted data))%bool
                   then checkFormAbandonment (clock k) (Some (formAt dom k)) reason s
                   else s
               | None => s
               end).
    assert (Ha : forall d, FormMap.get k (activeForms s1) = Some d -> submitted d = true).
    { intros d. unfold s1. destruct (FormMap.get k (activeForms s)) as [data|] eqn:G.
      - cbn [andb]. destruct (submitted data) eqn:Hs; cbn [negb].
        + rewrite G. now intros [= <-].
        + destruct (checkFormAbandonment_effect (clock k) (formAt dom k) reason s)
            as (Hgone & _).
          apply FormMapFacts.has_get in Hgone. cbn [form_node formAt] in Hgone.
          rewrite Hgone. discriminate.
      - rewrite G. discriminate. }
    assert (Hb : forall k' d, FormMap.get k' (activeForms s1) = Some d ->
                              FormMap.get k' (activeForms s) = Some d).
    { intros k' d. unfold s1. destruct (FormMap.get k (activeForms s)) as [data|] eqn:G;
        [|auto].
      destruct (_ && _)%bool; [|auto].
      rewrite checkFormAbandonment_cases. cbn [form_node formAt]. rewrite G. cbv zeta.
      assert (E : forall st, activeForms
                   (set_activeForms (FormMap.delete k (activeForms st)) st)
                   = FormMap.delete k (activeForms st)) by reflexivity.
      rewrite E.
      replace (activeForms (if (negb (submitted data) && engaged data (formAt dom k))%bool
                            then sendEvent "form_abandonment"
                                   (abandonmentData (clock k) (formAt dom k) reason data) s
                            else s)) with (activeForms s)
        by (destruct (_ && _)%bool; reflexivity).
      destruct (Nat.eqb_spec k' k) as [->|Hne].
      - rewrite FormMapFacts.get_delete_same. discriminate.
      - now rewrite get_delete_other. }
    destruct (IH s1) as [I1 I2]. split.
    + intros k' d [<-|Hin] Hg; [|now apply (I1 k')].
      apply Ha. now apply I2.
    + intros k' d Hg. apply Hb. now apply I2.
Qed.

Lemma forEachForm_idle (guard : Form -> bool) (reason : string) (clock : nat -> Z)
  (dom : nat -> Form) (keys : list nat) (s : State) :
  (forall k d, FormMap.get k (activeForms s) = Some d -> submitted d = true) ->
  forEachForm guard reason clock dom keys s = s.
Proof.
  intros H. induction keys as [|k keys IH]; [reflexivity|]. cbn [forEachForm].
  destruct (FormMap.get k (activeForms s)) as [d|] eqn:G; [|exact IH].
  rewrite (H _ _ G). cbn [negb]. rewrite andb_false_r. exact IH.
Qed.

Lemma get_keys (k : nat) (d : FormData) (m : FormMap.t) :
  FormMap.get k m = Some d -> In k (map fst m).
Proof. intros G. apply get_In in G. apply in_map_iff. now exists (k, d). Qed.

(** X13.  On a navigation [resetPageState] runs right after [trackPageExit],
    and then its own loop over the forms finds nothing to check: from any
    page state it sends no event, so the reason [page_navigation] is never
    given.  What it leaves: the page counters and buffers are back at their
    start, no form is tracked, and the interaction counter, the last mouse
    position and the pending timers are kept. *)
Theorem navigation_reset_sends_nothing (now t0 t1 : Z) (clock clock' : nat -> Z)
  (dom dom' : nat -> Form) (p : Page) :
  let p1 := trackPageExit now clock dom p in
  let p2 := resetPageState t0 t1 clock' dom' p1 in
  core p2 = mkState 0 0 0 (interactionCount (core p1)) [] []
              (lastMousePosition (core p1)) 0 0 [] (timers (core p1)) (sent (core p1)) /\
  emitted (core p1) (core p2) = [] /\
  pageEntryTime p2 = t0 /\ totalVisibleTime p2 = 0 /\ isVisible p2 = true /\
  lastVisibilityChange p2 = t1.
Proof.
  cbv zeta. unfold resetPageState. cbn [core pageEntryTime totalVisibleTime isVisible
                                          lastVisibilityChange].
  set (s := core (trackPageExit now clock dom p)).
  set (s1 := mkState 0 0 0 (interactionCount s) [] [] (lastMousePosition s) 0 0
               (activeForms s) (timers s) (sent s)).
  assert (Hsub : forall k d, FormMap.get k (activeForms s1) = Some d -> submitted d = true).
  { intros k d G. cbn [s1 activeForms] in G. unfold s, trackPageExit in G.
    cbn [core activeForms sendEvent] in G.
    destruct (forEachForm_submitted "page_exit" clock dom (keysOf (core p)) (core p))
      as [I1 I2].
    apply (I1 k d); [|exact G]. apply I2 in G. unfold keysOf. now apply get_keys in G. }
  rewrite (forEachForm_idle _ _ _ _ _ _ Hsub).
  split; [reflexivity|]. split; [|repeat split].
  unfold emitted. cbn [sent set_activeForms s1]. apply skipn_all.
Qed.

(** ** Submitting a form *)

(** X14.  [trackFormSubmit] sends exactly one [form_submit], tracked form or
    not, and leaves no record for the form, so that no later trigger, at any
    time, finds anything to check: a submitted form is never reported
    abandoned.  For a tracked form the event gives the number of fields
    interacted with and the time since the first focus. *)
Theorem submitted_form_is_never_abandoned (now : Z) (form : Form) (s : State) :
  let s1 := trackFormSubmit now (Some form) s in
  FormMap.has (form_node form) (activeForms s1) = false /\
  (exists e, emitted s s1 = [e] /\ eventType e = "form_submit" /\
     match FormMap.get (form_node form) (activeForms s) with
     | Some d =>
         obj_get "fieldsInteracted" (eventData e) = Some (JNum (len (fieldsInteracted d))) /\
         obj_get "timeToComplete" (eventData e) = Some (JNum (now - startTime d))
     | None =>
         obj_get "fieldsInteracted" (eventData e) = None /\
         obj_get "timeToComplete" (eventData e) = None
     end) /\
  (forall tr now' form', form_node form' = form_node form -> fire tr now' form' s1 = s1).
Proof.
  cbv zeta.
  assert (Hgone : FormMap.has (form_node form)
                    (activeForms (trackFormSubmit now (Some form) s)) = false).
  { unfold trackFormSubmit, FormMap.has.
    destruct (FormMap.get (form_node form) (activeForms s)) as [d|] eqn:G.
    - cbn [activeForms sendEvent set_activeForms].
      now rewrite FormMapFacts.get_delete_same.
    - cbn [activeForms sendEvent]. now rewrite G. }
  split; [exact Hgone|]. split.
  - unfold trackFormSubmit.
    destruct (FormMap.get (form_node form) (activeForms s)) as [d|] eqn:G.
    + eexists. split; [apply emitted_grows; cbn; reflexivity|].
      split; [reflexivity|]. split; reflexivity.
    + eexists. split; [apply emitted_grows; cbn; reflexivity|].
      split; [reflexivity|]. split; reflexivity.
  - intros tr now' form' Hn. apply fire_gone. now rewrite Hn.
Qed.

(** ** A run of focus events *)

Lemma trackFormFieldInteraction_log (now : Z) (field : Field) (form : Form) (s : State) :
  let out := trackFormFieldInteraction now field (Some form) s in
  (if focusThrows field form then exists e, out = Thrown e (final_state out)
   else out = Returned tt (final_state out)) /\
  exists l,
    sent (final_state out) = (sent s ++ l)%list /\
    countType "form_start" l =
      (if FormMap.has (form_node form) (activeForms s) then 0 else 1)%nat /\
    countType "form_interact" l = 0%nat.
Proof.
  cbv zeta. rewrite trackFormFieldInteraction_cases. cbv zeta.
  unfold focusThrows, started, startTrackingForm, putRecord.
  destruct (FormMap.has (form_node form) (activeForms s));
    (destruct (labelThrows field);
     [|destruct (fieldBefore field form) as [prev|];
       [destruct (skipped prev); [destruct (labelThrows prev)|]|]]);
    cbn [final_state andb orb];
    (split; [first [reflexivity | eexists; reflexivity]|]);
    first [ eexists; split;
            [cbn [sent sendEvent set_activeForms]; rewrite <- ?app_assoc; reflexivity
            |split; reflexivity]
          | exists []; split;
            [cbn [sent sendEvent set_activeForms]; rewrite ?app_nil_r; reflexivity
            |split; reflexivity] ].
Qed.

(** A type of the password kind is on the list, so the second test of
    [trackFormFocus] never decides. *)
Lemma password_is_sensitive (input : Field) :
  isSensitive input = false -> String.eqb (f_type input) "password" = false.
Proof.
  unfold isSensitive, sensitiveTypes, mem. cbn [existsb].
  destruct (String.eqb (f_type input) "password"); [discriminate|reflexivity].
Qed.

Lemma focusThrows_label (field : Field) (form : Form) :
  focusThrows field form = false -> labelThrows field = false.
Proof. unfold focusThrows. now destruct (labelThrows field). Qed.

Lemma trackFormFocus_step (now : Z) (input : Field) (form : Form) (s : State) :
  isControl input = true ->
  let s' := final_state (trackFormFocus now input (Some form) s) in
  activeForms s'
    = activeForms (final_state (trackFormFieldInteraction now input (Some form) s)) /\
  exists l,
    sent s' = (sent s ++ l)%list /\
    countType "form_start" l =
      (if FormMap.has (form_node form) (activeForms s) then 0 else 1)%nat /\
    countType "form_interact" l =
      (if (negb (isSensitive input) && negb (focusThrows input form))%bool
       then 1 else 0)%nat.
Proof.
  intros Hc. cbv zeta. unfold trackFormFocus. unfold isControl in Hc. rewrite Hc.
  cbn [negb]. unfold bind.
  destruct (trackFormFieldInteraction_log now input form s) as (Hout & l & Hl & H1 & H2).
  destruct (focusThrows input form) eqn:Ht.
  - destruct Hout as [e Hout]. rewrite Hout. cbn [final_state].
    split; [reflexivity|]. exists l. rewrite andb_false_r. auto.
  - rewrite Hout. cbn [final_state].
    destruct (isSensitive input) eqn:Hs; cbn [negb andb].
    + split; [reflexivity|]. exists l. auto.
    + rewrite (password_is_sensitive _ Hs). cbn [negb].
      rewrite getFieldLabel_cases, (focusThrows_label _ _ Ht).
      unfold update. cbn [final_state].
      split; [reflexivity|]. eexists.
      split; [cbn [sent sendEvent]; rewrite Hl, <- app_assoc; reflexivity|].
      rewrite !countType_app, H1, H2. split; [cbn; lia|reflexivity].
Qed.

Lemma focusAll_tracked (form : Form) (evs : list (Z * Field)) :
  Forall (fun x => isControl (snd x) = true) evs ->
  forall s d, FormMap.get (form_node form) (activeForms s) = Some d ->
  FormMap.get (form_node form) (activeForms (focusAll form evs s))
    = Some (fold_left (fun d x => if labelThrows (snd x) then pushed (snd x) d
                                  else touched (snd x) d) evs d) /\
  exists l,
    sent (focusAll form evs s) = (sent s ++ l)%list /\
    countType "form_start" l = 0%nat /\
    countType "form_interact" l
      = List.length (filter (fun x => (negb (isSensitive (snd x))
                                       && negb (focusThrows (snd x) form))%bool) evs).
Proof.
  induction 1 as [|[now f] evs Hc _ IH]; intros s d G.
  - cbn. split; [exact G|]. exists []. now rewrite app_nil_r.
  - unfold focusAll. cbn [fold_left fst snd].
    fold (focusAll form evs (final_state (trackFormFocus now f (Some form) s))).
    destruct (trackFormFocus_step now f form s Hc) as (Ha & l & Hl & H1 & H2).
    rewrite trackFormFieldInteraction_forms in Ha. unfold recordBefore in Ha.
    rewrite G in Ha.
    unfold FormMap.has in H1. rewrite G in H1. cbn [is_some] in H1.
    destruct (IH (final_state (trackFormFocus now f (Some form) s))
                (if labelThrows f then pushed f d else touched f d))
      as (Hg & l' & Hl' & H1' & H2').
    { rewrite Ha. apply FormMapFacts.get_set_same. }
    split; [exact Hg|]. exists (l ++ l')%list.
    split; [rewrite Hl', Hl, <- app_assoc; reflexivity|].
    rewrite !countType_app, H1, H1', H2, H2'. split; [reflexivity|].
    cbn [filter snd]. destruct (_ && _)%bool; reflexivity.
Qed.

Lemma fold_touched (evs : list (Z * Field)) :
  forall d,
  let d' := fold_left (fun d x => if labelThrows (snd x) then pushed (snd x) d
                                  else touched (snd x) d) evs d in
  startTime d' = startTime d /\
  (forall n, In n (fieldsInteracted d') <->
             In n (fieldsInteracted d) \/ In n (map (fun x => fieldName (snd x)) evs)).
Proof.
  induction evs as [|[now f] evs IH]; intros d; cbv zeta.
  - cbn. split; [reflexivity|]. intros n. tauto.
  - cbn [fold_left map snd].
    destruct (IH (if labelThrows f then pushed f d else touched f d)) as [I1 I2].
    split; [rewrite I1; destruct (labelThrows f); reflexivity|].
    intros n. rewrite I2.
    assert (T : In n (fieldsInteracted (if labelThrows f then pushed f d
                                        else touched f d)) <->
                In n (fieldsInteracted d) \/ fieldName f = n).
    { assert (E0 : fieldsInteracted (if labelThrows f then pushed f d else touched f d)
                   = if mem (fieldName f) (fieldsInteracted d) then fieldsInteracted d
                     else (fieldsInteracted d ++ [fieldName f])%list)
        by (destruct (labelThrows f); reflexivity).
      rewrite E0.
      destruct (mem (fieldName f) (fieldsInteracted d)) eqn:E.
      - apply mem_In in E. split; [tauto|]. intros [H|<-]; assumption.
      - rewrite in_app_iff. cbn [In]. tauto. }
    rewrite T. cbn [In]. tauto.
Qed.

(** X15.  A run of focus events on the controls of a form that has no
    record sends [form_start] exactly once, at the first of them, and one
    [form_interact] for each focus on a field that is not sensitive and
    during which no lookup of a label throws.  The record it leaves dates
    from the first focus and lists exactly the names of the fields focused,
    whether a lookup threw or not. *)
Theorem one_form_start_per_lifecycle (form : Form) (now : Z) (first : Field)
  (evs : list (Z * Field)) (s : State) :
  Forall (fun x => isControl (snd x) = true) ((now, first) :: evs) ->
  FormMap.has (form_node form) (activeForms s) = false ->
  let s' := focusAll form ((now, first) :: evs) s in
  countType "form_start" (emitted s s') = 1%nat /\
  countType "form_start"
    (emitted s (final_state (trackFormFocus now first (Some form) s))) = 1%nat /\
  countType "form_interact" (emitted s s')
    = List.length (filter (fun x => (negb (isSensitive (snd x))
                                     && negb (focusThrows (snd x) form))%bool)
                     ((now, first) :: evs)) /\
  exists d, FormMap.get (form_node form) (activeForms s') = Some d /\
    startTime d = now /\
    (forall n, In n (fieldsInteracted d) <->
               In n (map (fun x => fieldName (snd x)) ((now, first) :: evs))).
Proof.
  intros Hall Hnone. cbv zeta. inversion Hall as [|? ? Hc Hrest]; subst. cbn [snd] in Hc.
  unfold focusAll. cbn [fold_left fst snd].
  fold (focusAll form evs (final_state (trackFormFocus now first (Some form) s))).
  destruct (trackFormFocus_step now first form s Hc) as (Ha & l & Hl & H1 & H2).
  rewrite Hnone in H1. rewrite trackFormFieldInteraction_forms in Ha.
  unfold recordBefore in Ha. unfold FormMap.has in Hnone.
  destruct (FormMap.get (form_node form) (activeForms s)) eqn:G; [discriminate|].
  destruct (focusAll_tracked form evs Hrest
              (final_state (trackFormFocus now first (Some form) s))
              (if labelThrows first then pushed first (mkFormData now [] None false)
               else touched first (mkFormData now [] None false)))
    as (Hg & l' & Hl' & H1' & H2').
  { rewrite Ha. apply FormMapFacts.get_set_same. }
  rewrite (emitted_grows _ _ (l ++ l')%list)
    by (rewrite Hl', Hl, <- app_assoc; reflexivity).
  rewrite (emitted_grows _ _ l) by exact Hl.
  rewrite !countType_app, H1, H1', H2, H2'.
  split; [reflexivity|]. split; [reflexivity|]. split.
  - cbn [filter snd]. destruct (_ && _)%bool; reflexivity.
  - eexists. split; [exact Hg|].
    destruct (fold_touched evs
                (if labelThrows first then pushed first (mkFormData now [] None false)
                 else touched first (mkFormData now [] None false)))
      as [I1 I2].
    split; [rewrite I1; destruct (labelThrows first); reflexivity|].
    intros n. rewrite I2. cbn [map snd In].
    destruct (labelThrows first); unfold pushed, touched; cbn; tauto.
Qed.

(** X15 on the login form: email, password, email again. *)
Lemma one_form_start_per_lifecycle_witness :
  let s' := focusAll loginForm [(10, emailField); (20, passwordField); (30, emailField)]
              initialState in
  countType "form_start" (emitted initialState s') = 1%nat /\
  countType "form_interact" (emitted initialState s') = 2%nat.
Proof.
  cbv zeta.
  destruct (one_form_start_per_lifecycle loginForm 10 emailField
              [(20, passwordField); (30, emailField)] initialState) as (H1 & _ & H2 & _).
  - repeat constructor.
  - reflexivity.
  - split; [exact H1|exact H2].
Defined.
(** ** Forms removed from the document *)

(** One step of the observer's loops: the guard makes it a plain removal of
    the record, with at most one event. *)
Lemma observer_step (now : Z) (form : Form) (reason : string) (s : State) :
  let s1 := if FormMap.has (form_node form) (activeForms s)
            then checkFormAbandonment now (Some form) reason s else s in
  activeForms s1 = FormMap.delete (form_node form) (activeForms s) /\
  exists l, sent s1 = (sent s ++ l)%list /\ (List.length l <= 1)%nat /\
    Forall (fun e => eventType e = "form_abandonment" /\ reasonOf e = Some (JStr reason)) l.
Proof.
  cbv zeta. destruct (FormMap.has (form_node form) (activeForms s)) eqn:Hhas.
  - rewrite checkFormAbandonment_cases. unfold FormMap.has in Hhas.
    destruct (FormMap.get (form_node form) (activeForms s)) as [d|]; [|discriminate].
    cbv zeta. destruct (_ && _)%bool; cbn [activeForms set_activeForms sendEvent sent].
    + split; [reflexivity|]. eexists. split; [reflexivity|]. split; [cbn; lia|].
      constructor; [split; reflexivity|constructor].
    + split; [reflexivity|]. exists []. rewrite app_nil_r.
      split; [reflexivity|]. split; [cbn; lia|constructor].
  - split.
    + symmetry. apply delete_absent. intros Hin. apply has_keys in Hin. congruence.
    + exists []. rewrite app_nil_r. split; [reflexivity|]. split; [cbn; lia|constructor].
Qed.

Lemma observer_loop (clock : nat -> Z) (reason : string) (forms : list Form) :
  forall s,
  let s' := fold_left (fun st form =>
                         if FormMap.has (form_node form) (activeForms st)
                         then checkFormAbandonment (clock (form_node form)) (Some form)
                                reason st
                         else st) forms s in
  activeForms s' = fold_left (fun m form => FormMap.delete (form_node form) m) forms
                     (activeForms s) /\
  exists l, sent s' = (sent s ++ l)%list /\ (List.length l <= List.length forms)%nat /\
    Forall (fun e => eventType e = "form_abandonment" /\ reasonOf e = Some (JStr reason)) l.
Proof.
  induction forms as [|form forms IH]; intros s; cbv zeta.
  - cbn. split; [reflexivity|]. exists []. rewrite app_nil_r. repeat split; constructor.
  - cbn [fold_left].
    destruct (observer_step (clock (form_node form)) form reason s)
      as (Ha & l & Hl & Hn & Hr).
    cbv zeta in Ha, Hl.
    set (s1 := if FormMap.has (form_node form) (activeForms s)
               then checkFormAbandonment (clock (form_node form)) (Some form) reason s
               else s) in *.
    destruct (IH s1) as (Ha' & l' & Hl' & Hn' & Hr'). cbv zeta in Ha', Hl'.
    split; [rewrite Ha', Ha; reflexivity|].
    exists (l ++ l')%list. split; [rewrite Hl', Hl, <- app_assoc; reflexivity|].
    split; [rewrite length_app; cbn [List.length]; lia|].
    apply Forall_app. split; assumption.
Qed.

Lemma get_fold_delete (k : nat) (forms : list Form) :
  forall m,
  FormMap.get k (fold_left (fun m form => FormMap.delete (form_node form) m) forms m)
    = if existsb (fun form => Nat.eqb (form_node form) k) forms then None
      else FormMap.get k m.
Proof.
  induction forms as [|form forms IH]; intros m; [reflexivity|].
  cbn [fold_left existsb]. rewrite IH.
  destruct (existsb _ forms); [now rewrite orb_true_r|]. rewrite orb_false_r.
  destruct (Nat.eqb_spec (form_node form) k) as [->|Hne].
  - apply FormMapFacts.get_delete_same.
  - apply get_delete_other. congruence.
Qed.

(** X16.  When a node is removed from the document, the observer leaves no
    record for any form of the removed subtree and touches no other record.
    It sends at most one [form_abandonment] for the node itself, with the
    reason [form_removed], and then at most one for each form inside it,
    with the reason [container_removed]; nothing else.  A node that is not
    an element changes nothing. *)
Theorem removed_subtree_leaves_no_record (clock : nat -> Z) (node : RemovedNode)
  (s : State) :
  let s' := onRemovedNode clock node s in
  if nodeType node =? 1 then
    (forall k, FormMap.get k (activeForms s') =
               if existsb (fun form => Nat.eqb (form_node form) k) (formsOf node)
               then None else FormMap.get k (activeForms s)) /\
    exists l1 l2,
      sent s' = (sent s ++ l1 ++ l2)%list /\
      (List.length l1 <= List.length (formsOf node) - List.length (node_forms node))%nat /\
      (List.length l2 <= List.length (node_forms node))%nat /\
      Forall (fun e => eventType e = "form_abandonment" /\
                       reasonOf e = Some (JStr "form_removed")) l1 /\
      Forall (fun e => eventType e = "form_abandonment" /\
                       reasonOf e = Some (JStr "container_removed")) l2
  else s' = s.
Proof.
  cbv zeta. unfold onRemovedNode, formsOf.
  destruct (nodeType node =? 1); cbn [negb]; [|reflexivity].
  set (s1 := match node_asForm node with
             | Some form =>
                 if FormMap.has (form_node form) (activeForms s)
                 then checkFormAbandonment (clock (form_node form)) (Some form)
                        "form_removed" s
                 else s
             | None => s
             end).
  destruct (observer_loop clock "container_removed" (node_forms node) s1)
    as (Ha & l2 & Hl2 & Hn2 & Hr2).
  cbv zeta in Ha, Hl2.
  assert (H1 : activeForms s1 =
               fold_left (fun m form => FormMap.delete (form_node form) m)
                 match node_asForm node with Some form => [form] | None => [] end
                 (activeForms s) /\
               exists l1, sent s1 = (sent s ++ l1)%list /\
                 (List.length l1 <=
                  List.length match node_asForm node with
                              | Some form => [form] | None => [] end)%nat /\
                 Forall (fun e => eventType e = "form_abandonment" /\
                                  reasonOf e = Some (JStr "form_removed")) l1).
  { unfold s1. destruct (node_asForm node) as [form|].
    - destruct (observer_step (clock (form_node form)) form "form_removed" s)
        as (Ha1 & l & Hl & Hn & Hr).
      split; [exact Ha1|]. exists l. auto.
    - split; [reflexivity|]. exists []. rewrite app_nil_r. repeat split; constructor. }
  destruct H1 as (Ha1 & l1 & Hl1 & Hn1 & Hr1).
  split.
  - intros k. rewrite Ha, Ha1, <- fold_left_app. apply get_fold_delete.
  - exists l1, l2. split; [rewrite Hl2, Hl1, <- app_assoc; reflexivity|].
    split; [rewrite length_app; lia|]. auto.
Qed.

(** ** The loader of the capture library *)

Lemma runLoader_invariant (cs : list LoaderCall) :
  forall (l : Loader),
  (html2canvasLoaded l = true -> pendingScreenshotCallbacks l = []) ->
  (pendingScreenshotCallbacks l <> [] -> html2canvasLoading l = true) ->
  let '(l', effects) := runLoader cs l in
  (called effects ++ pendingScreenshotCallbacks l')%list
    = (pendingScreenshotCallbacks l ++ requested cs)%list /\
  (html2canvasLoaded l' = true -> pendingScreenshotCallbacks l' = []) /\
  (pendingScreenshotCallbacks l' <> [] -> html2canvasLoading l' = true) /\
  (appended effects + (if (html2canvasLoaded l' || html2canvasLoading l')%bool
                       then 0 else 1)
   <= failures cs + (if (html2canvasLoaded l || html2canvasLoading l)%bool
                     then 0 else 1))%nat.
Proof.
  assert (Z0 : forall err xs, List.length
                 (filter (fun e => match e with ScriptAppended => true | _ => false end)
                    (map (fun cb => Called cb err) xs)) = 0%nat)
    by (induction xs; auto).
  assert (C0 : forall err xs, called (map (fun cb => Called cb err) xs) = xs)
    by (induction xs as [|x xs IHx]; [reflexivity|cbn; f_equal; exact IHx]).
  induction cs as [|c cs IH]; intros [ld lg pend] H1 H2;
    cbn [html2canvasLoaded html2canvasLoading pendingScreenshotCallbacks] in *.
  - cbn. rewrite app_nil_r. repeat split; auto.
  - cbn [runLoader]. destruct c; cbn [stepLoader].
    + unfold loadHtml2Canvas.
      cbn [html2canvasLoaded html2canvasLoading pendingScreenshotCallbacks].
      destruct ld.
      * specialize (IH (mkLoader true lg pend) H1 H2).
        destruct (runLoader cs (mkLoader true lg pend)) as [l2 effects'].
        cbn [html2canvasLoaded html2canvasLoading pendingScreenshotCallbacks] in IH.
        destruct IH as (I1 & I2 & I3 & I4). rewrite (H1 eq_refl) in *.
        cbn [app orb] in *.
        split; [unfold called, requested in *; cbn [flat_map app]; f_equal; exact I1|].
        split; [exact I2|]. split; [exact I3|exact I4].
      * destruct lg.
        -- specialize (IH (mkLoader false true (pend ++ [callback])%list)).
           destruct (runLoader cs _) as [l2 effects'].
           cbn [html2canvasLoaded html2canvasLoading pendingScreenshotCallbacks] in IH.
           destruct IH as (I1 & I2 & I3 & I4); [discriminate|reflexivity|].
           cbn [app orb] in *.
           split; [unfold called, requested in *; cbn [flat_map app];
                   rewrite I1, <- app_assoc; reflexivity|].
           split; [exact I2|]. split; [exact I3|exact I4].
        -- specialize (IH (mkLoader false true (pend ++ [callback])%list)).
           destruct (runLoader cs _) as [l2 effects'].
           cbn [html2canvasLoaded html2canvasLoading pendingScreenshotCallbacks] in IH.
           destruct IH as (I1 & I2 & I3 & I4); [discriminate|reflexivity|].
           cbn [app orb] in *.
           split; [unfold called, requested in *; cbn [flat_map app];
                   rewrite I1, <- app_assoc; reflexivity|].
           split; [exact I2|]. split; [exact I3|].
           unfold appended, failures in *. cbn [filter List.length] in *. lia.
    + unfold onload.
      cbn [html2canvasLoaded html2canvasLoading pendingScreenshotCallbacks].
      specialize (IH (mkLoader true false [])).
      destruct (runLoader cs _) as [l2 effects'].
      cbn [html2canvasLoaded html2canvasLoading pendingScreenshotCallbacks] in IH.
      destruct IH as (I1 & I2 & I3 & I4); [reflexivity|congruence|].
      cbn [app orb] in *.
      split.
      { unfold called in *. rewrite flat_map_app, <- app_assoc, I1.
        cbn [requested flat_map app]. f_equal. apply C0. }
      split; [exact I2|]. split; [exact I3|].
      unfold appended, failures in *. rewrite filter_app, length_app, Z0.
      cbn [filter] in *. destruct (ld || lg)%bool; lia.
    + unfold onerror.
      cbn [html2canvasLoaded html2canvasLoading pendingScreenshotCallbacks].
      specialize (IH (mkLoader ld false [])).
      destruct (runLoader cs _) as [l2 effects'].
      cbn [html2canvasLoaded html2canvasLoading pendingScreenshotCallbacks] in IH.
      destruct IH as (I1 & I2 & I3 & I4); [reflexivity|congruence|].
      cbn [app] in *.
      split.
      { unfold called in *. rewrite flat_map_app, <- app_assoc, I1.
        cbn [requested flat_map app]. f_equal. apply C0. }
      split; [exact I2|]. split; [exact I3|].
      unfold appended, failures in *. rewrite filter_app, length_app, Z0.
      cbn [filter List.length] in *. rewrite orb_false_r in I4.
      destruct ld; cbn [orb] in *; [|destruct lg]; lia.
Qed.

(** X17.  Whatever the order of requests, loads and failures, the loader
    calls the callbacks in the order they were asked for, each at most once,
    and the ones not yet called are the ones it holds as pending.  A pending
    callback always has a script on its way; once the library is loaded
    nothing is pending; and a script element is appended only for the first
    request and for the first request after each failure. *)
Theorem loader_calls_each_callback_once (cs : list LoaderCall) :
  let '(l, effects) := runLoader cs initialLoader in
  (called effects ++ pendingScreenshotCallbacks l)%list = requested cs /\
  (html2canvasLoaded l = true -> pendingScreenshotCallbacks l = []) /\
  (pendingScreenshotCallbacks l <> [] -> html2canvasLoading l = true) /\
  (appended effects <= 1 + failures cs)%nat.
Proof.
  pose proof (runLoader_invariant cs initialLoader) as H.
  destruct (runLoader cs initialLoader) as [l effects].
  destruct H as (H1 & H2 & H3 & H4); [discriminate|intros X; now elim X|].
  cbn in H1, H4. repeat split; auto. lia.
Qed.

(** ** Hiding and restoring for a capture *)

Lemma hideEach_spec (els : list nat) :
  forall (doc0 doc : Visibility) (hiddenElements : list (nat * string)),
  (forall item, In item hiddenElements -> snd item = doc0 (fst item)) ->
  (forall e, In e (map fst hiddenElements) \/ doc e = doc0 e) ->
  (forall e, In e (map fst hiddenElements) -> doc e = "hidden") ->
  let r := hideEach els doc hiddenElements in
  (forall item, In item (snd r) -> snd item = doc0 (fst item)) /\
  (forall e, In e (map fst (snd r)) \/ fst r e = doc0 e) /\
  (forall e, In e (map fst (snd r)) -> fst r e = "hidden") /\
  (forall e, In e els -> fst r e = "hidden") /\
  (forall e, doc e = "hidden" -> fst r e = "hidden") /\
  (forall e, fst r e = "hidden" \/ fst r e = doc e).
Proof.
  induction els as [|el els IH]; intros doc0 doc h H1 H2 H3; cbv zeta.
  - cbn. repeat split; auto. intros e [].
  - cbn [hideEach]. destruct (String.eqb_spec (doc el) "hidden") as [E|E]; cbn [negb].
    + destruct (IH doc0 doc h H1 H2 H3) as (I1 & I2 & I3 & I4 & I5 & I6).
      repeat split; auto. intros e [<-|Hin]; auto.
    + assert (Hnot : ~ In el (map fst h)) by (intros Hin; apply E; now apply H3).
      destruct (IH doc0 (setVisibility el "hidden" doc) (h ++ [(el, doc el)])%list)
        as (I1 & I2 & I3 & I4 & I5 & I6).
      * intros item Hin. apply in_app_or in Hin. destruct Hin as [Hin|[<-|[]]]; auto.
        cbn. destruct (H2 el) as [Hin|Heq]; [contradiction|exact Heq].
      * intros e. rewrite map_app, in_app_iff. cbn [map fst In]. unfold setVisibility.
        destruct (Nat.eqb_spec e el) as [->|Hne]; [tauto|].
        destruct (H2 e); tauto.
      * intros e. rewrite map_app, in_app_iff. cbn [map fst In]. unfold setVisibility.
        destruct (Nat.eqb_spec e el) as [->|Hne]; [reflexivity|].
        intros [Hin|[<-|[]]]; [now apply H3|contradiction].
      * repeat split; auto.
        -- intros e [<-|Hin]; [|now apply I4].
           apply I5. unfold setVisibility. now rewrite Nat.eqb_refl.
        -- intros e He. apply I5. unfold setVisibility.
           destruct (Nat.eqb e el); [reflexivity|exact He].
        -- intros e. destruct (I6 e) as [Hh|Hs]; [now left|].
           rewrite Hs. unfold setVisibility. destruct (Nat.eqb e el); auto.
Qed.

Lemma hideSensitive_spec (found : list (list nat)) :
  forall (doc0 doc : Visibility) (hiddenElements : list (nat * string)),
  (forall item, In item hiddenElements -> snd item = doc0 (fst item)) ->
  (forall e, In e (map fst hiddenElements) \/ doc e = doc0 e) ->
  (forall e, In e (map fst hiddenElements) -> doc e = "hidden") ->
  let r := hideSensitive found doc hiddenElements in
  (forall item, In item (snd r) -> snd item = doc0 (fst item)) /\
  (forall e, In e (map fst (snd r)) \/ fst r e = doc0 e) /\
  (forall e, In e (List.concat found) -> fst r e = "hidden") /\
  (forall e, doc e = "hidden" -> fst r e = "hidden") /\
  (forall e, fst r e = "hidden" \/ fst r e = doc e).
Proof.
  induction found as [|els found IH]; intros doc0 doc h H1 H2 H3; cbv zeta.
  - cbn. repeat split; auto. intros e [].
  - cbn [hideSensitive List.concat].
    destruct (hideEach_spec els doc0 doc h H1 H2 H3) as (E1 & E2 & E3 & E4 & E5 & E6).
    destruct (hideEach els doc h) as [doc' h']. cbn [fst snd] in *.
    destruct (IH doc0 doc' h' E1 E2 E3) as (I1 & I2 & I3 & I4 & I5).
    repeat split; auto.
    + intros e Hin. apply in_app_or in Hin. destruct Hin as [Hin|Hin]; auto.
    + intros e. destruct (I5 e) as [Hh|Hs]; [now left|]. rewrite Hs. apply E6.
Qed.

Lemma restoreHidden_spec (hiddenElements : list (nat * string)) :
  forall (doc0 doc : Visibility),
  (forall item, In item hiddenElements -> snd item = doc0 (fst item)) ->
  (forall e, In e (map fst hiddenElements) \/ doc e = doc0 e) ->
  forall e, restoreHidden hiddenElements doc e = doc0 e.
Proof.
  unfold restoreHidden.
  induction hiddenElements as [|[el v] h IH]; intros doc0 doc H1 H2 e.
  - cbn. destruct (H2 e) as [[]|Heq]. exact Heq.
  - cbn [fold_left fst snd]. apply IH.
    + intros item Hin. apply H1. now right.
    + intros e'. unfold setVisibility. destruct (Nat.eqb_spec e' el) as [->|Hne].
      * right. apply (H1 (el, v)). now left.
      * destruct (H2 e') as [[Heq|Hin]|Heq]; auto. cbn in Heq. congruence.
Qed.

(** X18.  For a capture every element that one of the sensitive selectors
    finds is hidden, and no other element changes; restoring afterwards
    gives every element of the document the visibility it had before, also
    one found by several selectors or hidden already. *)
Theorem capture_hides_then_restores (found : list (list nat)) (doc : Visibility) :
  let r := hideSensitive found doc [] in
  (forall e, In e (List.concat found) -> fst r e = "hidden") /\
  (forall e, ~ In e (List.concat found) -> fst r e = doc e) /\
  (forall e, restoreHidden (snd r) (fst r) e = doc e).
Proof.
  cbv zeta.
  destruct (hideSensitive_spec found doc doc []) as (I1 & I2 & I3 & I4 & I5);
    [intros item []|now right|intros e []|].
  split; [exact I3|]. split.
  - intros e Hnot.
    assert (G : forall (fnd : list (list nat)) (d : Visibility) (h : list (nat * string)),
                ~ In e (List.concat fnd) -> fst (hideSensitive fnd d h) e = d e).
    { clear. induction fnd as [|els fnd IH]; intros d h Hnot; [reflexivity|].
      cbn [hideSensitive List.concat] in *.
      assert (Hels : ~ In e els) by (intros Hin; apply Hnot; apply in_or_app; now left).
      assert (Hfnd : ~ In e (List.concat fnd))
        by (intros Hin; apply Hnot; apply in_or_app; now right).
      assert (E : forall (l : list nat) (d' : Visibility) (h' : list (nat * string)),
                  ~ In e l -> fst (hideEach l d' h') e = d' e).
      { clear - e. induction l as [|el l IHl]; intros d' h' Hn; [reflexivity|].
        cbn [hideEach]. destruct (negb _).
        - rewrite IHl by (intros Hin; apply Hn; now right).
          unfold setVisibility. destruct (Nat.eqb_spec e el) as [->|]; [|reflexivity].
          elim Hn. now left.
        - apply IHl. intros Hin. apply Hn. now right. }
      specialize (E els d h Hels).
      destruct (hideEach els d h) as [d' h']. cbn [fst] in E.
      rewrite IH by exact Hfnd. exact E. }
    now apply G.
  - apply restoreHidden_spec; assumption.
Qed.

(** ** Time on the page *)

Lemma time_ok_run (c : Call) (t : Z) (cs : list Call) (p : Page) :
  time_ok p -> lastVisibilityChange p <= t -> timed t (c :: cs) ->
  exists t', time_ok (run c p) /\ lastVisibilityChange (run c p) <= t' /\
             timed t' cs /\ lastReading t (c :: cs) = lastReading t' cs.
Proof.
  intros (H1 & H2 & H3) Ht Hc.
  destruct c; cbn [timed lastReading] in *;
    try (exists t; split; [split; [exact H1|split; [exact H2|exact H3]]|];
         split; [exact Ht|]; split; [exact Hc|reflexivity]).
  - destruct Hc as [Hle Hc]. exists now.
    split; [|split; [cbn; lia|split; [exact Hc|reflexivity]]].
    unfold time_ok, run, trackVisibilityChange.
    cbn [pageEntryTime lastVisibilityChange totalVisibleTime].
    destruct (isVisible p); lia.
  - exists t. unfold run, trackMouseLeave. destruct (_ <=? 5);
      (split; [split; [exact H1|split; [exact H2|exact H3]]|]);
      (split; [exact Ht|]); (split; [exact Hc|reflexivity]).
  - destruct Hc.
  - destruct Hc as [Hle Hc]. exists (reset_t1 env).
    split; [|split; [cbn; lia|split; [exact Hc|reflexivity]]].
    unfold time_ok. cbn. lia.
Qed.

Lemma time_ok_runAll (cs : list Call) :
  forall (t : Z) (p : Page),
  time_ok p -> lastVisibilityChange p <= t -> timed t cs ->
  time_ok (runAll cs p) /\ lastVisibilityChange (runAll cs p) <= lastReading t cs.
Proof.
  induction cs as [|c cs IH]; intros t p Hp Ht Hc.
  - split; assumption.
  - destruct (time_ok_run c t cs p Hp Ht Hc) as (t' & Hp' & Ht' & Hc' & ->).
    unfold runAll. cbn [fold_left]. now apply IH.
Qed.

(** X19.  While the clock does not go back, the active time reported by the
    first page exit of a page lies between zero and the time on the page,
    whatever handlers ran before. *)
Theorem active_time_within_time_on_page (cs : list Call) (t0 t1 now : Z)
  (clock : nat -> Z) (dom : nat -> Form) :
  t0 <= t1 -> timed t1 cs -> lastReading t1 cs <= now ->
  let p := trackPageExit now clock dom (runAll cs (initialPage t0 t1)) in
  exists log e activeTime timeOnPage,
    sent (core p) = (log ++ [e])%list /\ eventType e = "pageexit" /\
    obj_get "activeTime" (eventData e) = Some (JNum activeTime) /\
    obj_get "timeOnPage" (eventData e) = Some (JNum timeOnPage) /\
    0 <= activeTime <= timeOnPage.
Proof.
  intros H01 Hc Hnow. cbv zeta.
  destruct (time_ok_runAll cs t1 (initialPage t0 t1)) as [(H1 & H2 & H3) Hlast];
    [unfold time_ok; cbn; lia|cbn; lia|exact Hc|].
  set (p := runAll cs (initialPage t0 t1)) in *.
  unfold trackPageExit. cbn [core sent sendEvent].
  eexists. eexists. eexists. eexists.
  split; [reflexivity|]. split; [reflexivity|].
  split; [reflexivity|]. split; [reflexivity|].
  destruct (isVisible p); lia.
Qed.

(** X19 on a page hidden from 30 to 70 and left at 90. *)
Lemma active_time_within_time_on_page_witness :
  let p := trackPageExit 90 (fun _ => 90) (fun _ => loginForm)
             (runAll [CVisibility 30 true; CVisibility 70 false] (initialPage 0 0)) in
  exists log e activeTime timeOnPage,
    sent (core p) = (log ++ [e])%list /\ eventType e = "pageexit" /\
    obj_get "activeTime" (eventData e) = Some (JNum activeTime) /\
    obj_get "timeOnPage" (eventData e) = Some (JNum timeOnPage) /\
    0 <= activeTime <= timeOnPage.
Proof.
  apply (active_time_within_time_on_page [CVisibility 30 true; CVisibility 70 false]
           0 0 90 (fun _ => 90) (fun _ => loginForm)).
  - lia.
  - cbn. lia.
  - cbn. lia.
Defined.

(** ** The text a click reports *)







(** ** The Escape key *)

Lemma get_app_absent (k : nat) (pre m : FormMap.t) :
  ~ In k (map fst pre) -> FormMap.get k (pre ++ m)%list = FormMap.get k m.
Proof.
  induction pre as [|[k' d'] pre IH]; intros H; [reflexivity|].
  cbn in *. destruct (Nat.eqb_spec k k') as [->|Hne]; [elim H; now left|].
  apply IH. tauto.
Qed.

Lemma forEachForm_guard (guard : Form -> bool) (reason : string) (clock : nat -> Z)
  (dom : nat -> Form) (m : FormMap.t) :
  forall (pre : FormMap.t) (s : State),
  activeForms s = (pre ++ m)%list -> NoDup (map fst (pre ++ m)%list) ->
  Forall (fun e => record_ok (snd e)) m ->
  let s' := forEachForm guard reason clock dom (map fst m) s in
  activeForms s'
    = (pre ++ filter (fun e => negb (guard (formAt dom (fst e)))) m)%list /\
  exists l, sent s' = (sent s ++ l)%list /\
    typesOf l = map (fun _ => "form_abandonment")
                  (filter (fun k => (guard (formAt dom k)
                                     && (filledFields (formAt dom k) >? 0))%bool)
                     (map fst m)) /\
    Forall (fun e => reasonOf e = Some (JStr reason)) l.
Proof.
  induction m as [|[k d] m IH]; intros pre s Hm Hn Hf; cbv zeta.
  - cbn. split; [exact Hm|]. exists []. rewrite app_nil_r. repeat split. constructor.
  - cbn [map fst forEachForm filter].
    inversion Hf as [|? ? Hd Hf']; subst. cbn [snd] in Hd.
    assert (Hpre : ~ In k (map fst pre) /\ ~ In k (map fst m)).
    { rewrite map_app in Hn. cbn [map fst] in Hn.
      apply NoDup_remove_2 in Hn. rewrite in_app_iff in Hn. tauto. }
    assert (Hn' : NoDup (map fst (pre ++ m)%list)).
    { rewrite map_app in *. cbn [map fst] in Hn. now apply NoDup_remove_1 in Hn. }
    assert (G : FormMap.get k (activeForms s) = Some d).
    { rewrite Hm, get_app_absent by tauto. cbn. now rewrite Nat.eqb_refl. }
    rewrite G. destruct Hd as (Hs & Hne). rewrite Hs. cbn [negb]. rewrite andb_true_r.
    destruct (guard (formAt dom k)) eqn:Hg; cbn [negb andb].
    + destruct (checkFormAbandonment_live (clock k) (formAt dom k) reason s d G)
        as [Ha Hl]; [split; assumption|].
      set (s1 := checkFormAbandonment (clock k) (Some (formAt dom k)) reason s) in *.
      assert (Hm1 : activeForms s1 = (pre ++ m)%list).
      { rewrite Ha, Hm. cbn [form_node formAt]. unfold FormMap.delete.
        rewrite filter_app. cbn [filter fst]. rewrite Nat.eqb_refl. cbn [negb].
        fold (FormMap.delete k pre). fold (FormMap.delete k m).
        rewrite !delete_absent by tauto. reflexivity. }
      destruct (IH pre s1 Hm1 Hn' Hf') as (He & l & Hsent & Ht & Hr).
      split; [exact He|].
      eexists. split; [rewrite Hsent, Hl, <- app_assoc; reflexivity|].
      destruct (filledFields (formAt dom k) >? 0); cbn [app].
      * split; [unfold typesOf in *; cbn [map eventType]; now rewrite Ht|].
        constructor; [apply reasonOf_abandonment|exact Hr].
      * split; [exact Ht|exact Hr].
    + destruct (IH (pre ++ [(k, d)])%list s) as (He & l & Hsent & Ht & Hr);
        [rewrite <- app_assoc; exact Hm|rewrite <- app_assoc; exact Hn|exact Hf'|].
      split; [rewrite He, <- app_assoc; reflexivity|].
      exists l. auto.
Qed.

(** X21.  The timer of the Escape key checks the tracked forms that are no
    longer laid out, and only those: in any state a page load can reach, the
    record of every form still laid out stays as it is, the record of every
    other form goes, and one [form_abandonment] with the reason
    [escape_pressed] is sent for each of these that holds a value that is
    not blank. *)
Theorem escape_closes_only_hidden_forms (cs : list Call) (t0 t1 : Z) (clock : nat -> Z)
  (dom : nat -> Form) :
  let s := core (runAll cs (initialPage t0 t1)) in
  let s' := escapeTimer clock dom s in
  activeForms s' = filter (fun e => form_offsetParent (dom (fst e))) (activeForms s) /\
  typesOf (emitted s s') =
    map (fun _ => "form_abandonment")
      (filter (fun k => (negb (form_offsetParent (dom k))
                         && (filledFields (formAt dom k) >? 0))%bool) (keysOf s)) /\
  Forall (fun e => reasonOf e = Some (JStr "escape_pressed")) (emitted s s').
Proof.
  cbv zeta.
  assert (H : forall p, forms_ok (core p) -> forms_ok (core (runAll cs p))).
  { induction cs as [|c cs IH]; intros p Hp; [exact Hp|].
    unfold runAll. cbn [fold_left]. apply IH. now apply forms_ok_run. }
  specialize (H (initialPage t0 t1)).
  assert (Hok : forms_ok (core (runAll cs (initialPage t0 t1))))
    by (apply H; split; constructor).
  clear H. set (s := core (runAll cs (initialPage t0 t1))) in *.
  destruct Hok as [Hn Hf].
  destruct (forEachForm_guard (fun form => negb (form_offsetParent form)) "escape_pressed"
              clock dom (activeForms s) [] s eq_refl Hn Hf) as (He & l & Hsent & Ht & Hr).
  cbv zeta in He, Hsent. unfold escapeTimer, keysOf.
  rewrite (emitted_grows _ _ _ Hsent).
  split; [|split; [exact Ht|exact Hr]].
  rewrite He. cbn [app]. apply filter_ext. intros [k d]. cbn. apply negb_involutive.
Qed.
